(** * The Yelp load pipeline (phase2_python.py)

    A shallow embedding of the batch importer: the sanitizer, the session
    scope [connect_psql], the eight loaders and the module body that calls
    them, over an explicit model of the database session (committed and
    uncommitted table contents) and a chronological trace of the effects
    the program performs. *)

From Stdlib Require Import String Ascii List ZArith Bool Lia.
From Stdlib Require Import DecimalString.
Import ListNotations.
Local Open Scope string_scope.
Local Open Scope list_scope.
Set Warnings "-register-all".

(** ** Python strings

    A Python [str] is modelled by the bytes of its UTF-8 encoding.  The
    characters the program searches for (quote, newline, comma, space,
    dash) are ASCII, and no byte of a multi-byte UTF-8 sequence is ASCII,
    so replacing and splitting on them agree on bytes and on code points. *)

Module PyStr.

Definition quote : ascii := "'"%char.
Definition backtick : ascii := "`"%char.
Definition newline : ascii := "010"%char.
Definition space : ascii := " "%char.
Definition dash : ascii := "-"%char.

(** [s.replace(old, new)] where [old] and [new] are one character each,
    which is how both calls of the source use it. *)
Fixpoint replace (old new : ascii) (s : string) : string :=
  match s with
  | EmptyString => EmptyString
  | String c s' =>
      String (if Ascii.eqb c old then new else c) (replace old new s')
  end.

(** [split_from sep skip s] scans [s] from the left.  [skip] counts the
    characters of a separator just matched that are still to be passed
    over.  The result is the piece under construction and the pieces that
    follow it. *)
Fixpoint split_from (sep : string) (skip : nat) (s : string)
  : string * list string :=
  match s with
  | EmptyString => (EmptyString, [])
  | String c s' =>
      match skip with
      | S k => split_from sep k s'
      | O =>
          if String.prefix sep s
          then (EmptyString,
                let (h, t) := split_from sep (String.length sep - 1) s' in
                h :: t)
          else let (h, t) := split_from sep 0 s' in (String c h, t)
      end
  end.

(** [s.split(sep)] for a non-empty separator: the pieces between the
    occurrences of [sep], found from the left and not overlapping.  The
    source splits on [", "] and on ["-"] only. *)
Definition split (sep s : string) : list string :=
  let (h, t) := split_from sep 0 s in h :: t.

(** Number of occurrences of a character. *)
Fixpoint count (c : ascii) (s : string) : nat :=
  match s with
  | EmptyString => 0
  | String d s' => (if Ascii.eqb d c then 1 else 0) + count c s'
  end.

Fixpoint join (sep : string) (l : list string) : string :=
  match l with
  | [] => EmptyString
  | [x] => x
  | x :: rest => (x ++ sep ++ join sep rest)%string
  end.

End PyStr.

(** ** The sanitizer *)

Definition cleanStr4SQL (s : string) : string :=
  PyStr.replace PyStr.newline PyStr.space
    (PyStr.replace PyStr.quote PyStr.backtick s).

(** What the sanitizer does to one character. *)
Definition clean_char (c : ascii) : ascii :=
  if Ascii.eqb c PyStr.quote then PyStr.backtick
  else if Ascii.eqb c PyStr.newline then PyStr.space
  else c.

Fixpoint string_map (f : ascii -> ascii) (s : string) : string :=
  match s with
  | EmptyString => EmptyString
  | String c s' => String (f c) (string_map f s')
  end.

(** ** JSON values

    What [json.loads] returns: [None], booleans, integers, floats, strings,
    lists and dicts.  A float is kept as the text [repr] gives for it (the
    program only passes floats on, prints them or compares them with [1]).
    A dict is the list of its items in insertion order; its keys are
    distinct, and a lookup takes the first item with the key. *)

Inductive json : Type :=
| JNull
| JBool (b : bool)
| JInt (n : Z)
| JFloat (repr : string)
| JStr (s : string)
| JArr (items : list json)
| JObj (fields : list (string * json)).

Fixpoint json_eqb (x y : json) {struct x} : bool :=
  match x, y with
  | JNull, JNull => true
  | JBool a, JBool b => Bool.eqb a b
  | JInt a, JInt b => Z.eqb a b
  | JFloat a, JFloat b => String.eqb a b
  | JStr a, JStr b => String.eqb a b
  | JArr a, JArr b =>
      (fix items_eqb (l : list json) (m : list json) {struct l} : bool :=
         match l, m with
         | [], [] => true
         | v :: l', w :: m' => json_eqb v w && items_eqb l' m'
         | _, _ => false
         end) a b
  | JObj a, JObj b =>
      (fix fields_eqb (l : list (string * json)) (m : list (string * json))
           {struct l} : bool :=
         match l, m with
         | [], [] => true
         | (k, v) :: l', (k', w) :: m' =>
             String.eqb k k' && json_eqb v w && fields_eqb l' m'
         | _, _ => false
         end) a b
  | _, _ => false
  end.

(** Induction on JSON values, through the lists of a list or a dict. *)
Section JsonInduction.

Variable P : json -> Prop.
Hypothesis case_null : P JNull.
Hypothesis case_bool : forall b, P (JBool b).
Hypothesis case_int : forall n, P (JInt n).
Hypothesis case_float : forall r, P (JFloat r).
Hypothesis case_str : forall s, P (JStr s).
Hypothesis case_arr : forall items, Forall P items -> P (JArr items).
Hypothesis case_obj :
  forall fields, Forall (fun kv => P (snd kv)) fields -> P (JObj fields).

Fixpoint json_induction (v : json) : P v :=
  match v with
  | JNull => case_null
  | JBool b => case_bool b
  | JInt n => case_int n
  | JFloat r => case_float r
  | JStr s => case_str s
  | JArr items =>
      case_arr items
        ((fix all (l : list json) : Forall P l :=
            match l with
            | [] => Forall_nil P
            | x :: rest => Forall_cons x (json_induction x) (all rest)
            end) items)
  | JObj fields =>
      case_obj fields
        ((fix all (l : list (string * json))
            : Forall (fun kv => P (snd kv)) l :=
            match l with
            | [] => Forall_nil _
            | kv :: rest =>
                Forall_cons kv (json_induction (snd kv)) (all rest)
            end) fields)
  end.

End JsonInduction.

(** [d[key]] on a dict given by its items: [None] stands for [KeyError]. *)
Fixpoint lookup (key : string) (fields : list (string * json)) : option json :=
  match fields with
  | [] => None
  | (k, v) :: rest => if String.eqb k key then Some v else lookup key rest
  end.

(** [data[key]]: raises ([None]) when [data] is not a dict ([TypeError]) or
    has no such key ([KeyError]). *)
Definition subscript (data : json) (key : string) : option json :=
  match data with
  | JObj fields => lookup key fields
  | _ => None
  end.

(** [data.get(key, default)]: raises ([None]) when [data] is not a dict
    ([AttributeError]); the default stands in for a missing key only. *)
Definition dict_get (data : json) (key : string) (default : json)
  : option json :=
  match data with
  | JObj fields =>
      match lookup key fields with
      | Some v => Some v
      | None => Some default
      end
  | _ => None
  end.

(** [v.split(sep)]: raises ([None], [AttributeError]) unless [v] is a
    string. *)
Definition json_split (sep : string) (v : json) : option (list string) :=
  match v with
  | JStr s => Some (PyStr.split sep s)
  | _ => None
  end.

(** [v.items()]: raises unless [v] is a dict. *)
Definition json_items (v : json) : option (list (string * json)) :=
  match v with
  | JObj fields => Some fields
  | _ => None
  end.

(** [cleanStr4SQL(v)]: [v.replace] raises unless [v] is a string. *)
Definition clean_json (v : json) : option string :=
  match v with
  | JStr s => Some (cleanStr4SQL s)
  | _ => None
  end.

(** [v == 1] in Python: true for the integer 1, for [True] and for the
    float 1.0. *)
Definition equals_one (v : json) : bool :=
  match v with
  | JInt n => Z.eqb n 1
  | JBool b => b
  | JFloat r => String.eqb r "1.0"
  | _ => false
  end.

(** *** [str] and [repr]

    [repr] of a string picks the double quote when the string has a single
    quote and no double quote, and the single quote otherwise; it escapes
    the backslash, the chosen quote, tab, newline, carriage return and the
    other ASCII control characters.  Bytes above 127 are kept: they encode
    printable characters in ordinary text. *)

Definition hex_digit (n : nat) : ascii :=
  match n with
  | 0 => "0" | 1 => "1" | 2 => "2" | 3 => "3" | 4 => "4" | 5 => "5"
  | 6 => "6" | 7 => "7" | 8 => "8" | 9 => "9" | 10 => "a" | 11 => "b"
  | 12 => "c" | 13 => "d" | 14 => "e" | _ => "f"
  end%char.

Definition backslash : ascii := "092"%char.
Definition dquote : ascii := "034"%char.

Definition escape_char (q : ascii) (c : ascii) : string :=
  let n := nat_of_ascii c in
  if Ascii.eqb c backslash then String backslash (String backslash EmptyString)
  else if Ascii.eqb c q then String backslash (String q EmptyString)
  else if Nat.eqb n 9 then String backslash "t"
  else if Nat.eqb n 10 then String backslash "n"
  else if Nat.eqb n 13 then String backslash "r"
  else if Nat.ltb n 32 || Nat.eqb n 127
       then String backslash
              (String "x" (String (hex_digit (n / 16))
                             (String (hex_digit (n mod 16)) EmptyString)))
  else String c EmptyString.

Fixpoint escape (q : ascii) (s : string) : string :=
  match s with
  | EmptyString => EmptyString
  | String c s' => (escape_char q c ++ escape q s')%string
  end.

Definition repr_str (s : string) : string :=
  let q := if Nat.ltb 0 (PyStr.count PyStr.quote s)
              && Nat.eqb (PyStr.count dquote s) 0
           then dquote else PyStr.quote in
  String q (escape q s ++ String q EmptyString)%string.

Definition str_int (n : Z) : string := NilEmpty.string_of_int (Z.to_int n).

Fixpoint py_repr (v : json) : string :=
  match v with
  | JNull => "None"
  | JBool true => "True"
  | JBool false => "False"
  | JInt n => str_int n
  | JFloat r => r
  | JStr s => repr_str s
  | JArr items =>
      ("[" ++ PyStr.join ", " (List.map py_repr items) ++ "]")%string
  | JObj fields =>
      ("{" ++ PyStr.join ", "
                (List.map
                   (fun kv => repr_str (fst kv) ++ ": " ++ py_repr (snd kv))
                   fields) ++ "}")%string
  end.

(** [str(v)]: the string itself for a string, [repr(v)] otherwise. *)
Definition py_str (v : json) : string :=
  match v with
  | JStr s => s
  | _ => py_repr v
  end.

(** ** Tables, rows and statements

    A row holds the values the program binds to the statement that inserts
    it, column by column.  The column names are those of the statements in
    the source. *)

Module Business.
Record row : Type := {
  business_id : json;
  business_name : string;
  business_address : string;
  city : json;
  state : json;
  zip_code : json;
  latitude : json;
  longitude : json;
  stars : json;
  is_open : string;
  tip_count : Z
}.
End Business.

Module YelpUser.
Record row : Type := {
  user_id : json;
  user_name : string;
  yelping_since : json;
  tip_count : json;
  fans : json;
  average_stars : json;
  funny : json;
  useful : json;
  cool : json
}.
End YelpUser.

Module Tip.
Record row : Type := {
  user_id : json;
  business_id : json;
  timestamp : json;
  likes : json;
  text : string
}.
End Tip.

(** The ten statements of the source, with their bound parameters. *)
Inductive statement : Type :=
| InsertBusiness (r : Business.row)
| InsertCategory (name : string)
| InsertBusinessCategory (business_id : json) (category_name : string)
| InsertAttribute (name : string)
| InsertBusinessAttributeValue
    (business_id : json) (attribute_name attribute_value : string)
| InsertHours (business_id : json) (day_of_week open_time close_time : string)
| InsertYelpUser (r : YelpUser.row)
| InsertFriendship (follower_id : json) (followee_id : string)
| InsertTip (r : Tip.row)
| InsertCheckin (business_id : json) (timestamp : string).

Record database : Type := {
  Business_t : list Business.row;
  Category_t : list string;
  BusinessCategory_t : list (json * string);
  Attribute_t : list string;
  BusinessAttributeValue_t : list (json * string * string);
  Hours_t : list (json * string * string * string);
  YelpUser_t : list YelpUser.row;
  Friendship_t : list (json * string);
  Tip_t : list Tip.row;
  Checkin_t : list (json * string)
}.

Definition empty_database : database :=
  {| Business_t := []; Category_t := []; BusinessCategory_t := [];
     Attribute_t := []; BusinessAttributeValue_t := []; Hours_t := [];
     YelpUser_t := []; Friendship_t := []; Tip_t := []; Checkin_t := [] |}.

Definition add_Business (r : Business.row) (d : database) : database :=
  {| Business_t := Business_t d ++ [r]; Category_t := Category_t d;
     BusinessCategory_t := BusinessCategory_t d; Attribute_t := Attribute_t d;
     BusinessAttributeValue_t := BusinessAttributeValue_t d;
     Hours_t := Hours_t d; YelpUser_t := YelpUser_t d;
     Friendship_t := Friendship_t d; Tip_t := Tip_t d;
     Checkin_t := Checkin_t d |}.

Definition add_Category (n : string) (d : database) : database :=
  {| Business_t := Business_t d; Category_t := Category_t d ++ [n];
     BusinessCategory_t := BusinessCategory_t d; Attribute_t := Attribute_t d;
     BusinessAttributeValue_t := BusinessAttributeValue_t d;
     Hours_t := Hours_t d; YelpUser_t := YelpUser_t d;
     Friendship_t := Friendship_t d; Tip_t := Tip_t d;
     Checkin_t := Checkin_t d |}.

Definition add_BusinessCategory (r : json * string) (d : database) : database :=
  {| Business_t := Business_t d; Category_t := Category_t d;
     BusinessCategory_t := BusinessCategory_t d ++ [r];
     Attribute_t := Attribute_t d;
     BusinessAttributeValue_t := BusinessAttributeValue_t d;
     Hours_t := Hours_t d; YelpUser_t := YelpUser_t d;
     Friendship_t := Friendship_t d; Tip_t := Tip_t d;
     Checkin_t := Checkin_t d |}.

Definition add_Attribute (n : string) (d : database) : database :=
  {| Business_t := Business_t d; Category_t := Category_t d;
     BusinessCategory_t := BusinessCategory_t d;
     Attribute_t := Attribute_t d ++ [n];
     BusinessAttributeValue_t := BusinessAttributeValue_t d;
     Hours_t := Hours_t d; YelpUser_t := YelpUser_t d;
     Friendship_t := Friendship_t d; Tip_t := Tip_t d;
     Checkin_t := Checkin_t d |}.

Definition add_BusinessAttributeValue (r : json * string * string)
  (d : database) : database :=
  {| Business_t := Business_t d; Category_t := Category_t d;
     BusinessCategory_t := BusinessCategory_t d; Attribute_t := Attribute_t d;
     BusinessAttributeValue_t := BusinessAttributeValue_t d ++ [r];
     Hours_t := Hours_t d; YelpUser_t := YelpUser_t d;
     Friendship_t := Friendship_t d; Tip_t := Tip_t d;
     Checkin_t := Checkin_t d |}.

Definition add_Hours (r : json * string * string * string) (d : database)
  : database :=
  {| Business_t := Business_t d; Category_t := Category_t d;
     BusinessCategory_t := BusinessCategory_t d; Attribute_t := Attribute_t d;
     BusinessAttributeValue_t := BusinessAttributeValue_t d;
     Hours_t := Hours_t d ++ [r]; YelpUser_t := YelpUser_t d;
     Friendship_t := Friendship_t d; Tip_t := Tip_t d;
     Checkin_t := Checkin_t d |}.

Definition add_YelpUser (r : YelpUser.row) (d : database) : database :=
  {| Business_t := Business_t d; Category_t := Category_t d;
     BusinessCategory_t := BusinessCategory_t d; Attribute_t := Attribute_t d;
     BusinessAttributeValue_t := BusinessAttributeValue_t d;
     Hours_t := Hours_t d; YelpUser_t := YelpUser_t d ++ [r];
     Friendship_t := Friendship_t d; Tip_t := Tip_t d;
     Checkin_t := Checkin_t d |}.

Definition add_Friendship (r : json * string) (d : database) : database :=
  {| Business_t := Business_t d; Category_t := Category_t d;
     BusinessCategory_t := BusinessCategory_t d; Attribute_t := Attribute_t d;
     BusinessAttributeValue_t := BusinessAttributeValue_t d;
     Hours_t := Hours_t d; YelpUser_t := YelpUser_t d;
     Friendship_t := Friendship_t d ++ [r]; Tip_t := Tip_t d;
     Checkin_t := Checkin_t d |}.

Definition add_Tip (r : Tip.row) (d : database) : database :=
  {| Business_t := Business_t d; Category_t := Category_t d;
     BusinessCategory_t := BusinessCategory_t d; Attribute_t := Attribute_t d;
     BusinessAttributeValue_t := BusinessAttributeValue_t d;
     Hours_t := Hours_t d; YelpUser_t := YelpUser_t d;
     Friendship_t := Friendship_t d; Tip_t := Tip_t d ++ [r];
     Checkin_t := Checkin_t d |}.

Definition add_Checkin (r : json * string) (d : database) : database :=
  {| Business_t := Business_t d; Category_t := Category_t d;
     BusinessCategory_t := BusinessCategory_t d; Attribute_t := Attribute_t d;
     BusinessAttributeValue_t := BusinessAttributeValue_t d;
     Hours_t := Hours_t d; YelpUser_t := YelpUser_t d;
     Friendship_t := Friendship_t d; Tip_t := Tip_t d;
     Checkin_t := Checkin_t d ++ [r] |}.

Definition has_business (id : json) (d : database) : bool :=
  existsb (fun r => json_eqb (Business.business_id r) id) (Business_t d).

Definition has_user (id : json) (d : database) : bool :=
  existsb (fun r => json_eqb (YelpUser.user_id r) id) (YelpUser_t d).

Definition has_name (n : string) (names : list string) : bool :=
  existsb (String.eqb n) names.

(** ** The environment of a run

    The parts of the system that are not in the source file: the schema
    and the engine, through the statements they refuse; the database
    server, through the connection attempts that succeed; the attribute
    normalizer of [parse_yelpdata]; and the four input files.

    - [refuses q d]: executing [q] on the uncommitted contents [d] raises
      (a constraint other than the statement's conflict target, a value
      the driver cannot adapt, ...).
    - [conflicts q d]: for a statement with an untargeted
      [ON CONFLICT DO NOTHING], the row collides with a uniqueness
      constraint of the schema.
    - [connects n]: the [n]-th call of [psycopg2.connect] in the run
      returns a connection.
    - [get_attributes v]: the pairs the normalizer yields for the raw
      attribute value [v], [None] where it raises.
    - a file is [None] where [open] raises; a line is given by what
      [json.loads] makes of it, [None] where it raises. *)

Definition line : Type := option json.

Record environment : Type := {
  refuses : statement -> database -> bool;
  conflicts : statement -> database -> bool;
  connects : nat -> bool;
  get_attributes : json -> option (list (string * json));
  yelp_business : option (list line);
  yelp_user : option (list line);
  yelp_tip : option (list line);
  yelp_checkin : option (list line)
}.

(** The effect of an accepted statement on the table contents. *)
Definition apply (E : environment) (q : statement) (d : database) : database :=
  match q with
  | InsertBusiness r =>
      if has_business (Business.business_id r) d then d else add_Business r d
  | InsertCategory n =>
      if has_name n (Category_t d) then d else add_Category n d
  | InsertBusinessCategory b n => add_BusinessCategory (b, n) d
  | InsertAttribute n =>
      if has_name n (Attribute_t d) then d else add_Attribute n d
  | InsertBusinessAttributeValue b a v =>
      add_BusinessAttributeValue (b, a, v) d
  | InsertHours b day o c => add_Hours (b, day, o, c) d
  | InsertYelpUser r =>
      if has_user (YelpUser.user_id r) d then d else add_YelpUser r d
  | InsertFriendship u f =>
      if conflicts E q d then d else add_Friendship (u, f) d
  | InsertTip r => if conflicts E q d then d else add_Tip r d
  | InsertCheckin b t => if conflicts E q d then d else add_Checkin (b, t) d
  end.

(** ** Sessions, effects and the trace *)

(** The table a pass fills; the failure message of a pass names it. *)
Inductive table : Type :=
| TBusiness | TBusinessCategory | TBusinessAttributeValue | THours
| TYelpUser | TFriendship | TTip | TCheckin.

(** The two kinds of line the program prints: the failure of a row, with
    the table and the key it is reported under, and the failure of a
    pass. *)
Inductive message : Type :=
| RowFailed (t : table) (key : json)
| DatabaseError.

Inductive event : Type :=
| Call (t : table)
| Connect (ok : bool)
| Cursor
| Exec (q : statement) (ok : bool)
| Commit
| Rollback
| Print (m : message)
| CursorClose
| ConnClose.

(** [committed] is what the database holds; [working] is what the open
    transaction sees; [attempts] counts the connection attempts so far;
    [trace] lists the effects performed, oldest first. *)
Record session : Type := {
  committed : database;
  working : database;
  attempts : nat;
  trace : list event
}.

Definition emit (e : event) (s : session) : session :=
  {| committed := committed s; working := working s;
     attempts := attempts s; trace := trace s ++ [e] |}.

Definition set_working (d : database) (s : session) : session :=
  {| committed := committed s; working := d;
     attempts := attempts s; trace := trace s |}.

Definition set_committed (d : database) (s : session) : session :=
  {| committed := d; working := working s;
     attempts := attempts s; trace := trace s |}.

Definition next_attempt (s : session) : session :=
  {| committed := committed s; working := working s;
     attempts := S (attempts s); trace := trace s |}.

(** A computation either returns or raises, and leaves a session. *)
Inductive outcome (A : Type) : Type :=
| Returned (a : A)
| Raised.
Arguments Returned {A} a.
Arguments Raised {A}.

Definition action (A : Type) : Type := session -> outcome A * session.

Definition ret {A : Type} (a : A) : action A := fun s => (Returned a, s).

Definition raise {A : Type} : action A := fun s => (Raised, s).

Definition bind {A B : Type} (m : action A) (k : A -> action B) : action B :=
  fun s =>
    match m s with
    | (Returned a, s') => k a s'
    | (Raised, s') => (Raised, s')
    end.

Declare Scope action_scope.
Delimit Scope action_scope with action.
Notation "x <- m ;; k" := (bind m (fun x => k))
  (at level 61, m at next level, right associativity) : action_scope.
Notation "m ;; k" := (bind m (fun _ => k))
  (at level 61, right associativity) : action_scope.
Local Open Scope action_scope.

(** An expression that may raise and has no other effect. *)
Definition eval {A : Type} (o : option A) : action A :=
  match o with
  | Some a => ret a
  | None => raise
  end.

(** [try: body except Exception: handler]. *)
Definition try_except (body handler : action unit) : action unit :=
  fun s =>
    match body s with
    | (Returned a, s') => (Returned a, s')
    | (Raised, s') => handler s'
    end.

(** [for x in l: f x]. *)
Fixpoint for_each {A : Type} (f : A -> action unit) (l : list A)
  : action unit :=
  match l with
  | [] => ret tt
  | x :: rest => f x ;; for_each f rest
  end.

Definition opt_bind {A B : Type} (o : option A) (k : A -> option B)
  : option B :=
  match o with
  | Some a => k a
  | None => None
  end.

Definition print (m : message) : action unit :=
  fun s => (Returned tt, emit (Print m) s).

(** [conn.rollback()]: the uncommitted work is dropped. *)
Definition rollback : action unit :=
  fun s => (Returned tt, emit Rollback (set_working (committed s) s)).

(** [conn.commit()]: the uncommitted work becomes the database. *)
Definition commit : action unit :=
  fun s => (Returned tt, emit Commit (set_committed (working s) s)).

(** ** The program *)

Section Program.

Variable E : environment.

(** [cursor.execute(q, params)]. *)
Definition execute (q : statement) : action unit :=
  fun s =>
    if refuses E q (working s)
    then (Raised, emit (Exec q false) s)
    else (Returned tt, emit (Exec q true) (set_working (apply E q (working s)) s)).

(** [psycopg2.connect(...)]: the five parameters are read from
    [psql_params], which holds them all, so whether the call returns a
    connection is up to the server.  A fresh connection sees the database
    as it is committed. *)
Definition connect : action unit :=
  fun s =>
    if connects E (attempts s)
    then (Returned tt,
          emit (Connect true) (set_working (committed s) (next_attempt s)))
    else (Raised, emit (Connect false) (next_attempt s)).

(** [with connect_psql(psql_params) as cursor: body].

    When [psycopg2.connect] raises, the generator prints from its [except]
    clause, skips both [if conn:] blocks and ends without having yielded;
    [contextlib] then raises [RuntimeError] from the [with] statement.
    Otherwise the body runs; a body that returns is followed by
    [conn.commit()], a body that raises by [conn.rollback()] and the
    print, and the [with] statement suppresses the exception; the
    [finally] clause closes the cursor and the connection. *)
Definition connect_psql (body : action unit) : action unit :=
  fun s =>
    match connect s with
    | (Raised, s1) => (Raised, emit (Print DatabaseError) s1)
    | (Returned _, s1) =>
        let s2 := emit Cursor s1 in
        let s4 :=
          match (body ;; commit) s2 with
          | (Returned _, s3) => s3
          | (Raised, s3) => snd ((rollback ;; print DatabaseError) s3)
          end in
        (Returned tt, emit ConnClose (emit CursorClose s4))
    end.

(** [with open(path) as f:] and the [readline] loop: the loop body runs
    on each line of the file in turn. *)
Definition read_lines (file : option (list line)) (step : line -> action unit)
  : action unit :=
  lines <- eval file ;; for_each step lines.

Definition json_loads (l : line) : action json := eval l.

(** *** Business *)

Definition business_params (data : json) : option Business.row :=
  opt_bind (subscript data "business_id") (fun business_id =>
  opt_bind (opt_bind (subscript data "name") clean_json) (fun name =>
  opt_bind (opt_bind (subscript data "address") clean_json) (fun address =>
  opt_bind (subscript data "city") (fun city =>
  opt_bind (subscript data "state") (fun state =>
  opt_bind (subscript data "postal_code") (fun postal_code =>
  opt_bind (subscript data "latitude") (fun latitude =>
  opt_bind (subscript data "longitude") (fun longitude =>
  opt_bind (subscript data "stars") (fun stars =>
  opt_bind (subscript data "is_open") (fun is_open =>
  Some {| Business.business_id := business_id;
          Business.business_name := name;
          Business.business_address := address;
          Business.city := city;
          Business.state := state;
          Business.zip_code := postal_code;
          Business.latitude := latitude;
          Business.longitude := longitude;
          Business.stars := stars;
          Business.is_open := if equals_one is_open then "TRUE" else "FALSE";
          Business.tip_count := 0 |})))))))))).

Definition business_line (l : line) : action unit :=
  data <- json_loads l ;;
  try_except
    (r <- eval (business_params data) ;; execute (InsertBusiness r))
    (key <- eval (dict_get data "business_id" (JStr "unknown")) ;;
     print (RowFailed TBusiness key)).

Definition insert_business : action unit :=
  connect_psql (read_lines (yelp_business E) business_line).

(** *** BusinessCategory *)

(** The body of the per-row [try]: the lookup insert, then the link. *)
Definition category_inserts (business_id : json) (category : string)
  : action unit :=
  execute (InsertCategory (cleanStr4SQL category)) ;;
  execute (InsertBusinessCategory business_id (cleanStr4SQL category)).

Definition category_row (business_id : json) (category : string)
  : action unit :=
  try_except
    (category_inserts business_id category)
    (rollback ;; print (RowFailed TBusinessCategory business_id)).

Definition business_categories_line (l : line) : action unit :=
  data <- json_loads l ;;
  business_id <- eval (subscript data "business_id") ;;
  categories <- eval (opt_bind (dict_get data "categories" (JStr EmptyString))
                        (json_split ", ")) ;;
  for_each (category_row business_id) categories.

Definition insert_business_categories : action unit :=
  connect_psql (read_lines (yelp_business E) business_categories_line).

(** *** BusinessAttributeValue *)

Definition attribute_inserts (business_id : json) (pair : string * json)
  : action unit :=
  let (attr, value) := pair in
  execute (InsertAttribute (cleanStr4SQL attr)) ;;
  execute (InsertBusinessAttributeValue business_id (cleanStr4SQL attr)
             (cleanStr4SQL (py_str value))).

Definition attribute_row (business_id : json) (pair : string * json)
  : action unit :=
  try_except
    (attribute_inserts business_id pair)
    (rollback ;; print (RowFailed TBusinessAttributeValue business_id)).

Definition business_attributes_line (l : line) : action unit :=
  data <- json_loads l ;;
  business_id <- eval (subscript data "business_id") ;;
  attributes <- eval (dict_get data "attributes" (JObj [])) ;;
  pairs <- eval (get_attributes E attributes) ;;
  for_each (attribute_row business_id) pairs.

Definition insert_business_attributes : action unit :=
  connect_psql (read_lines (yelp_business E) business_attributes_line).

(** *** Hours *)

(** [open_time, close_time = time_range.split("-")]: raises unless
    [time_range] is a string that splits into exactly two pieces. *)
Definition open_close (time_range : json) : option (string * string) :=
  match json_split "-" time_range with
  | Some [open_time; close_time] => Some (open_time, close_time)
  | _ => None
  end.

Definition hours_row (business_id : json) (item : string * json)
  : action unit :=
  let (day, time_range) := item in
  times <- eval (open_close time_range) ;;
  try_except
    (execute (InsertHours business_id day (fst times) (snd times)))
    (print (RowFailed THours business_id)).

Definition hours_line (l : line) : action unit :=
  data <- json_loads l ;;
  business_id <- eval (subscript data "business_id") ;;
  hours <- eval (opt_bind (dict_get data "hours" (JObj [])) json_items) ;;
  for_each (hours_row business_id) hours.

Definition insert_hours : action unit :=
  connect_psql (read_lines (yelp_business E) hours_line).

(** *** YelpUser *)

Definition user_params (data : json) : option YelpUser.row :=
  opt_bind (subscript data "user_id") (fun user_id =>
  opt_bind (opt_bind (subscript data "name") clean_json) (fun name =>
  opt_bind (subscript data "yelping_since") (fun yelping_since =>
  opt_bind (subscript data "tipcount") (fun tipcount =>
  opt_bind (subscript data "fans") (fun fans =>
  opt_bind (subscript data "average_stars") (fun average_stars =>
  opt_bind (subscript data "funny") (fun funny =>
  opt_bind (subscript data "useful") (fun useful =>
  opt_bind (subscript data "cool") (fun cool =>
  Some {| YelpUser.user_id := user_id;
          YelpUser.user_name := name;
          YelpUser.yelping_since := yelping_since;
          YelpUser.tip_count := tipcount;
          YelpUser.fans := fans;
          YelpUser.average_stars := average_stars;
          YelpUser.funny := funny;
          YelpUser.useful := useful;
          YelpUser.cool := cool |}))))))))).

Definition users_line (l : line) : action unit :=
  data <- json_loads l ;;
  try_except
    (r <- eval (user_params data) ;; execute (InsertYelpUser r))
    (key <- eval (dict_get data "user_id" (JStr "unknown")) ;;
     print (RowFailed TYelpUser key)).

Definition insert_users : action unit :=
  connect_psql (read_lines (yelp_user E) users_line).

(** *** Friendship *)

Definition friend_row (user_id : json) (friend_id : string) : action unit :=
  try_except
    (execute (InsertFriendship user_id friend_id))
    (print (RowFailed TFriendship user_id)).

Definition friends_line (l : line) : action unit :=
  data <- json_loads l ;;
  user_id <- eval (subscript data "user_id") ;;
  friends <- eval (opt_bind (dict_get data "friends" (JStr EmptyString))
                     (json_split ", ")) ;;
  for_each (friend_row user_id) friends.

Definition insert_friends : action unit :=
  connect_psql (read_lines (yelp_user E) friends_line).

(** *** Tip *)

Definition tip_params (data : json) : option Tip.row :=
  opt_bind (subscript data "user_id") (fun user_id =>
  opt_bind (subscript data "business_id") (fun business_id =>
  opt_bind (subscript data "date") (fun date =>
  opt_bind (subscript data "likes") (fun likes =>
  opt_bind (opt_bind (subscript data "text") clean_json) (fun text =>
  Some {| Tip.user_id := user_id;
          Tip.business_id := business_id;
          Tip.timestamp := date;
          Tip.likes := likes;
          Tip.text := text |}))))).

Definition tips_line (l : line) : action unit :=
  data <- json_loads l ;;
  try_except
    (r <- eval (tip_params data) ;; execute (InsertTip r))
    (key <- eval (dict_get data "user_id" (JStr "unknown")) ;;
     print (RowFailed TTip key)).

Definition insert_tips : action unit :=
  connect_psql (read_lines (yelp_tip E) tips_line).

(** *** Checkin *)

Definition checkin_insert (business_id : json) (timestamp : string)
  : action unit :=
  execute (InsertCheckin business_id timestamp).

Definition checkin_row (business_id : json) (timestamp : string)
  : action unit :=
  try_except
    (checkin_insert business_id timestamp)
    (rollback ;; print (RowFailed TCheckin business_id)).

Definition checkins_line (l : line) : action unit :=
  data <- json_loads l ;;
  business_id <- eval (subscript data "business_id") ;;
  checkins <- eval (opt_bind (dict_get data "date" (JStr EmptyString))
                      (json_split ", ")) ;;
  for_each (checkin_row business_id) checkins.

Definition insert_checkins : action unit :=
  connect_psql (read_lines (yelp_checkin E) checkins_line).

(** *** The module body *)

Definition call (t : table) (f : action unit) : action unit :=
  fun s => f (emit (Call t) s).

Definition main : action unit :=
  call TBusiness insert_business ;;
  call TBusinessCategory insert_business_categories ;;
  call TBusinessAttributeValue insert_business_attributes ;;
  call THours insert_hours ;;
  call TYelpUser insert_users ;;
  call TFriendship insert_friends ;;
  call TTip insert_tips ;;
  call TCheckin insert_checkins.

(** The passes by the table they fill. *)
Definition source (t : table) : option (list line) :=
  match t with
  | TBusiness | TBusinessCategory | TBusinessAttributeValue | THours =>
      yelp_business E
  | TYelpUser | TFriendship => yelp_user E
  | TTip => yelp_tip E
  | TCheckin => yelp_checkin E
  end.

Definition line_step (t : table) : line -> action unit :=
  match t with
  | TBusiness => business_line
  | TBusinessCategory => business_categories_line
  | TBusinessAttributeValue => business_attributes_line
  | THours => hours_line
  | TYelpUser => users_line
  | TFriendship => friends_line
  | TTip => tips_line
  | TCheckin => checkins_line
  end.

Definition pass (t : table) : action unit :=
  match t with
  | TBusiness => insert_business
  | TBusinessCategory => insert_business_categories
  | TBusinessAttributeValue => insert_business_attributes
  | THours => insert_hours
  | TYelpUser => insert_users
  | TFriendship => insert_friends
  | TTip => insert_tips
  | TCheckin => insert_checkins
  end.

End Program.

(** A session at the start of a run. *)
Definition start (d : database) : session :=
  {| committed := d; working := d; attempts := 0; trace := [] |}.

(** ** Sample environments

    Concrete instances of the environment, for running the program. *)

(** Modelled from the spec: the attribute normalizer [get_attributes] of
    [parse_yelpdata], which is not in the source file.  It takes the raw
    attribute mapping and yields (name, value) pairs, nested mappings
    flattened to dotted names. *)
Fixpoint flatten (name : string) (v : json) : list (string * json) :=
  match v with
  | JObj fields =>
      (fix each (l : list (string * json)) : list (string * json) :=
         match l with
         | [] => []
         | (k, w) :: rest => flatten (name ++ "." ++ k)%string w ++ each rest
         end) fields
  | _ => [(name, v)]
  end.

Definition normalizer (attributes : json) : option (list (string * json)) :=
  match attributes with
  | JObj fields =>
      Some (flat_map (fun kv => flatten (fst kv) (snd kv)) fields)
  | _ => None
  end.

(** A schema whose category names are limited to [limit] characters and
    that has no other constraint than the conflict targets. *)
Definition varchar (limit : nat) (q : statement) (d : database) : bool :=
  match q with
  | InsertCategory n => Nat.ltb limit (String.length n)
  | InsertBusinessCategory _ n => Nat.ltb limit (String.length n)
  | _ => false
  end.

Definition sample (limit : nat) (online : bool) (business user tip checkin : list line)
  : environment :=
  {| refuses := varchar limit;
     conflicts := fun _ _ => false;
     connects := fun _ => online;
     get_attributes := normalizer;
     yelp_business := Some business;
     yelp_user := Some user;
     yelp_tip := Some tip;
     yelp_checkin := Some checkin |}.

(** An environment that refuses no statement. *)
Definition lenient (business : list line) : environment :=
  {| refuses := fun _ _ => false;
     conflicts := fun _ _ => false;
     connects := fun _ => true;
     get_attributes := normalizer;
     yelp_business := Some business;
     yelp_user := Some [];
     yelp_tip := Some [];
     yelp_checkin := Some [] |}.

Definition business_record (id name categories : string) : json :=
  JObj [("business_id", JStr id); ("name", JStr name);
        ("address", JStr "1 Main St"); ("city", JStr "Tempe");
        ("state", JStr "AZ"); ("postal_code", JStr "85281");
        ("latitude", JFloat "33.4"); ("longitude", JFloat "-111.9");
        ("stars", JFloat "4.5"); ("is_open", JInt 1);
        ("categories", JStr categories)].


(** Number of Business rows with a given id. *)
Definition business_count (id : json) (d : database) : nat :=
  List.length
    (filter (fun r => json_eqb (Business.business_id r) id) (Business_t d)).

Definition business_ids (d : database) : list json :=
  List.map Business.business_id (Business_t d).

(** The events a loader performs between connecting and the end of its
    [with] block. *)
Definition row_event (e : event) : bool :=
  match e with
  | Exec _ _ | Rollback | Print _ => true
  | _ => false
  end.

Definition accepted_exec (e : event) : bool :=
  match e with
  | Exec _ true => true
  | _ => false
  end.

Definition is_call (e : event) : bool :=
  match e with
  | Call _ => true
  | _ => false
  end.

(** The session a pass hands to its body: connected, with a cursor. *)
Definition entered (s : session) : session :=
  emit Cursor (emit (Connect true) (set_working (committed s) (next_attempt s))).

(** The field a pass reads outside its per-row [try], if any. *)
Definition outer_key (t : table) : option string :=
  match t with
  | TBusinessCategory | TBusinessAttributeValue | THours | TCheckin =>
      Some "business_id"
  | TFriendship => Some "user_id"
  | TBusiness | TYelpUser | TTip => None
  end.

Definition tip_zero (r : Business.row) : Prop := Business.tip_count r = 0%Z.

(** What a Business pass may do to the table: add rows whose tip count is
    0 after the rows that are there, keeping the ids distinct. *)
Definition grows (d0 d : database) : Prop :=
  (exists added,
      Business_t d = Business_t d0 ++ added /\ Forall tip_zero added) /\
  (NoDup (business_ids d0) -> NoDup (business_ids d)).

(** A line the Business loader can build its row from. *)
Definition loadable (l : line) : bool :=
  match l with
  | Some data =>
      match business_params data with
      | Some _ => true
      | None => false
      end
  | None => false
  end.

(** Two kinds of line that abort a pass: a line that [json.loads]
    rejects, and a dict without the field its pass reads outside the
    per-row [try]. *)
Definition aborting (t : table) (l : line) : bool :=
  match l with
  | None => true
  | Some (JObj fields) =>
      match outer_key t with
      | Some key =>
          match lookup key fields with
          | None => true
          | Some _ => false
          end
      | None => false
      end
  | Some _ => false
  end.

(** An action of a pass body: it commits nothing, opens no connection and
    adds only row events to the trace. *)
Definition quiet {A : Type} (a : action A) : Prop :=
  forall s,
    committed (snd (a s)) = committed s /\
    attempts (snd (a s)) = attempts s /\
    exists evs, trace (snd (a s)) = trace s ++ evs /\
                forallb row_event evs = true.

(** ** Further notions *)

(** [s[n:]]: the string without its first [n] characters. *)
Fixpoint string_drop (n : nat) (s : string) : string :=
  match n, s with
  | O, _ => s
  | S k, EmptyString => EmptyString
  | S k, String _ s' => string_drop k s'
  end.

Definition user_ids (d : database) : list json :=
  List.map YelpUser.user_id (YelpUser_t d).

(** [l'] is [l] followed by further elements. *)
Definition prefix_of {A : Type} (l l' : list A) : Prop :=
  exists added, l' = l ++ added.

(** Every table of [d'] starts with the rows of the same table of [d], in
    the same order. *)
Definition extends (d d' : database) : Prop :=
  prefix_of (Business_t d) (Business_t d') /\
  prefix_of (Category_t d) (Category_t d') /\
  prefix_of (BusinessCategory_t d) (BusinessCategory_t d') /\
  prefix_of (Attribute_t d) (Attribute_t d') /\
  prefix_of (BusinessAttributeValue_t d) (BusinessAttributeValue_t d') /\
  prefix_of (Hours_t d) (Hours_t d') /\
  prefix_of (YelpUser_t d) (YelpUser_t d') /\
  prefix_of (Friendship_t d) (Friendship_t d') /\
  prefix_of (Tip_t d) (Tip_t d') /\
  prefix_of (Checkin_t d) (Checkin_t d').

(** The uniqueness constraints that the targeted conflict clauses of the
    source name: business ids, user ids, category names and attribute
    names. *)
Definition keys_distinct (d : database) : Prop :=
  NoDup (business_ids d) /\ NoDup (user_ids d) /\
  NoDup (Category_t d) /\ NoDup (Attribute_t d).

(** The database without the tables that the statements of a pass insert
    into. *)
Definition erase (t : table) (d : database) : database :=
  {| Business_t := match t with TBusiness => [] | _ => Business_t d end;
     Category_t := match t with TBusinessCategory => [] | _ => Category_t d end;
     BusinessCategory_t :=
       match t with TBusinessCategory => [] | _ => BusinessCategory_t d end;
     Attribute_t :=
       match t with TBusinessAttributeValue => [] | _ => Attribute_t d end;
     BusinessAttributeValue_t :=
       match t with
       | TBusinessAttributeValue => []
       | _ => BusinessAttributeValue_t d
       end;
     Hours_t := match t with THours => [] | _ => Hours_t d end;
     YelpUser_t := match t with TYelpUser => [] | _ => YelpUser_t d end;
     Friendship_t := match t with TFriendship => [] | _ => Friendship_t d end;
     Tip_t := match t with TTip => [] | _ => Tip_t d end;
     Checkin_t := match t with TCheckin => [] | _ => Checkin_t d end |}.


Definition preorder (R : database -> database -> Prop) : Prop :=
  (forall d, R d d) /\ (forall a b c, R a b -> R b c -> R a c).

(** An action that commits nothing and keeps the uncommitted contents
    related to the committed ones. *)
Definition keeps (R : database -> database -> Prop) {A : Type}
  (a : action A) : Prop :=
  forall s,
    committed (snd (a s)) = committed s /\
    (R (committed s) (working s) -> R (committed s) (working (snd (a s)))).

(** The statements a trace executes, accepted or not, oldest first. *)
Definition statements (evs : list event) : list statement :=
  flat_map (fun e => match e with Exec q _ => [q] | _ => [] end) evs.

Definition unpacks (item : string * json) : bool :=
  match open_close (snd item) with
  | Some _ => true
  | None => false
  end.

(** The Hours rows of the days of a record whose range unpacks. *)
Definition hours_rows (business_id : json) (items : list (string * json))
  : list (json * string * string * string) :=
  flat_map
    (fun item =>
       match open_close (snd item) with
       | Some (open_time, close_time) =>
           [(business_id, fst item, open_time, close_time)]
       | None => []
       end)
    items.

(** The keys each single-row loader reads inside its [try]. *)
Definition business_keys : list string :=
  ["business_id"; "name"; "address"; "city"; "state"; "postal_code";
   "latitude"; "longitude"; "stars"; "is_open"].

Definition user_keys : list string :=
  ["user_id"; "name"; "yelping_since"; "tipcount"; "fans"; "average_stars";
   "funny"; "useful"; "cool"].

Definition tip_keys : list string :=
  ["user_id"; "business_id"; "date"; "likes"; "text"].

(** [data.get(key, 'unknown')] on a dict given by its items. *)
Definition key_or_unknown (key : string) (fields : list (string * json))
  : json :=
  match lookup key fields with
  | Some v => v
  | None => JStr "unknown"
  end.

(** The passes in the order in which the module body calls them. *)
Definition passes : list table :=
  [TBusiness; TBusinessCategory; TBusinessAttributeValue; THours;
   TYelpUser; TFriendship; TTip; TCheckin].

(** The two ways a connected pass ends before it closes. *)
Definition ending (committed_work : bool) : list event :=
  if committed_work then [Commit] else [Rollback; Print DatabaseError].

(** Text without quote and without newline. *)
Definition plain (s : string) : Prop :=
  PyStr.count PyStr.quote s = 0 /\ PyStr.count PyStr.newline s = 0.

(** The parameters that the source passes through [cleanStr4SQL] are
    plain: names and addresses of businesses, names of categories,
    attributes and users, attribute values and tip texts. *)
Definition sanitized (q : statement) : Prop :=
  match q with
  | InsertBusiness r =>
      plain (Business.business_name r) /\ plain (Business.business_address r)
  | InsertCategory n => plain n
  | InsertBusinessCategory _ n => plain n
  | InsertAttribute n => plain n
  | InsertBusinessAttributeValue _ a v => plain a /\ plain v
  | InsertYelpUser r => plain (YelpUser.user_name r)
  | InsertTip r => plain (Tip.text r)
  | InsertHours _ _ _ _ => True
  | InsertFriendship _ _ => True
  | InsertCheckin _ _ => True
  end.

(** The constants of a Business insert: the tip count is 0 and the open
    flag is one of the two words the source writes. *)
Definition business_constants (q : statement) : Prop :=
  match q with
  | InsertBusiness r =>
      Business.tip_count r = 0%Z /\
      (Business.is_open r = "TRUE" \/ Business.is_open r = "FALSE")
  | _ => True
  end.

(** An action all of whose statements satisfy [Q]. *)
Definition issues (Q : statement -> Prop) {A : Type} (a : action A) : Prop :=
  forall s,
    exists evs,
      trace (snd (a s)) = trace s ++ evs /\ Forall Q (statements evs).

(** The pieces of the [categories] field of a line, where the
    BusinessCategory loader gets to its loop. *)
Definition line_categories (l : line) : option (json * list string) :=
  match l with
  | Some data =>
      match subscript data "business_id",
            opt_bind (dict_get data "categories" (JStr EmptyString))
              (json_split ", ") with
      | Some business_id, Some categories => Some (business_id, categories)
      | _, _ => None
      end
  | None => None
  end.

Definition categorized (l : line) : bool :=
  match line_categories l with
  | Some _ => true
  | None => false
  end.

(** The link rows of a line: one per piece, with the sanitized name. *)
Definition line_links (l : line) : list (json * string) :=
  match line_categories l with
  | Some (business_id, categories) =>
      List.map (pair business_id) (List.map cleanStr4SQL categories)
  | None => []
  end.

(** The statement a single-row loader binds for a record, when every
    parameter can be built. *)
Definition line_statement (t : table) (data : json) : option statement :=
  match t with
  | TBusiness => option_map InsertBusiness (business_params data)
  | TYelpUser => option_map InsertYelpUser (user_params data)
  | TTip => option_map InsertTip (tip_params data)
  | _ => None
  end.

Definition bound_statements (t : table) (l : line) : list statement :=
  match l with
  | Some data =>
      match line_statement t data with
      | Some q => [q]
      | None => []
      end
  | None => []
  end.

Definition is_dict (l : line) : bool :=
  match l with
  | Some (JObj _) => true
  | _ => false
  end.

(** The two statements of a pair of the normalizer. *)
Definition attribute_statements (business_id : json) (pair : string * json)
  : list statement :=
  [InsertAttribute (cleanStr4SQL (fst pair));
   InsertBusinessAttributeValue business_id (cleanStr4SQL (fst pair))
     (cleanStr4SQL (py_str (snd pair)))].

Definition attribute_value_row (business_id : json) (pair : string * json)
  : json * string * string :=
  (business_id, cleanStr4SQL (fst pair), cleanStr4SQL (py_str (snd pair))).

(** * Properties *)

(** *** Strings *)

Example split_bars : PyStr.split ", " "Bars, Nightlife" = ["Bars"; "Nightlife"].
Proof. reflexivity. Qed.

Example split_empty : PyStr.split ", " EmptyString = [EmptyString].
Proof. reflexivity. Qed.

Example split_hours : PyStr.split "-" "08:00-17:00" = ["08:00"; "17:00"].
Proof. reflexivity. Qed.

Example split_trailing :
  PyStr.split ", " "a, , b, " = ["a"; EmptyString; "b"; EmptyString].
Proof. reflexivity. Qed.

Example split_overlap : PyStr.split "aa" "aaa" = [EmptyString; "a"].
Proof. reflexivity. Qed.

Lemma cleanStr4SQL_map (s : string) : cleanStr4SQL s = string_map clean_char s.
Proof.
  unfold cleanStr4SQL.
  induction s as [|c s IH]; simpl; [reflexivity|].
  rewrite IH. f_equal.
  unfold clean_char.
  destruct (Ascii.eqb c PyStr.quote) eqn:Hq; reflexivity.
Qed.

Lemma string_map_length (f : ascii -> ascii) (s : string) :
  String.length (string_map f s) = String.length s.
Proof. induction s; simpl; congruence. Qed.

Lemma string_map_get (f : ascii -> ascii) (s : string) (n : nat) :
  String.get n (string_map f s) = option_map f (String.get n s).
Proof.
  revert n; induction s as [|c s IH]; intros n; simpl; [reflexivity|].
  destruct n; simpl; [reflexivity|apply IH].
Qed.

(** C7. The sanitizer is a total function on strings that keeps the length
    and acts character by character: a quote becomes a backtick, a newline
    a space, and every other character stays; on the string
    O'Brien's Pub<newline>Downtown it gives O`Brien`s Pub Downtown. *)
Theorem C7_sanitizer_characterwise :
  (forall s, String.length (cleanStr4SQL s) = String.length s) /\
  (forall s n c,
      String.get n s = Some c ->
      String.get n (cleanStr4SQL s) =
        Some (if Ascii.eqb c "'" then "`"%char
              else if Ascii.eqb c "010" then " "%char
              else c)) /\
  (forall s n, String.get n s = None -> String.get n (cleanStr4SQL s) = None) /\
  cleanStr4SQL ("O'Brien's Pub" ++ String "010" "Downtown")
    = "O`Brien`s Pub Downtown".
Proof.
  split; [|split; [|split]].
  - intros s. rewrite cleanStr4SQL_map. apply string_map_length.
  - intros s n c H. rewrite cleanStr4SQL_map, string_map_get, H. reflexivity.
  - intros s n H. rewrite cleanStr4SQL_map, string_map_get, H. reflexivity.
  - reflexivity.
Qed.

Lemma prefix_empty (s : string) : String.prefix EmptyString s = true.
Proof. destruct s; reflexivity. Qed.

Lemma C7_sanitizer_characterwise_witness :
  String.get 1 "O'Brien" = Some "'"%char /\
  String.get 1 (cleanStr4SQL "O'Brien") = Some "`"%char.
Proof.
  split; [reflexivity|].
  destruct C7_sanitizer_characterwise as (_ & H & _).
  apply (H "O'Brien" 1 "'"%char eq_refl).
Defined.

Lemma split_from_dash (s : string) :
  List.length (snd (PyStr.split_from "-" 0 s)) = PyStr.count PyStr.dash s.
Proof.
  induction s as [|c s IH]; [reflexivity|].
  cbn [PyStr.split_from PyStr.count String.prefix String.length Nat.sub].
  destruct (Ascii.ascii_dec "-"%char c) as [<-|Hne].
  - rewrite prefix_empty.
    destruct (PyStr.split_from "-" 0 s) as [h t] eqn:Hs.
    simpl in *. rewrite IH. reflexivity.
  - assert (Hb : Ascii.eqb c PyStr.dash = false).
    { apply Ascii.eqb_neq. intros ->. apply Hne. reflexivity. }
    rewrite Hb.
    destruct (PyStr.split_from "-" 0 s) as [h t] eqn:Hs. simpl in *. exact IH.
Qed.

Lemma split_dash_length (s : string) :
  List.length (PyStr.split "-" s) = S (PyStr.count PyStr.dash s).
Proof.
  unfold PyStr.split. pose proof (split_from_dash s) as H.
  destruct (PyStr.split_from "-" 0 s) as [h t]. simpl in *. lia.
Qed.

(** *** Effects *)

Section Effects.

Variable E : environment.

Lemma execute_refused (q : statement) (s : session) :
  refuses E q (working s) = true ->
  execute E q s = (Raised, emit (Exec q false) s).
Proof. intros H. unfold execute. rewrite H. reflexivity. Qed.

Lemma execute_accepted (q : statement) (s : session) :
  refuses E q (working s) = false ->
  execute E q s =
    (Returned tt, emit (Exec q true) (set_working (apply E q (working s)) s)).
Proof. intros H. unfold execute. rewrite H. reflexivity. Qed.

Lemma bind_returned {A B : Type} (m : action A) (k : A -> action B)
  (s s1 : session) (a : A) :
  m s = (Returned a, s1) -> bind m k s = k a s1.
Proof. intros H. unfold bind. rewrite H. reflexivity. Qed.

Lemma bind_raised {A B : Type} (m : action A) (k : A -> action B)
  (s s1 : session) :
  m s = (Raised, s1) -> bind m k s = (Raised, s1).
Proof. intros H. unfold bind. rewrite H. reflexivity. Qed.

Lemma try_except_raised (body handler : action unit) (s : session) :
  fst (body s) = Raised ->
  try_except body handler s = handler (snd (body s)).
Proof.
  unfold try_except. destruct (body s) as [[a|] s1]; simpl; intros H;
    [discriminate|reflexivity].
Qed.

Lemma try_except_returned (body handler : action unit) (s : session) :
  fst (body s) = Returned tt ->
  try_except body handler s = body s.
Proof.
  unfold try_except. destruct (body s) as [[a|] s1]; simpl; intros H;
    [reflexivity|discriminate].
Qed.

Lemma for_each_one {A : Type} (f : A -> action unit) (x : A) (s : session) :
  for_each f [x] s = f x s.
Proof.
  simpl. unfold bind, ret. destruct (f x s) as [[[]|] s1]; reflexivity.
Qed.

Lemma for_each_app_returned {A : Type} (f : A -> action unit)
  (l1 l2 : list A) (s s1 : session) :
  for_each f l1 s = (Returned tt, s1) ->
  for_each f (l1 ++ l2) s = for_each f l2 s1.
Proof.
  revert s. induction l1 as [|x l1 IH]; intros s H; simpl in *.
  - unfold ret in H. inversion H. reflexivity.
  - unfold bind in *. destruct (f x s) as [[[]|] s2].
    + apply IH. exact H.
    + discriminate.
Qed.

(** A loop stops at the first iteration that raises. *)
Lemma for_each_stops {A : Type} (f : A -> action unit)
  (l1 l2 : list A) (x : A) (s s1 s2 : session) :
  for_each f l1 s = (Returned tt, s1) ->
  f x s1 = (Raised, s2) ->
  for_each f (l1 ++ x :: l2) s = (Raised, s2).
Proof.
  intros H1 H2. rewrite (for_each_app_returned f l1 (x :: l2) s s1 H1).
  simpl. apply bind_raised. exact H2.
Qed.

(** **** Quiet actions *)

Lemma quiet_ret {A : Type} (a : A) : quiet (ret a).
Proof.
  intros s. simpl. repeat split. exists []. rewrite app_nil_r. auto.
Qed.

Lemma quiet_raise {A : Type} : quiet (@raise A).
Proof.
  intros s. simpl. repeat split. exists []. rewrite app_nil_r. auto.
Qed.

Lemma quiet_eval {A : Type} (o : option A) : quiet (eval o).
Proof. destruct o; [apply quiet_ret|apply quiet_raise]. Qed.

Lemma quiet_bind {A B : Type} (m : action A) (k : A -> action B) :
  quiet m -> (forall a, quiet (k a)) -> quiet (bind m k).
Proof.
  intros Hm Hk s. unfold bind.
  destruct (Hm s) as (Hc & Ha & evs & Ht & Hr).
  destruct (m s) as [[a|] s1]; simpl in *.
  - destruct (Hk a s1) as (Hc' & Ha' & evs' & Ht' & Hr').
    repeat split; try congruence.
    exists (evs ++ evs'). split.
    + rewrite Ht', Ht, app_assoc. reflexivity.
    + rewrite forallb_app, Hr, Hr'. reflexivity.
  - repeat split; auto. exists evs. auto.
Qed.

Lemma quiet_try_except (body handler : action unit) :
  quiet body -> quiet handler -> quiet (try_except body handler).
Proof.
  intros Hb Hh s. unfold try_except.
  destruct (Hb s) as (Hc & Ha & evs & Ht & Hr).
  destruct (body s) as [[a|] s1]; simpl in *.
  - repeat split; auto. exists evs. auto.
  - destruct (Hh s1) as (Hc' & Ha' & evs' & Ht' & Hr').
    repeat split; try congruence.
    exists (evs ++ evs'). split.
    + rewrite Ht', Ht, app_assoc. reflexivity.
    + rewrite forallb_app, Hr, Hr'. reflexivity.
Qed.

Lemma quiet_for_each {A : Type} (f : A -> action unit) (l : list A) :
  (forall x, quiet (f x)) -> quiet (for_each f l).
Proof.
  intros Hf. induction l as [|x l IH]; simpl.
  - apply quiet_ret.
  - apply quiet_bind; [apply Hf|intros _; exact IH].
Qed.

Lemma quiet_execute (q : statement) : quiet (execute E q).
Proof.
  intros s. unfold execute.
  destruct (refuses E q (working s)); simpl; repeat split;
    eexists; split; reflexivity.
Qed.

Lemma quiet_rollback : quiet rollback.
Proof. intros s. simpl. repeat split. eexists; split; reflexivity. Qed.

Lemma quiet_print (m : message) : quiet (print m).
Proof. intros s. simpl. repeat split. eexists; split; reflexivity. Qed.

Ltac quiet_step :=
  match goal with
  | |- quiet (bind _ _) => apply quiet_bind; [|intros ?]
  | |- quiet (try_except _ _) => apply quiet_try_except
  | |- quiet (ret _) => apply quiet_ret
  | |- quiet raise => apply quiet_raise
  | |- quiet (eval _) => apply quiet_eval
  | |- quiet (execute _ _) => apply quiet_execute
  | |- quiet rollback => apply quiet_rollback
  | |- quiet (print _) => apply quiet_print
  end.

Ltac quiet_auto := repeat quiet_step.

Lemma quiet_category_inserts (b : json) (c : string) :
  quiet (category_inserts E b c).
Proof. unfold category_inserts. quiet_auto. Qed.

Lemma quiet_attribute_inserts (b : json) (p : string * json) :
  quiet (attribute_inserts E b p).
Proof. destruct p. unfold attribute_inserts. quiet_auto. Qed.

Lemma quiet_checkin_insert (b : json) (t : string) :
  quiet (checkin_insert E b t).
Proof. unfold checkin_insert. quiet_auto. Qed.

Lemma quiet_category_row (b : json) (c : string) : quiet (category_row E b c).
Proof.
  unfold category_row. apply quiet_try_except;
    [apply quiet_category_inserts|quiet_auto].
Qed.

Lemma quiet_attribute_row (b : json) (p : string * json) :
  quiet (attribute_row E b p).
Proof.
  unfold attribute_row. apply quiet_try_except;
    [apply quiet_attribute_inserts|quiet_auto].
Qed.

Lemma quiet_checkin_row (b : json) (t : string) : quiet (checkin_row E b t).
Proof.
  unfold checkin_row. apply quiet_try_except;
    [apply quiet_checkin_insert|quiet_auto].
Qed.

Lemma quiet_hours_row (b : json) (item : string * json) :
  quiet (hours_row E b item).
Proof. destruct item. unfold hours_row. quiet_auto. Qed.

Lemma quiet_friend_row (u : json) (f : string) : quiet (friend_row E u f).
Proof. unfold friend_row. quiet_auto. Qed.

Lemma quiet_line_step (t : table) (l : line) : quiet (line_step E t l).
Proof.
  destruct t; simpl;
    unfold business_line, business_categories_line, business_attributes_line,
      hours_line, users_line, friends_line, tips_line, checkins_line,
      json_loads;
    quiet_auto.
  - apply quiet_for_each. apply quiet_category_row.
  - apply quiet_for_each. apply quiet_attribute_row.
  - apply quiet_for_each. apply quiet_hours_row.
  - apply quiet_for_each. apply quiet_friend_row.
  - apply quiet_for_each. apply quiet_checkin_row.
Qed.

End Effects.

(** *** The session scope *)

Section SessionScope.

Variable E : environment.

Lemma connect_online (s : session) :
  connects E (attempts s) = true ->
  connect E s =
    (Returned tt,
     emit (Connect true) (set_working (committed s) (next_attempt s))).
Proof. intros H. unfold connect. rewrite H. reflexivity. Qed.

Lemma connect_psql_returned (body : action unit) (s s1 : session) :
  connects E (attempts s) = true ->
  body (entered s) = (Returned tt, s1) ->
  connect_psql E body s =
    (Returned tt,
     emit ConnClose (emit CursorClose
       (emit Commit (set_committed (working s1) s1)))).
Proof.
  intros Hc Hb. unfold connect_psql. rewrite (connect_online s Hc).
  fold (entered s). unfold bind. rewrite Hb. reflexivity.
Qed.

Lemma connect_psql_raised (body : action unit) (s s1 : session) :
  connects E (attempts s) = true ->
  body (entered s) = (Raised, s1) ->
  connect_psql E body s =
    (Returned tt,
     emit ConnClose (emit CursorClose
       (emit (Print DatabaseError)
          (emit Rollback (set_working (committed s1) s1))))).
Proof.
  intros Hc Hb. unfold connect_psql. rewrite (connect_online s Hc).
  fold (entered s). unfold bind. rewrite Hb. reflexivity.
Qed.

Lemma connect_psql_offline (body : action unit) (s : session) :
  connects E (attempts s) = false ->
  connect_psql E body s =
    (Raised, emit (Print DatabaseError) (emit (Connect false) (next_attempt s))).
Proof. intros Hc. unfold connect_psql, connect. rewrite Hc. reflexivity. Qed.

Lemma pass_unfold (t : table) :
  pass E t = connect_psql E (read_lines (source E t) (line_step E t)).
Proof. destruct t; reflexivity. Qed.

Lemma quiet_read_lines (t : table) :
  quiet (read_lines (source E t) (line_step E t)).
Proof.
  unfold read_lines. apply quiet_bind; [apply quiet_eval|].
  intros lines. apply quiet_for_each. apply quiet_line_step.
Qed.

(** A pass whose body raises leaves the database as it found it. *)
Lemma aborted_pass (t : table) (lines : list line) (s s1 : session) :
  connects E (attempts s) = true ->
  source E t = Some lines ->
  for_each (line_step E t) lines (entered s) = (Raised, s1) ->
  exists s',
    pass E t s = (Returned tt, s') /\
    committed s' = committed s /\
    working s' = committed s /\
    trace s' =
      trace s1 ++ [Rollback; Print DatabaseError; CursorClose; ConnClose].
Proof.
  intros Hc Hsrc Hrun.
  assert (Hbody : read_lines (source E t) (line_step E t) (entered s)
                  = (Raised, s1)).
  { rewrite Hsrc. unfold read_lines, eval, bind, ret. exact Hrun. }
  destruct (quiet_read_lines t (entered s)) as (Hcm & _).
  rewrite Hbody in Hcm. simpl in Hcm.
  eexists. split; [|split; [|split]].
  - rewrite pass_unfold. apply (connect_psql_raised _ s s1 Hc Hbody).
  - simpl. exact Hcm.
  - simpl. exact Hcm.
  - simpl. repeat rewrite <- app_assoc. reflexivity.
Qed.

End SessionScope.

(** C2. Once the connection is acquired, the session scope hands the body
    a session with a cursor on the committed database.  When the body
    returns, the scope commits its work; when the body raises, the scope
    rolls back, prints and does not re-raise.  In both cases it then closes
    the cursor and the connection, and the [with] statement returns. *)
Theorem C2_session_scope_contract
  (E : environment) (body : action unit) (s : session) :
  connects E (attempts s) = true ->
  trace (entered s) = trace s ++ [Connect true; Cursor] /\
  working (entered s) = committed s /\
  (forall s1,
      body (entered s) = (Returned tt, s1) ->
      exists s',
        connect_psql E body s = (Returned tt, s') /\
        committed s' = working s1 /\
        trace s' = trace s1 ++ [Commit; CursorClose; ConnClose]) /\
  (forall s1,
      body (entered s) = (Raised, s1) ->
      exists s',
        connect_psql E body s = (Returned tt, s') /\
        committed s' = committed s1 /\
        working s' = committed s1 /\
        trace s' =
          trace s1 ++ [Rollback; Print DatabaseError; CursorClose; ConnClose]).
Proof.
  intros Hc. split; [|split; [|split]].
  - simpl. rewrite <- app_assoc. reflexivity.
  - reflexivity.
  - intros s1 Hb. eexists. split; [apply (connect_psql_returned E _ s s1 Hc Hb)|].
    split; simpl; [reflexivity|]. repeat rewrite <- app_assoc. reflexivity.
  - intros s1 Hb. eexists. split; [apply (connect_psql_raised E _ s s1 Hc Hb)|].
    split; [|split]; simpl; try reflexivity.
    repeat rewrite <- app_assoc. reflexivity.
Qed.

Lemma C2_session_scope_contract_witness :
  connects (lenient []) (attempts (start empty_database)) = true /\
  exists s',
    connect_psql (lenient []) raise (start empty_database) = (Returned tt, s') /\
    trace s' =
      [Connect true; Cursor; Rollback; Print DatabaseError;
       CursorClose; ConnClose].
Proof.
  split; [reflexivity|].
  destruct (C2_session_scope_contract (lenient []) raise (start empty_database)
              eq_refl) as (_ & _ & _ & H).
  destruct (H _ eq_refl) as (s' & H1 & _ & _ & H4).
  exists s'. split; [exact H1|exact H4].
Defined.

(** *** Rows that fail *)

Section FailedRows.

Variable E : environment.

Lemma rollback_handler (body : action unit) (m : message) (s : session) :
  quiet body ->
  fst (body s) = Raised ->
  exists s',
    try_except body (rollback ;; print m) s = (Returned tt, s') /\
    working s' = committed s /\
    committed s' = committed s /\
    trace s' = trace (snd (body s)) ++ [Rollback; Print m].
Proof.
  intros Hq Hr. rewrite (try_except_raised _ _ _ Hr).
  destruct (Hq s) as (Hc & _).
  eexists. split; [reflexivity|]. simpl.
  split; [exact Hc|]. split; [exact Hc|].
  rewrite <- app_assoc. reflexivity.
Qed.

End FailedRows.

(** C1. In the BusinessCategory, BusinessAttributeValue and Checkin
    loaders, when the inserts of a row raise, the row's handler rolls the
    transaction back, so that the uncommitted work of the pass is gone and
    the transaction sees the committed database again; it prints the
    failure; and the row ends normally, so the loop goes on with the rows
    that follow. *)
Theorem C1_failed_row_rolls_back_pass (E : environment) :
  (forall business_id category rest s,
      fst (category_inserts E business_id category s) = Raised ->
      exists s',
        category_row E business_id category s = (Returned tt, s') /\
        working s' = committed s /\
        committed s' = committed s /\
        trace s' =
          trace (snd (category_inserts E business_id category s))
            ++ [Rollback; Print (RowFailed TBusinessCategory business_id)] /\
        for_each (category_row E business_id) (category :: rest) s =
          for_each (category_row E business_id) rest s') /\
  (forall business_id pair rest s,
      fst (attribute_inserts E business_id pair s) = Raised ->
      exists s',
        attribute_row E business_id pair s = (Returned tt, s') /\
        working s' = committed s /\
        committed s' = committed s /\
        trace s' =
          trace (snd (attribute_inserts E business_id pair s))
            ++ [Rollback;
                Print (RowFailed TBusinessAttributeValue business_id)] /\
        for_each (attribute_row E business_id) (pair :: rest) s =
          for_each (attribute_row E business_id) rest s') /\
  (forall business_id timestamp rest s,
      fst (checkin_insert E business_id timestamp s) = Raised ->
      exists s',
        checkin_row E business_id timestamp s = (Returned tt, s') /\
        working s' = committed s /\
        committed s' = committed s /\
        trace s' =
          trace (snd (checkin_insert E business_id timestamp s))
            ++ [Rollback; Print (RowFailed TCheckin business_id)] /\
        for_each (checkin_row E business_id) (timestamp :: rest) s =
          for_each (checkin_row E business_id) rest s').
Proof.
  split; [|split]; intros b x rest s Hr.
  - destruct (rollback_handler (category_inserts E b x)
                (RowFailed TBusinessCategory b) s
                (quiet_category_inserts E b x) Hr) as (s' & H1 & H2 & H3 & H4).
    exists s'. unfold category_row. repeat (split; [assumption|]).
    simpl. unfold bind at 1. fold (category_row E b x).
    unfold category_row at 1. rewrite H1. reflexivity.
  - destruct (rollback_handler (attribute_inserts E b x)
                (RowFailed TBusinessAttributeValue b) s
                (quiet_attribute_inserts E b x) Hr) as (s' & H1 & H2 & H3 & H4).
    exists s'. unfold attribute_row. repeat (split; [assumption|]).
    simpl. unfold bind at 1. fold (attribute_row E b x).
    unfold attribute_row at 1. rewrite H1. reflexivity.
  - destruct (rollback_handler (checkin_insert E b x)
                (RowFailed TCheckin b) s
                (quiet_checkin_insert E b x) Hr) as (s' & H1 & H2 & H3 & H4).
    exists s'. unfold checkin_row. repeat (split; [assumption|]).
    simpl. unfold bind at 1. fold (checkin_row E b x).
    unfold checkin_row at 1. rewrite H1. reflexivity.
Qed.

Lemma C1_failed_row_rolls_back_pass_witness :
  let E := sample 10 true [] [] [] [] in
  let s := snd (category_row E (JStr "b1") "Bars"
                  (entered (start empty_database))) in
  BusinessCategory_t (working s) = [(JStr "b1", "Bars")] /\
  fst (category_inserts E (JStr "b1") "Restaurants and Nightlife" s) = Raised /\
  exists s',
    category_row E (JStr "b1") "Restaurants and Nightlife" s
      = (Returned tt, s') /\
    working s' = empty_database.
Proof.
  intros E s. split; [reflexivity|]. split; [reflexivity|].
  destruct (C1_failed_row_rolls_back_pass E) as (H & _).
  destruct (H (JStr "b1") "Restaurants and Nightlife" [] s eq_refl)
    as (s' & H1 & H2 & _).
  exists s'. split; [exact H1|exact H2].
Defined.

(** *** Passes that abort *)

Section Aborts.

Variable E : environment.

Lemma aborting_line_raises (t : table) (l : line) (s : session) :
  aborting t l = true -> line_step E t l s = (Raised, s).
Proof.
  unfold aborting. destruct l as [data|].
  - destruct data as [| | | | | |fields]; try discriminate.
    destruct (outer_key t) as [key|] eqn:Hk; [|discriminate].
    destruct (lookup key fields) eqn:Hl; [discriminate|]. intros _.
    destruct t; simpl in Hk; inversion Hk; subst key; simpl;
      unfold business_categories_line, business_attributes_line, hours_line,
        friends_line, checkins_line, json_loads, bind, eval, ret, raise,
        subscript;
      rewrite Hl; reflexivity.
  - intros _. destruct t; reflexivity.
Qed.

Lemma open_close_two (r : string) :
  PyStr.count PyStr.dash r = 1 ->
  exists o c, open_close (JStr r) = Some (o, c).
Proof.
  intros H. unfold open_close, json_split.
  pose proof (split_dash_length r) as Hl. rewrite H in Hl.
  destruct (PyStr.split "-" r) as [|o [|c [|x l]]]; simpl in Hl;
    try discriminate.
  exists o, c. reflexivity.
Qed.

Lemma open_close_other (r : string) :
  PyStr.count PyStr.dash r <> 1 -> open_close (JStr r) = None.
Proof.
  intros H. unfold open_close, json_split.
  pose proof (split_dash_length r) as Hl.
  destruct (PyStr.split "-" r) as [|o [|c [|x l]]]; simpl in Hl;
    try reflexivity.
  exfalso. apply H. lia.
Qed.

Lemma hours_line_rows (data business_id : json)
  (items : list (string * json)) (s : session) :
  subscript data "business_id" = Some business_id ->
  opt_bind (dict_get data "hours" (JObj [])) json_items = Some items ->
  hours_line E (Some data) s = for_each (hours_row E business_id) items s.
Proof.
  intros Hb Hh. unfold hours_line, json_loads, bind, eval, ret.
  rewrite Hb, Hh. reflexivity.
Qed.

End Aborts.

(** C4. When a pass has connected and reaches a line that [json.loads]
    rejects, or a dict that lacks the field the pass reads outside its
    per-row [try], that line raises without any effect of its own, the
    session scope rolls back, prints and swallows the exception, the
    database is what it was before the pass, and nothing is done for the
    lines that follow: the trace ends with the rollback, the print and the
    two closes right after the effects of the lines before. *)
Theorem C4_bad_line_aborts_pass
  (E : environment) (t : table) (s s1 : session)
  (pre post : list line) (bad : line) :
  connects E (attempts s) = true ->
  source E t = Some (pre ++ bad :: post) ->
  aborting t bad = true ->
  for_each (line_step E t) pre (entered s) = (Returned tt, s1) ->
  line_step E t bad s1 = (Raised, s1) /\
  exists s',
    pass E t s = (Returned tt, s') /\
    committed s' = committed s /\
    working s' = committed s /\
    trace s' =
      trace s1 ++ [Rollback; Print DatabaseError; CursorClose; ConnClose].
Proof.
  intros Hc Hsrc Hbad Hpre.
  pose proof (aborting_line_raises E t bad s1 Hbad) as Hline.
  split; [exact Hline|].
  apply (aborted_pass E t (pre ++ bad :: post) s s1 Hc Hsrc).
  apply (for_each_stops _ pre post bad (entered s) s1 s1 Hpre Hline).
Qed.

Lemma C4_bad_line_aborts_pass_witness :
  let good := Some (business_record "b1" "Joe's" "Bars, Nightlife") in
  let other := Some (business_record "b2" "Moe's" "Bars") in
  let bad := Some (JObj [("name", JStr "no id")]) in
  let E := lenient [good; bad; other] in
  aborting TBusinessCategory bad = true /\
  exists s',
    insert_business_categories E (start empty_database) = (Returned tt, s') /\
    committed s' = empty_database /\
    trace s' =
      [Connect true; Cursor;
       Exec (InsertCategory "Bars") true;
       Exec (InsertBusinessCategory (JStr "b1") "Bars") true;
       Exec (InsertCategory "Nightlife") true;
       Exec (InsertBusinessCategory (JStr "b1") "Nightlife") true;
       Rollback; Print DatabaseError; CursorClose; ConnClose].
Proof.
  intros good other bad E. split; [reflexivity|].
  destruct (C4_bad_line_aborts_pass E TBusinessCategory
              (start empty_database)
              (snd (for_each (line_step E TBusinessCategory) [good]
                      (entered (start empty_database))))
              [good] [other] bad eq_refl eq_refl eq_refl eq_refl)
    as (_ & s' & H1 & H2 & _ & H4).
  exists s'. split; [exact H1|]. split; [exact H2|exact H4].
Defined.

(** C10. In the Hours loader, a day whose range string does not have
    exactly one dash raises at the two-variable unpacking, before the
    per-row [try]: the row has no effect of its own, the loop and the pass
    stop there, and the session scope rolls the pass back and swallows the
    exception, so the database is what it was before the pass.  A range
    string with exactly one dash unpacks, and its row returns normally
    whatever the insert does. *)
Theorem C10_hours_unpack_aborts_pass (E : environment) :
  (forall s s1 s2 pre post data business_id before after day time_range,
      connects E (attempts s) = true ->
      yelp_business E = Some (pre ++ Some data :: post) ->
      for_each (hours_line E) pre (entered s) = (Returned tt, s1) ->
      subscript data "business_id" = Some business_id ->
      opt_bind (dict_get data "hours" (JObj [])) json_items
        = Some (before ++ (day, JStr time_range) :: after) ->
      for_each (hours_row E business_id) before s1 = (Returned tt, s2) ->
      PyStr.count PyStr.dash time_range <> 1 ->
      hours_row E business_id (day, JStr time_range) s2 = (Raised, s2) /\
      exists s',
        insert_hours E s = (Returned tt, s') /\
        committed s' = committed s /\
        working s' = committed s /\
        trace s' =
          trace s2 ++ [Rollback; Print DatabaseError; CursorClose; ConnClose]) /\
  (forall business_id day time_range s,
      PyStr.count PyStr.dash time_range = 1 ->
      exists open_time close_time ok,
        PyStr.split "-" time_range = [open_time; close_time] /\
        fst (hours_row E business_id (day, JStr time_range) s) = Returned tt /\
        trace (snd (hours_row E business_id (day, JStr time_range) s)) =
          trace s
            ++ Exec (InsertHours business_id day open_time close_time) ok
            :: (if ok then [] else [Print (RowFailed THours business_id)])).
Proof.
  split.
  - intros s s1 s2 pre post data b before after day r
           Hc Hsrc Hpre Hb Hh Hbefore Hdash.
    assert (Hrow : hours_row E b (day, JStr r) s2 = (Raised, s2)).
    { unfold hours_row. rewrite (open_close_other r Hdash). reflexivity. }
    split; [exact Hrow|].
    apply (aborted_pass E THours (pre ++ Some data :: post) s s2 Hc Hsrc).
    apply (for_each_stops _ pre post (Some data) (entered s) s1 s2 Hpre).
    simpl. rewrite (hours_line_rows E data b _ s1 Hb Hh).
    apply (for_each_stops _ before after _ s1 s2 s2 Hbefore Hrow).
  - intros b day r s Hdash.
    pose proof (split_dash_length r) as Hl. rewrite Hdash in Hl.
    destruct (PyStr.split "-" r) as [|o [|c [|x l]]] eqn:Hs; simpl in Hl;
      try discriminate.
    exists o, c, (negb (refuses E (InsertHours b day o c) (working s))).
    split; [reflexivity|].
    unfold hours_row, open_close, json_split. rewrite Hs.
    unfold bind, eval, ret, try_except, execute, print. simpl.
    destruct (refuses E (InsertHours b day o c) (working s)); simpl.
    + split; [reflexivity|]. rewrite <- app_assoc. reflexivity.
    + split; reflexivity.
Qed.

Lemma C10_hours_unpack_aborts_pass_witness :
  let good := JObj [("business_id", JStr "b1");
                    ("hours", JObj [("Mon", JStr "08:00-17:00")])] in
  let bad := JObj [("business_id", JStr "b2");
                   ("hours", JObj [("Tue", JStr "09:00-12:00");
                                   ("Wed", JStr "closed");
                                   ("Thu", JStr "09:00-12:00")])] in
  let E := lenient [Some good; Some bad; Some good] in
  PyStr.count PyStr.dash "closed" <> 1 /\
  exists s',
    insert_hours E (start empty_database) = (Returned tt, s') /\
    committed s' = empty_database /\
    trace s' =
      [Connect true; Cursor;
       Exec (InsertHours (JStr "b1") "Mon" "08:00" "17:00") true;
       Exec (InsertHours (JStr "b2") "Tue" "09:00" "12:00") true;
       Rollback; Print DatabaseError; CursorClose; ConnClose].
Proof.
  intros good bad E. split; [discriminate|].
  destruct (C10_hours_unpack_aborts_pass E) as (H & _).
  destruct (H (start empty_database)
              (snd (for_each (hours_line E) [Some good]
                      (entered (start empty_database))))
              (snd (for_each (hours_line E) [Some good; Some bad]
                      (entered (start empty_database))))
              [Some good] [Some good] bad (JStr "b2")
              [("Tue", JStr "09:00-12:00")] [("Thu", JStr "09:00-12:00")]
              "Wed" "closed"
              eq_refl eq_refl eq_refl eq_refl eq_refl eq_refl)
    as (_ & s' & H1 & H2 & _ & H4).
  { discriminate. }
  exists s'. split; [exact H1|]. split; [exact H2|exact H4].
Defined.

(** *** Absent and empty list fields *)

Section EmptyFields.

Variable E : environment.

Lemma split_field_empty (key : string) (fields : list (string * json)) :
  lookup key fields = None \/ lookup key fields = Some (JStr EmptyString) ->
  opt_bind (dict_get (JObj fields) key (JStr EmptyString)) (json_split ", ")
    = Some [EmptyString].
Proof. intros [H|H]; unfold dict_get; rewrite H; reflexivity. Qed.

Lemma category_row_first (b : json) (c : string) (s : session) :
  exists ok rest,
    trace (snd (category_row E b c s)) =
      trace s ++ Exec (InsertCategory (cleanStr4SQL c)) ok :: rest.
Proof.
  unfold category_row, category_inserts, try_except, bind, execute.
  destruct (refuses E (InsertCategory (cleanStr4SQL c)) (working s)); simpl.
  - eexists false, _. rewrite <- !app_assoc. reflexivity.
  - match goal with
    | |- context [refuses E ?q ?d] => destruct (refuses E q d)
    end; simpl; eexists true, _; rewrite <- !app_assoc; reflexivity.
Qed.

Lemma friend_row_first (u : json) (f : string) (s : session) :
  exists ok rest,
    trace (snd (friend_row E u f s)) =
      trace s ++ Exec (InsertFriendship u f) ok :: rest.
Proof.
  unfold friend_row, try_except, execute.
  destruct (refuses E (InsertFriendship u f) (working s)); simpl.
  - eexists false, _. rewrite <- !app_assoc. reflexivity.
  - eexists true, _. reflexivity.
Qed.

Lemma checkin_row_first (b : json) (t : string) (s : session) :
  exists ok rest,
    trace (snd (checkin_row E b t s)) =
      trace s ++ Exec (InsertCheckin b t) ok :: rest.
Proof.
  unfold checkin_row, checkin_insert, try_except, execute.
  destruct (refuses E (InsertCheckin b t) (working s)); simpl.
  - eexists false, _. rewrite <- !app_assoc. reflexivity.
  - eexists true, _. reflexivity.
Qed.

End EmptyFields.

(** C9. A record whose [categories], [friends] or [date] field is absent
    or is the empty string is not skipped: the field splits into the one
    piece [""], the loop of the loader runs once, on that piece, and the
    first thing it does is to execute an insert whose category name,
    friend id or timestamp is the empty string. *)
Theorem C9_empty_field_gives_one_row (E : environment) :
  (forall fields business_id s,
      lookup "business_id" fields = Some business_id ->
      lookup "categories" fields = None \/
      lookup "categories" fields = Some (JStr EmptyString) ->
      business_categories_line E (Some (JObj fields)) s
        = category_row E business_id EmptyString s /\
      exists ok rest,
        trace (snd (business_categories_line E (Some (JObj fields)) s)) =
          trace s ++ Exec (InsertCategory EmptyString) ok :: rest) /\
  (forall fields user_id s,
      lookup "user_id" fields = Some user_id ->
      lookup "friends" fields = None \/
      lookup "friends" fields = Some (JStr EmptyString) ->
      friends_line E (Some (JObj fields)) s
        = friend_row E user_id EmptyString s /\
      exists ok rest,
        trace (snd (friends_line E (Some (JObj fields)) s)) =
          trace s ++ Exec (InsertFriendship user_id EmptyString) ok :: rest) /\
  (forall fields business_id s,
      lookup "business_id" fields = Some business_id ->
      lookup "date" fields = None \/
      lookup "date" fields = Some (JStr EmptyString) ->
      checkins_line E (Some (JObj fields)) s
        = checkin_row E business_id EmptyString s /\
      exists ok rest,
        trace (snd (checkins_line E (Some (JObj fields)) s)) =
          trace s ++ Exec (InsertCheckin business_id EmptyString) ok :: rest).
Proof.
  split; [|split]; intros fields id s Hid Hf.
  - assert (Heq : business_categories_line E (Some (JObj fields)) s
                  = category_row E id EmptyString s).
    { unfold business_categories_line, json_loads, bind, eval, ret, subscript.
      rewrite Hid, (split_field_empty "categories" fields Hf).
      apply for_each_one. }
    split; [exact Heq|]. rewrite Heq.
    apply (category_row_first E id EmptyString s).
  - assert (Heq : friends_line E (Some (JObj fields)) s
                  = friend_row E id EmptyString s).
    { unfold friends_line, json_loads, bind, eval, ret, subscript.
      rewrite Hid, (split_field_empty "friends" fields Hf).
      apply for_each_one. }
    split; [exact Heq|]. rewrite Heq.
    apply (friend_row_first E id EmptyString s).
  - assert (Heq : checkins_line E (Some (JObj fields)) s
                  = checkin_row E id EmptyString s).
    { unfold checkins_line, json_loads, bind, eval, ret, subscript.
      rewrite Hid, (split_field_empty "date" fields Hf).
      apply for_each_one. }
    split; [exact Heq|]. rewrite Heq.
    apply (checkin_row_first E id EmptyString s).
Qed.

Lemma C9_empty_field_gives_one_row_witness :
  let E := lenient [] in
  let user := [("user_id", JStr "u1"); ("name", JStr "Ann")] in
  lookup "friends" user = None /\
  friends_line E (Some (JObj user)) (entered (start empty_database))
    = friend_row E (JStr "u1") EmptyString (entered (start empty_database)) /\
  Friendship_t
    (working (snd (friends_line E (Some (JObj user))
                     (entered (start empty_database)))))
    = [(JStr "u1", EmptyString)].
Proof.
  intros E user. split; [reflexivity|].
  destruct (C9_empty_field_gives_one_row E) as (_ & H & _).
  destruct (H user (JStr "u1") (entered (start empty_database))
              eq_refl (or_introl eq_refl)) as (H1 & _).
  split; [exact H1|reflexivity].
Defined.

(** *** The attribute value column *)

Lemma replace_absent (old new : ascii) (s : string) :
  PyStr.count old s = 0 -> PyStr.replace old new s = s.
Proof.
  induction s as [|c s IH]; simpl; [reflexivity|].
  destruct (Ascii.eqb c old); [discriminate|].
  intros H. rewrite (IH H). reflexivity.
Qed.

Lemma cleanStr4SQL_plain (s : string) :
  PyStr.count PyStr.quote s = 0 ->
  PyStr.count PyStr.newline s = 0 ->
  cleanStr4SQL s = s.
Proof.
  intros Hq Hn. unfold cleanStr4SQL.
  rewrite (replace_absent _ _ s Hq). apply replace_absent. exact Hn.
Qed.

(** C8 as stated fails: for the pair (WiFi, u'free') the value column of
    the inserted row is not the string form of the value. *)
Lemma C8_value_column_counterexample :
  let value := JStr "u'free'" in
  let data := JObj [("business_id", JStr "b1");
                    ("attributes", JObj [("WiFi", value)])] in
  let E := lenient [Some data] in
  get_attributes E (JObj [("WiFi", value)]) = Some [("WiFi", value)] /\
  BusinessAttributeValue_t
    (committed (snd (insert_business_attributes E (start empty_database))))
    = [(JStr "b1", "WiFi", "u`free`")] /\
  ~ Forall (fun row => snd row = py_str value)
      (BusinessAttributeValue_t
         (committed (snd (insert_business_attributes E
                            (start empty_database))))).
Proof.
  intros value data E. split; [reflexivity|]. split; [reflexivity|].
  intros H. inversion H as [|row rows Hrow _]. discriminate Hrow.
Qed.

(** C8, amended. For every pair the normalizer yields, the row's try
    executes the Attribute insert and, if that is accepted, the
    BusinessAttributeValue insert whose value parameter is the sanitized
    string form of the value; an accepted insert adds exactly that row.
    The sanitized string form is the string form itself when that has no
    quote and no newline. *)
Theorem C8_value_column_is_sanitized_str
  (E : environment) (business_id : json) (attr : string) (value : json)
  (s : session) :
  let name := cleanStr4SQL attr in
  let column := cleanStr4SQL (py_str value) in
  let q := InsertBusinessAttributeValue business_id name column in
  let run := attribute_inserts E business_id (attr, value) s in
  (refuses E (InsertAttribute name) (working s) = true ->
   trace (snd run) = trace s ++ [Exec (InsertAttribute name) false]) /\
  (refuses E (InsertAttribute name) (working s) = false ->
   exists ok,
     trace (snd run) = trace s ++ [Exec (InsertAttribute name) true; Exec q ok] /\
     (ok = true ->
      fst run = Returned tt /\
      BusinessAttributeValue_t (working (snd run)) =
        BusinessAttributeValue_t (working s) ++ [(business_id, name, column)])) /\
  (PyStr.count PyStr.quote (py_str value) = 0 ->
   PyStr.count PyStr.newline (py_str value) = 0 ->
   column = py_str value).
Proof.
  intros name column q run. split; [|split].
  - intros Hr. subst run. unfold attribute_inserts, bind.
    fold name. rewrite (execute_refused E _ s Hr). reflexivity.
  - intros Ha. subst run. unfold attribute_inserts, bind.
    fold name column q. rewrite (execute_accepted E _ s Ha).
    unfold execute. cbn [working set_working emit].
    destruct (refuses E q (apply E (InsertAttribute name) (working s))).
    + exists false. split; [|discriminate].
      simpl. rewrite <- app_assoc. reflexivity.
    + exists true. split.
      * simpl. rewrite <- app_assoc. reflexivity.
      * intros _. split; [reflexivity|].
        cbn [snd working set_working emit]. unfold q at 1.
        cbn [apply add_BusinessAttributeValue BusinessAttributeValue_t].
        destruct (has_name name (Attribute_t (working s))); reflexivity.
  - apply cleanStr4SQL_plain.
Qed.

Lemma C8_value_column_is_sanitized_str_witness :
  let E := lenient [] in
  let s := entered (start empty_database) in
  refuses E (InsertAttribute "WiFi") (working s) = false /\
  exists ok,
    trace (snd (attribute_inserts E (JStr "b1") ("WiFi", JStr "u'free'") s)) =
      trace s ++ [Exec (InsertAttribute "WiFi") true;
                  Exec (InsertBusinessAttributeValue (JStr "b1") "WiFi"
                          "u`free`") ok].
Proof.
  intros E s. split; [reflexivity|].
  destruct (C8_value_column_is_sanitized_str E (JStr "b1") "WiFi"
              (JStr "u'free'") s) as (_ & H & _).
  destruct (H eq_refl) as (ok & H1 & _).
  exists ok. exact H1.
Defined.

(** *** The module body *)

Section Driver.

Variable E : environment.

Lemma row_events_no_call (evs : list event) :
  forallb row_event evs = true -> filter is_call evs = [].
Proof.
  induction evs as [|e evs IH]; simpl; [reflexivity|].
  intros H. apply andb_prop in H. destruct H as (He & Hr).
  destruct e; simpl in *; try discriminate; apply IH; exact Hr.
Qed.

(** A pass that gets its connection returns to its caller, whatever
    happens in its body. *)
Lemma pass_online (t : table) (s : session) :
  connects E (attempts s) = true ->
  exists s',
    pass E t s = (Returned tt, s') /\
    attempts s' = S (attempts s) /\
    filter is_call (trace s') = filter is_call (trace s).
Proof.
  intros Hc. rewrite pass_unfold.
  destruct (quiet_read_lines E t (entered s)) as (_ & Ha & evs & Ht & Hr).
  destruct (read_lines (source E t) (line_step E t) (entered s))
    as [[[]|] s1] eqn:Hb; simpl in Ha, Ht.
  - eexists. split; [apply (connect_psql_returned E _ s s1 Hc Hb)|].
    simpl. split; [exact Ha|].
    rewrite Ht. rewrite !filter_app, (row_events_no_call evs Hr).
    simpl. rewrite !app_nil_r. reflexivity.
  - eexists. split; [apply (connect_psql_raised E _ s s1 Hc Hb)|].
    simpl. split; [exact Ha|].
    rewrite Ht. rewrite !filter_app, (row_events_no_call evs Hr).
    simpl. rewrite !app_nil_r. reflexivity.
Qed.

Lemma call_online (t : table) (s : session) :
  connects E (attempts s) = true ->
  exists s',
    call t (pass E t) s = (Returned tt, s') /\
    attempts s' = S (attempts s) /\
    filter is_call (trace s') = filter is_call (trace s) ++ [Call t].
Proof.
  intros Hc. unfold call.
  destruct (pass_online t (emit (Call t) s) Hc) as (s' & H1 & H2 & H3).
  exists s'. split; [exact H1|]. split; [exact H2|].
  rewrite H3. simpl. rewrite filter_app. reflexivity.
Qed.

(** When each of the eight connection attempts succeeds, the module body
    calls the eight loaders once each, in the order of the source, and
    ends normally. *)
Lemma main_runs_eight_passes (d : database) :
  (forall n, n < 8 -> connects E n = true) ->
  exists s',
    main E (start d) = (Returned tt, s') /\
    filter is_call (trace s') =
      [Call TBusiness; Call TBusinessCategory; Call TBusinessAttributeValue;
       Call THours; Call TYelpUser; Call TFriendship; Call TTip;
       Call TCheckin].
Proof.
  intros Hc. unfold main.
  change (insert_business E) with (pass E TBusiness).
  change (insert_business_categories E) with (pass E TBusinessCategory).
  change (insert_business_attributes E) with (pass E TBusinessAttributeValue).
  change (insert_hours E) with (pass E THours).
  change (insert_users E) with (pass E TYelpUser).
  change (insert_friends E) with (pass E TFriendship).
  change (insert_tips E) with (pass E TTip).
  change (insert_checkins E) with (pass E TCheckin).
  destruct (call_online TBusiness (start d)) as (s1 & R1 & A1 & T1);
    [apply Hc; simpl; lia|].
  destruct (call_online TBusinessCategory s1) as (s2 & R2 & A2 & T2);
    [apply Hc; rewrite A1; simpl; lia|].
  destruct (call_online TBusinessAttributeValue s2) as (s3 & R3 & A3 & T3);
    [apply Hc; rewrite A2, A1; simpl; lia|].
  destruct (call_online THours s3) as (s4 & R4 & A4 & T4);
    [apply Hc; rewrite A3, A2, A1; simpl; lia|].
  destruct (call_online TYelpUser s4) as (s5 & R5 & A5 & T5);
    [apply Hc; rewrite A4, A3, A2, A1; simpl; lia|].
  destruct (call_online TFriendship s5) as (s6 & R6 & A6 & T6);
    [apply Hc; rewrite A5, A4, A3, A2, A1; simpl; lia|].
  destruct (call_online TTip s6) as (s7 & R7 & A7 & T7);
    [apply Hc; rewrite A6, A5, A4, A3, A2, A1; simpl; lia|].
  destruct (call_online TCheckin s7) as (s8 & R8 & A8 & T8);
    [apply Hc; rewrite A7, A6, A5, A4, A3, A2, A1; simpl; lia|].
  exists s8. split.
  - rewrite (bind_returned _ _ _ _ _ R1), (bind_returned _ _ _ _ _ R2),
      (bind_returned _ _ _ _ _ R3), (bind_returned _ _ _ _ _ R4),
      (bind_returned _ _ _ _ _ R5), (bind_returned _ _ _ _ _ R6),
      (bind_returned _ _ _ _ _ R7). exact R8.
  - rewrite T8, T7, T6, T5, T4, T3, T2, T1. reflexivity.
Qed.

End Driver.

(** C3, on the code as it is.  When the first connection attempt fails,
    the session scope prints and ends without yielding, the [with]
    statement of [insert_business] raises, and the exception reaches the
    module body: the run stops after the first call, and the seven other
    passes are never called. *)
Theorem C3_connection_failure_stops_run (E : environment) (d : database) :
  connects E 0 = false ->
  main E (start d) =
    (Raised,
     {| committed := d; working := d; attempts := 1;
        trace := [Call TBusiness; Connect false; Print DatabaseError] |}).
Proof.
  intros Hc. unfold main.
  apply bind_raised. unfold call, insert_business.
  rewrite connect_psql_offline; [reflexivity|exact Hc].
Qed.

Lemma C3_connection_failure_stops_run_witness :
  let E := sample 10 false [Some (business_record "b1" "Joe's" "Bars")]
             [] [] [] in
  connects E 0 = false /\
  fst (main E (start empty_database)) = Raised /\
  filter is_call (trace (snd (main E (start empty_database))))
    = [Call TBusiness].
Proof.
  intros E. split; [reflexivity|].
  rewrite (C3_connection_failure_stops_run E empty_database eq_refl).
  split; reflexivity.
Defined.

(** *** Equality of JSON values *)

Lemma json_eqb_refl (x : json) : json_eqb x x = true.
Proof.
  induction x using json_induction; simpl.
  - reflexivity.
  - apply Bool.eqb_reflx.
  - apply Z.eqb_refl.
  - apply String.eqb_refl.
  - apply String.eqb_refl.
  - induction H as [|v l Hv _ IH]; [reflexivity|].
    rewrite Hv. exact IH.
  - induction H as [|[k v] l Hv _ IH]; [reflexivity|].
    simpl in Hv. rewrite String.eqb_refl, Hv. exact IH.
Qed.

Lemma json_eqb_eq (x y : json) : json_eqb x y = true -> x = y.
Proof.
  revert y. induction x using json_induction; intros y; destruct y;
    simpl; try discriminate.
  - reflexivity.
  - intros H. apply Bool.eqb_prop in H. congruence.
  - intros H. apply Z.eqb_eq in H. congruence.
  - intros H. apply String.eqb_eq in H. congruence.
  - intros H. apply String.eqb_eq in H. congruence.
  - intros He. f_equal. revert items0 He.
    induction H as [|v l Hv _ IH]; intros [|w m] He;
      try discriminate; [reflexivity|].
    apply andb_prop in He. destruct He as (H1 & H2).
    f_equal; [apply Hv; exact H1|apply IH; exact H2].
  - intros He. f_equal. revert fields0 He.
    induction H as [|[k v] l Hv _ IH]; intros [|[k' w] m] He;
      try discriminate; [reflexivity|].
    apply andb_prop in He. destruct He as (H1 & H2).
    apply andb_prop in H1. destruct H1 as (Hk & Hw).
    apply String.eqb_eq in Hk. simpl in Hv.
    f_equal; [f_equal; [exact Hk|apply Hv; exact Hw]|apply IH; exact H2].
Qed.

Lemma json_eqb_neq (x y : json) : json_eqb x y = false -> x <> y.
Proof. intros H ->. rewrite json_eqb_refl in H. discriminate. Qed.



(** *** Categories and their links *)

Section Categories.

Variable E : environment.

Hypothesis category_accepted :
  forall n d, refuses E (InsertCategory n) d = false.
Hypothesis link_accepted :
  forall b n d, refuses E (InsertBusinessCategory b n) d = false.

Lemma has_name_In (n : string) (names : list string) :
  has_name n names = true <-> In n names.
Proof.
  unfold has_name. rewrite existsb_exists. split.
  - intros (x & Hx & He). apply String.eqb_eq in He. subst x. exact Hx.
  - intros H. exists n. split; [exact H|apply String.eqb_refl].
Qed.

(** The lookup insert leaves the name in the table exactly once. *)
Lemma apply_category (n : string) (d : database) :
  NoDup (Category_t d) ->
  NoDup (Category_t (apply E (InsertCategory n) d)) /\
  (forall m, In m (Category_t (apply E (InsertCategory n) d)) <->
             In m (Category_t d) \/ m = n) /\
  BusinessCategory_t (apply E (InsertCategory n) d) = BusinessCategory_t d.
Proof.
  intros Hnd. simpl. destruct (has_name n (Category_t d)) eqn:Hh.
  - apply has_name_In in Hh. split; [exact Hnd|]. split; [|reflexivity].
    intros m. split; [auto|]. intros [H| ->]; assumption.
  - simpl. split; [|split; [|reflexivity]].
    + apply NoDup_app; [exact Hnd|repeat constructor; intros []|].
      intros x Hx [Hn|[]]. subst x. apply has_name_In in Hx. congruence.
    + intros m. rewrite in_app_iff. simpl. intuition.
Qed.

Lemma category_row_accepted (b : json) (c : string) (s : session) :
  let n := cleanStr4SQL c in
  category_row E b c s =
    (Returned tt,
     emit (Exec (InsertBusinessCategory b n) true)
       (set_working
          (add_BusinessCategory (b, n) (apply E (InsertCategory n) (working s)))
          (emit (Exec (InsertCategory n) true) s))).
Proof.
  intros n. unfold category_row, category_inserts, try_except, bind.
  fold n. rewrite (execute_accepted E _ s (category_accepted n _)).
  rewrite execute_accepted; [reflexivity|apply link_accepted].
Qed.

Lemma category_rows_accepted (b : json) (cs : list string) (s : session) :
  NoDup (Category_t (working s)) ->
  exists s',
    for_each (category_row E b) cs s = (Returned tt, s') /\
    trace s' =
      trace s ++
      flat_map (fun n => [Exec (InsertCategory n) true;
                          Exec (InsertBusinessCategory b n) true])
        (List.map cleanStr4SQL cs) /\
    BusinessCategory_t (working s') =
      BusinessCategory_t (working s) ++
      List.map (pair b) (List.map cleanStr4SQL cs) /\
    NoDup (Category_t (working s')) /\
    (forall m, In m (Category_t (working s')) <->
               In m (Category_t (working s)) \/
               In m (List.map cleanStr4SQL cs)).
Proof.
  revert s. induction cs as [|c cs IH]; intros s Hnd.
  - exists s. simpl. rewrite !app_nil_r. repeat split; auto.
    intros [H|[]]; exact H.
  - simpl for_each. unfold bind. rewrite category_row_accepted.
    set (n := cleanStr4SQL c).
    destruct (apply_category n (working s) Hnd) as (Hnd1 & Hin1 & Hbc1).
    set (s1 := emit _ _).
    destruct (IH s1) as (s' & Hr & Ht & Hb & Hn & Hi).
    { subst s1.
      cbn [working emit set_working add_BusinessCategory Category_t].
      exact Hnd1. }
    exists s'. split; [exact Hr|]. split; [|split; [|split]].
    + rewrite Ht. subst s1. cbn [trace emit set_working List.map flat_map].
      fold n. rewrite <- !app_assoc. reflexivity.
    + rewrite Hb. subst s1.
      cbn [working emit set_working add_BusinessCategory BusinessCategory_t
             List.map].
      fold n. rewrite Hbc1, <- app_assoc. reflexivity.
    + exact Hn.
    + intros m. rewrite Hi. subst s1.
      cbn [working emit set_working add_BusinessCategory Category_t
             List.map In].
      fold n. rewrite Hin1. intuition.
Qed.

End Categories.



(** *** The Business table *)

Lemma grows_refl (d : database) : grows d d.
Proof.
  split; [|auto]. exists []. rewrite app_nil_r. split; [reflexivity|constructor].
Qed.

Lemma grows_trans (d0 d1 d2 : database) :
  grows d0 d1 -> grows d1 d2 -> grows d0 d2.
Proof.
  intros ((a1 & H1 & F1) & N1) ((a2 & H2 & F2) & N2). split; [|auto].
  exists (a1 ++ a2). split.
  - rewrite H2, H1, app_assoc. reflexivity.
  - apply Forall_app. split; assumption.
Qed.

Lemma has_business_In (id : json) (d : database) :
  has_business id d = true <-> In id (business_ids d).
Proof.
  unfold has_business, business_ids. rewrite existsb_exists, in_map_iff.
  split.
  - intros (r & Hr & He). exists r. split; [apply json_eqb_eq; exact He|exact Hr].
  - intros (r & He & Hr). exists r. split; [exact Hr|].
    rewrite He. apply json_eqb_refl.
Qed.

Lemma grows_has_business (id : json) (d0 d : database) :
  grows d0 d -> has_business id d0 = true -> has_business id d = true.
Proof.
  intros ((added & H & _) & _) Hh. unfold has_business in *.
  rewrite H, existsb_app, Hh. reflexivity.
Qed.

Lemma business_params_tip (data : json) (r : Business.row) :
  business_params data = Some r -> tip_zero r.
Proof.
  unfold business_params, opt_bind. intros H.
  repeat match type of H with
         | match ?o with _ => _ end = _ => destruct o; [|discriminate]
         end.
  inversion H. reflexivity.
Qed.

Section BusinessTable.

Variable E : environment.

Lemma apply_business_grows (r : Business.row) (d : database) :
  tip_zero r -> grows d (apply E (InsertBusiness r) d).
Proof.
  intros Ht. simpl. destruct (has_business (Business.business_id r) d) eqn:Hh.
  - apply grows_refl.
  - split.
    + exists [r]. split; [reflexivity|]. constructor; [exact Ht|constructor].
    + intros Hnd. unfold business_ids. simpl. rewrite map_app. simpl.
      apply NoDup_app; [exact Hnd|repeat constructor; intros []|].
      intros x Hx [Hn|[]]. subst x.
      apply has_business_In in Hx. congruence.
Qed.

Lemma apply_business_present (r : Business.row) (d : database) :
  has_business (Business.business_id r) (apply E (InsertBusiness r) d) = true.
Proof.
  simpl. destruct (has_business (Business.business_id r) d) eqn:Hh;
    [exact Hh|].
  unfold has_business. simpl. rewrite existsb_app. simpl.
  rewrite json_eqb_refl. apply orb_true_r.
Qed.

Lemma apply_business_skip (r : Business.row) (d : database) :
  has_business (Business.business_id r) d = true ->
  apply E (InsertBusiness r) d = d.
Proof. intros H. simpl. rewrite H. reflexivity. Qed.

(** A line of the Business pass either leaves the uncommitted table
    contents alone or applies the insert of its row to them. *)
Lemma business_line_working (l : line) (s : session) :
  working (snd (business_line E l s)) = working s \/
  exists data r,
    l = Some data /\ business_params data = Some r /\
    working (snd (business_line E l s)) =
      apply E (InsertBusiness r) (working s).
Proof.
  unfold business_line, json_loads, bind, eval, ret, raise, try_except.
  destruct l as [data|]; [|left; reflexivity].
  destruct (business_params data) as [r|] eqn:Hp.
  - unfold execute. destruct (refuses E (InsertBusiness r) (working s)).
    + left. destruct (dict_get data "business_id" (JStr "unknown"));
        reflexivity.
    + right. exists data, r. repeat split. exact Hp.
  - left. destruct (dict_get data "business_id" (JStr "unknown"));
      reflexivity.
Qed.

Lemma business_line_grows (l : line) (s : session) :
  grows (working s) (working (snd (business_line E l s))).
Proof.
  destruct (business_line_working l s) as [H|(data & r & _ & Hp & H)];
    rewrite H.
  - apply grows_refl.
  - apply apply_business_grows. apply (business_params_tip data r Hp).
Qed.

Lemma business_lines_grow (lines : list line) (s : session) :
  grows (working s) (working (snd (for_each (business_line E) lines s))).
Proof.
  revert s. induction lines as [|l lines IH]; intros s; simpl.
  - apply grows_refl.
  - unfold bind. pose proof (business_line_grows l s) as H.
    destruct (business_line E l s) as [[[]|] s1]; simpl in H.
    + apply (grows_trans _ _ _ H). apply IH.
    + exact H.
Qed.

Lemma business_body_grows (s : session) :
  grows (working s)
    (working (snd (read_lines (yelp_business E) (business_line E) s))).
Proof.
  unfold read_lines, bind, eval, ret, raise.
  destruct (yelp_business E) as [lines|]; [|apply grows_refl].
  apply business_lines_grow.
Qed.

(** A Business pass only adds rows with tip count 0 to the database and
    keeps the ids distinct. *)
Lemma insert_business_grows (s : session) :
  grows (committed s) (committed (snd (insert_business E s))).
Proof.
  unfold insert_business.
  destruct (connects E (attempts s)) eqn:Hc.
  - pose proof (business_body_grows (entered s)) as Hg.
    destruct (quiet_read_lines E TBusiness (entered s)) as (Hcm & _).
    simpl source in Hcm. simpl line_step in Hcm.
    destruct (read_lines (yelp_business E) (business_line E) (entered s))
      as [[[]|] s1] eqn:Hb; simpl in Hg, Hcm.
    + rewrite (connect_psql_returned E _ s s1 Hc Hb). simpl. exact Hg.
    + rewrite (connect_psql_raised E _ s s1 Hc Hb). simpl.
      rewrite Hcm. apply grows_refl.
  - rewrite (connect_psql_offline E _ s Hc). simpl. apply grows_refl.
Qed.

Hypothesis business_accepted :
  forall r d, refuses E (InsertBusiness r) d = false.

Lemma loadable_line (l : line) (s : session) :
  loadable l = true ->
  exists data r,
    l = Some data /\ business_params data = Some r /\
    business_line E l s =
      (Returned tt,
       emit (Exec (InsertBusiness r) true)
         (set_working (apply E (InsertBusiness r) (working s)) s)).
Proof.
  unfold loadable. destruct l as [data|]; [|discriminate].
  destruct (business_params data) as [r|] eqn:Hp; [|discriminate].
  intros _. exists data, r. split; [reflexivity|]. split; [exact Hp|].
  unfold business_line, json_loads, bind, eval, ret, try_except.
  rewrite Hp. rewrite (execute_accepted E _ s (business_accepted r _)).
  reflexivity.
Qed.

(** On loadable lines the loop returns, and the id of every line is in
    the table afterwards. *)
Lemma loadable_lines_present (lines : list line) (s : session) :
  forallb loadable lines = true ->
  fst (for_each (business_line E) lines s) = Returned tt /\
  forall data r,
    In (Some data) lines -> business_params data = Some r ->
    has_business (Business.business_id r)
      (working (snd (for_each (business_line E) lines s))) = true.
Proof.
  revert s. induction lines as [|l lines IH]; intros s Hl; simpl in *.
  - split; [reflexivity|]. intros ? ? [].
  - apply andb_prop in Hl. destruct Hl as (Hl1 & Hl2).
    destruct (loadable_line l s Hl1) as (data & r & -> & Hp & Hrun).
    unfold bind. rewrite Hrun.
    set (s1 := emit _ _).
    destruct (IH s1 Hl2) as (IH1 & IH2).
    split; [exact IH1|].
    intros data' r' [Heq|Hin] Hp'.
    + inversion Heq. subst data'. rewrite Hp in Hp'. inversion Hp'. subst r'.
      apply (grows_has_business _ (working s1)).
      * apply business_lines_grow.
      * subst s1. cbn [working emit set_working].
        apply apply_business_present.
    + apply (IH2 data' r' Hin Hp').
Qed.

(** On loadable lines whose ids are all in the table, the loop changes
    nothing. *)
Lemma loadable_lines_skip (lines : list line) (s : session) :
  forallb loadable lines = true ->
  (forall data r,
      In (Some data) lines -> business_params data = Some r ->
      has_business (Business.business_id r) (working s) = true) ->
  fst (for_each (business_line E) lines s) = Returned tt /\
  working (snd (for_each (business_line E) lines s)) = working s /\
  exists evs,
    trace (snd (for_each (business_line E) lines s)) = trace s ++ evs /\
    forallb accepted_exec evs = true.
Proof.
  revert s. induction lines as [|l lines IH]; intros s Hl Hall; simpl in *.
  - split; [reflexivity|]. split; [reflexivity|].
    exists []. rewrite app_nil_r. split; reflexivity.
  - apply andb_prop in Hl. destruct Hl as (Hl1 & Hl2).
    destruct (loadable_line l s Hl1) as (data & r & -> & Hp & Hrun).
    unfold bind. rewrite Hrun.
    rewrite (apply_business_skip r (working s));
      [|apply (Hall data r); [left; reflexivity|exact Hp]].
    set (s1 := emit _ _).
    destruct (IH s1 Hl2) as (IH1 & IH2 & evs & IH3 & IH4).
    { intros data' r' Hin Hp'. subst s1. cbn [working emit set_working].
      apply (Hall data' r'); [right; exact Hin|exact Hp']. }
    split; [exact IH1|]. split; [rewrite IH2; reflexivity|].
    exists (Exec (InsertBusiness r) true :: evs). split.
    + rewrite IH3. subst s1. cbn [trace emit set_working].
      rewrite <- app_assoc. reflexivity.
    + simpl. exact IH4.
Qed.

End BusinessTable.

Lemma unique_id_count (id : json) (d : database) :
  NoDup (business_ids d) -> has_business id d = true ->
  business_count id d = 1.
Proof.
  unfold business_ids, has_business, business_count.
  induction (Business_t d) as [|r rows IH]; simpl; [discriminate|].
  intros Hnd Hh. inversion Hnd as [|x l Hnotin Hnd']. subst.
  destruct (json_eqb (Business.business_id r) id) eqn:He.
  - apply json_eqb_eq in He. subst id. simpl. f_equal.
    destruct (filter _ rows) as [|r' rest] eqn:Hf; [reflexivity|].
    exfalso. apply Hnotin.
    assert (Hin : In r' (filter (fun r0 => json_eqb (Business.business_id r0)
                                             (Business.business_id r)) rows)).
    { rewrite Hf. left. reflexivity. }
    apply filter_In in Hin. destruct Hin as (Hin & Heq).
    apply json_eqb_eq in Heq. rewrite <- Heq. apply in_map. exact Hin.
  - simpl in Hh. apply IH; assumption.
Qed.

(** C5. From a Business table with distinct ids, two runs of the Business
    loader leave a table with distinct ids, in which the rows that were
    there come first and unchanged and every row added has tip count 0.
    When both runs connect, every line of the file has the fields the
    statement binds and the engine accepts the Business inserts, the second
    run executes only accepted statements, prints nothing, changes nothing
    in the database, and every id of the file has exactly one row. *)
Theorem C5_business_loader_twice (E : environment) (s : session) :
  NoDup (business_ids (committed s)) ->
  let s1 := snd (insert_business E s) in
  let s2 := snd (insert_business E s1) in
  NoDup (business_ids (committed s2)) /\
  (exists added,
      Business_t (committed s2) = Business_t (committed s) ++ added /\
      Forall (fun r => Business.tip_count r = 0%Z) added) /\
  (forall lines,
      yelp_business E = Some lines ->
      forallb loadable lines = true ->
      connects E (attempts s) = true ->
      connects E (S (attempts s)) = true ->
      (forall r d, refuses E (InsertBusiness r) d = false) ->
      committed s2 = committed s1 /\
      (exists evs,
          trace s2 =
            trace s1 ++ [Connect true; Cursor] ++ evs
              ++ [Commit; CursorClose; ConnClose] /\
          forallb accepted_exec evs = true) /\
      forall data r,
        In (Some data) lines -> business_params data = Some r ->
        business_count (Business.business_id r) (committed s2) = 1).
Proof.
  intros Hnd s1 s2.
  pose proof (insert_business_grows E s) as G1.
  pose proof (insert_business_grows E s1) as G2.
  fold s1 in G1. fold s2 in G2.
  pose proof (grows_trans _ _ _ G1 G2) as G.
  destruct G as (Hadd & Huniq).
  split; [apply Huniq; exact Hnd|]. split; [exact Hadd|].
  intros lines Hfile Hload Hc1 Hc2 Hacc.
  (* the first run *)
  destruct (loadable_lines_present E Hacc lines (entered s) Hload)
    as (Hret1 & Hpresent).
  destruct (for_each (business_line E) lines (entered s))
    as [[[]|] t1] eqn:Hrun1; simpl in Hret1; [|discriminate].
  assert (Hb1 : read_lines (yelp_business E) (business_line E) (entered s)
                = (Returned tt, t1)).
  { rewrite Hfile. unfold read_lines, bind, eval, ret. exact Hrun1. }
  assert (Hs1 : s1 = emit ConnClose (emit CursorClose
                       (emit Commit (set_committed (working t1) t1)))).
  { subst s1. unfold insert_business.
    rewrite (connect_psql_returned E _ s t1 Hc1 Hb1). reflexivity. }
  assert (Ha1 : attempts s1 = S (attempts s)).
  { destruct (quiet_read_lines E TBusiness (entered s)) as (_ & Ha & _).
    simpl source in Ha. simpl line_step in Ha. rewrite Hb1 in Ha.
    rewrite Hs1. simpl in *. exact Ha. }
  assert (Hcm1 : committed s1 = working t1).
  { rewrite Hs1. reflexivity. }
  (* the second run *)
  destruct (loadable_lines_skip E Hacc lines (entered s1) Hload)
    as (Hret2 & Hsame & evs & Htr & Hev).
  { intros data r Hin Hp. simpl. rewrite Hcm1.
    apply (Hpresent data r Hin Hp). }
  destruct (for_each (business_line E) lines (entered s1))
    as [[[]|] t2] eqn:Hrun2; simpl in Hret2; [|discriminate].
  simpl snd in Hsame, Htr.
  assert (Hb2 : read_lines (yelp_business E) (business_line E) (entered s1)
                = (Returned tt, t2)).
  { rewrite Hfile. unfold read_lines, bind, eval, ret. exact Hrun2. }
  assert (Hs2 : s2 = emit ConnClose (emit CursorClose
                       (emit Commit (set_committed (working t2) t2)))).
  { subst s2. unfold insert_business.
    rewrite (connect_psql_returned E _ s1 t2);
      [reflexivity|rewrite Ha1; exact Hc2|exact Hb2]. }
  assert (Hcm2 : committed s2 = committed s1).
  { rewrite Hs2. simpl. exact Hsame. }
  split; [exact Hcm2|]. split.
  { exists evs. split; [|exact Hev].
    rewrite Hs2. cbn [trace emit set_committed]. rewrite Htr.
    simpl. rewrite <- !app_assoc. reflexivity. }
  intros data r Hin Hp. apply unique_id_count.
  - apply Huniq. exact Hnd.
  - rewrite Hcm2, Hcm1. apply (Hpresent data r Hin Hp).
Qed.

Lemma C5_business_loader_twice_witness :
  let joe := business_record "b1" "Joe's" "Bars" in
  let moe := business_record "b2" "Moe's" "Bars, Nightlife" in
  let again := business_record "b1" "Joe's Bar and Grill" "Bars" in
  let E := lenient [Some joe; Some moe; Some again] in
  let s := start empty_database in
  let s2 := snd (insert_business E (snd (insert_business E s))) in
  NoDup (business_ids (committed s)) /\
  NoDup (business_ids (committed s2)) /\
  business_count (JStr "b1") (committed s2) = 1 /\
  List.map Business.business_name (Business_t (committed s2))
    = ["Joe`s"; "Moe`s"].
Proof.
  intros joe moe again E s s2. split; [constructor|].
  destruct (C5_business_loader_twice E s (NoDup_nil _)) as (H1 & _ & H3).
  split; [exact H1|].
  destruct (H3 [Some joe; Some moe; Some again] eq_refl eq_refl eq_refl eq_refl
              (fun _ _ => eq_refl)) as (_ & _ & H4).
  split; [|reflexivity].
  apply (H4 joe {| Business.business_id := JStr "b1";
                   Business.business_name := "Joe`s";
                   Business.business_address := "1 Main St";
                   Business.city := JStr "Tempe";
                   Business.state := JStr "AZ";
                   Business.zip_code := JStr "85281";
                   Business.latitude := JFloat "33.4";
                   Business.longitude := JFloat "-111.9";
                   Business.stars := JFloat "4.5";
                   Business.is_open := "TRUE";
                   Business.tip_count := 0 |});
    [left; reflexivity|reflexivity].
Defined.

(** * Further properties *)

(** *** Splitting and joining *)

Lemma join_cons_char (sep : string) (c : ascii) (h : string)
  (t : list string) :
  PyStr.join sep (String c h :: t) = String c (PyStr.join sep (h :: t)).
Proof. destruct t; reflexivity. Qed.

Lemma join_cons_cons (sep x y : string) (t : list string) :
  PyStr.join sep (x :: y :: t)
  = (x ++ sep ++ PyStr.join sep (y :: t))%string.
Proof. reflexivity. Qed.

Lemma prefix_length (p s : string) :
  String.prefix p s = true -> String.length p <= String.length s.
Proof.
  revert s. induction p as [|a p IH]; intros s; simpl; [lia|].
  destruct s as [|b s]; simpl; [intros H; discriminate H|].
  destruct (Ascii.ascii_dec a b); [|intros H; discriminate H].
  intros H. apply IH in H. lia.
Qed.

Lemma prefix_drop (p s : string) :
  String.prefix p s = true ->
  s = (p ++ string_drop (String.length p) s)%string.
Proof.
  revert s. induction p as [|a p IH]; intros s.
  - intros _. destruct s; reflexivity.
  - destruct s as [|b s]; simpl; [intros H; discriminate H|].
    destruct (Ascii.ascii_dec a b) as [->|]; [|intros H; discriminate H].
    intros H. f_equal. apply IH. exact H.
Qed.

(** Joining what the scan returns gives back what it scanned. *)
Lemma split_from_join (a : ascii) (p s : string) (skip : nat) :
  skip <= String.length s ->
  PyStr.join (String a p)
    (fst (PyStr.split_from (String a p) skip s)
       :: snd (PyStr.split_from (String a p) skip s))
  = string_drop skip s.
Proof.
  revert skip. induction s as [|c s IH]; intros skip Hk.
  - simpl in Hk. assert (skip = 0) by lia. subst. reflexivity.
  - destruct skip as [|k].
    + cbn [PyStr.split_from string_drop].
      destruct (String.prefix (String a p) (String c s)) eqn:Hp.
      * pose proof (prefix_length _ _ Hp) as Hl.
        pose proof (prefix_drop _ _ Hp) as Hd.
        cbn [String.length] in Hl, Hd. cbn [string_drop] in Hd.
        replace (String.length (String a p) - 1) with (String.length p)
          by (simpl; lia).
        specialize (IH (String.length p)).
        destruct (PyStr.split_from (String a p) (String.length p) s)
          as [h t].
        cbn [fst snd] in *. rewrite join_cons_cons.
        rewrite IH; [|lia]. cbn [append]. symmetry. exact Hd.
      * specialize (IH 0).
        destruct (PyStr.split_from (String a p) 0 s) as [h t].
        cbn [fst snd] in *. rewrite join_cons_char.
        rewrite IH; [reflexivity|lia].
    + cbn [PyStr.split_from string_drop]. apply IH. simpl in Hk. lia.
Qed.

Lemma split_join_nonempty (a : ascii) (p s : string) :
  PyStr.join (String a p) (PyStr.split (String a p) s) = s.
Proof.
  unfold PyStr.split.
  pose proof (split_from_join a p s 0 (Nat.le_0_l _)) as H.
  destruct (PyStr.split_from (String a p) 0 s) as [h t]. exact H.
Qed.

(** X1. Splitting a string on a non-empty separator and joining the
    pieces with that separator gives the string back; the split always
    has at least one piece. *)
Theorem X1_split_then_join (sep s : string) :
  sep <> EmptyString ->
  PyStr.join sep (PyStr.split sep s) = s /\
  PyStr.split sep s <> [].
Proof.
  intros Hsep. destruct sep as [|a p]; [contradiction|]. split.
  - apply split_join_nonempty.
  - unfold PyStr.split. destruct (PyStr.split_from _ 0 s). discriminate.
Qed.

Lemma X1_split_then_join_witness :
  ", " <> EmptyString /\
  PyStr.join ", " (PyStr.split ", " "Bars, Nightlife, , Pubs")
    = "Bars, Nightlife, , Pubs".
Proof.
  split; [discriminate|].
  apply (X1_split_then_join ", " "Bars, Nightlife, , Pubs"). discriminate.
Defined.

(** *** Hour ranges *)

Lemma count_append (c : ascii) (a b : string) :
  PyStr.count c (a ++ b) = PyStr.count c a + PyStr.count c b.
Proof. induction a as [|x a IH]; simpl; [reflexivity|]. rewrite IH. lia. Qed.

Lemma prefix_dash (x : ascii) (s : string) :
  String.prefix "-" (String x s) = Ascii.eqb x PyStr.dash.
Proof.
  cbn [String.prefix]. destruct (Ascii.ascii_dec "-" x) as [<-|Hne].
  - destruct s; reflexivity.
  - symmetry. apply Ascii.eqb_neq. intros ->. apply Hne. reflexivity.
Qed.

Lemma split_from_no_dash (s : string) :
  PyStr.count PyStr.dash s = 0 -> PyStr.split_from "-" 0 s = (s, []).
Proof.
  induction s as [|x s IH]; [reflexivity|].
  cbn [PyStr.split_from PyStr.count]. rewrite prefix_dash.
  destruct (Ascii.eqb x PyStr.dash); [discriminate|].
  intros H. rewrite (IH H). reflexivity.
Qed.

Lemma split_from_first_dash (o c : string) :
  PyStr.count PyStr.dash o = 0 ->
  PyStr.split_from "-" 0 (o ++ String PyStr.dash c) =
    (o, fst (PyStr.split_from "-" 0 c) :: snd (PyStr.split_from "-" 0 c)).
Proof.
  induction o as [|x o IH].
  - intros _. cbn [append PyStr.split_from]. rewrite prefix_dash.
    change (Ascii.eqb PyStr.dash PyStr.dash) with true.
    cbn [String.length Nat.sub].
    destruct (PyStr.split_from "-" 0 c). reflexivity.
  - cbn [append PyStr.split_from PyStr.count]. rewrite prefix_dash.
    destruct (Ascii.eqb x PyStr.dash); [discriminate|].
    intros H. rewrite (IH H). reflexivity.
Qed.

(** X2. A range string with exactly one dash unpacks into the text before
    the dash and the text after it, neither of which has a dash; and a
    string built from two dash-free parts around a dash unpacks into
    those parts. *)
Theorem X2_range_with_one_dash :
  (forall r,
      PyStr.count PyStr.dash r = 1 ->
      exists open_time close_time,
        open_close (JStr r) = Some (open_time, close_time) /\
        r = (open_time ++ "-" ++ close_time)%string /\
        PyStr.count PyStr.dash open_time = 0 /\
        PyStr.count PyStr.dash close_time = 0) /\
  (forall open_time close_time,
      PyStr.count PyStr.dash open_time = 0 ->
      PyStr.count PyStr.dash close_time = 0 ->
      open_close (JStr (open_time ++ "-" ++ close_time))
        = Some (open_time, close_time)).
Proof.
  split.
  - intros r H.
    pose proof (split_dash_length r) as Hl. rewrite H in Hl.
    pose proof (split_join_nonempty "-" EmptyString r) as Hj.
    destruct (PyStr.split "-" r) as [|o [|c [|x l]]] eqn:Hs; simpl in Hl;
      try discriminate.
    exists o, c. split; [|split].
    + unfold open_close, json_split. rewrite Hs. reflexivity.
    + symmetry. exact Hj.
    + simpl in Hj. rewrite <- Hj in H.
      rewrite count_append in H. simpl in H. lia.
  - intros o c Ho Hc. unfold open_close, json_split, PyStr.split.
    change ("-" ++ c)%string with (String PyStr.dash c).
    rewrite (split_from_first_dash o c Ho), (split_from_no_dash c Hc).
    reflexivity.
Qed.

Lemma X2_range_with_one_dash_witness :
  PyStr.count PyStr.dash "08:00-17:00" = 1 /\
  exists open_time close_time,
    open_close (JStr "08:00-17:00") = Some (open_time, close_time) /\
    "08:00-17:00" = (open_time ++ "-" ++ close_time)%string.
Proof.
  split; [reflexivity|].
  destruct X2_range_with_one_dash as (H & _).
  destruct (H "08:00-17:00" eq_refl) as (o & c & H1 & H2 & _).
  exists o, c. split; assumption.
Defined.

(** *** Sanitized text *)

Lemma clean_char_plain (c : ascii) :
  Ascii.eqb (clean_char c) PyStr.quote = false /\
  Ascii.eqb (clean_char c) PyStr.newline = false.
Proof.
  unfold clean_char.
  destruct (Ascii.eqb c PyStr.quote) eqn:Hq; [split; reflexivity|].
  destruct (Ascii.eqb c PyStr.newline) eqn:Hn; [split; reflexivity|].
  split; assumption.
Qed.

Lemma clean_char_twice (c : ascii) : clean_char (clean_char c) = clean_char c.
Proof.
  destruct (clean_char_plain c) as (Hq & Hn).
  unfold clean_char at 1. rewrite Hq, Hn. reflexivity.
Qed.

Lemma clean_counts (s : string) :
  PyStr.count PyStr.quote (cleanStr4SQL s) = 0 /\
  PyStr.count PyStr.newline (cleanStr4SQL s) = 0.
Proof.
  rewrite !cleanStr4SQL_map. split.
  - induction s as [|c s IH]; simpl; [reflexivity|].
    destruct (clean_char_plain c) as (Hq & _). rewrite Hq. exact IH.
  - induction s as [|c s IH]; simpl; [reflexivity|].
    destruct (clean_char_plain c) as (_ & Hn). rewrite Hn. exact IH.
Qed.

(** X3. Sanitized text has no quote and no newline, sanitizing it again
    changes nothing, and sanitizing a concatenation is the concatenation
    of the sanitized parts. *)
Theorem X3_sanitized_text (s t : string) :
  PyStr.count PyStr.quote (cleanStr4SQL s) = 0 /\
  PyStr.count PyStr.newline (cleanStr4SQL s) = 0 /\
  cleanStr4SQL (cleanStr4SQL s) = cleanStr4SQL s /\
  cleanStr4SQL (s ++ t) = (cleanStr4SQL s ++ cleanStr4SQL t)%string.
Proof.
  destruct (clean_counts s) as (Hq & Hn).
  split; [exact Hq|]. split; [exact Hn|]. clear Hq Hn.
  rewrite !cleanStr4SQL_map. split.
  - induction s as [|c s IH]; simpl; [reflexivity|].
    rewrite clean_char_twice, IH. reflexivity.
  - induction s as [|c s IH]; simpl; [reflexivity|].
    rewrite IH. reflexivity.
Qed.

(** *** Relations kept between the committed and the uncommitted contents *)

Section Keeps.

Variable E : environment.
Variable R : database -> database -> Prop.
Hypothesis HR : preorder R.

Lemma keeps_ret {A : Type} (a : A) : keeps R (ret a).
Proof. intros s. simpl. auto. Qed.

Lemma keeps_raise {A : Type} : keeps R (@raise A).
Proof. intros s. simpl. auto. Qed.

Lemma keeps_eval {A : Type} (o : option A) : keeps R (eval o).
Proof. destruct o; [apply keeps_ret|apply keeps_raise]. Qed.

Lemma keeps_print (m : message) : keeps R (print m).
Proof. intros s. simpl. auto. Qed.

Lemma keeps_rollback : keeps R rollback.
Proof. intros s. simpl. split; [reflexivity|]. intros _. apply HR. Qed.

Lemma keeps_execute (q : statement) :
  (forall d, R d (apply E q d)) -> keeps R (execute E q).
Proof.
  intros Hq s. unfold execute.
  destruct (refuses E q (working s)); simpl; split; auto.
  intros H. destruct HR as (_ & Htrans).
  apply (Htrans _ _ _ H). apply Hq.
Qed.

Lemma keeps_bind {A B : Type} (m : action A) (k : A -> action B) :
  keeps R m -> (forall a, keeps R (k a)) -> keeps R (bind m k).
Proof.
  intros Hm Hk s. unfold bind. destruct (Hm s) as (Hc & Hw).
  destruct (m s) as [[a|] s1]; simpl in *; [|auto].
  destruct (Hk a s1) as (Hc' & Hw'). rewrite Hc in *. auto.
Qed.

Lemma keeps_try_except (body handler : action unit) :
  keeps R body -> keeps R handler -> keeps R (try_except body handler).
Proof.
  intros Hb Hh s. unfold try_except. destruct (Hb s) as (Hc & Hw).
  destruct (body s) as [[a|] s1]; simpl in *; [auto|].
  destruct (Hh s1) as (Hc' & Hw'). rewrite Hc in *. auto.
Qed.

Lemma keeps_for_each {A : Type} (f : A -> action unit) (l : list A) :
  (forall x, keeps R (f x)) -> keeps R (for_each f l).
Proof.
  intros Hf. induction l as [|x l IH]; simpl.
  - apply keeps_ret.
  - apply keeps_bind; [apply Hf|intros _; exact IH].
Qed.

(** What a session scope commits is related to what was committed
    before it. *)
Lemma keeps_scope (body : action unit) (s : session) :
  keeps R body ->
  R (committed s) (committed (snd (connect_psql E body s))).
Proof.
  intros Hb. destruct HR as (Hrefl & _).
  destruct (connects E (attempts s)) eqn:Hc.
  - destruct (Hb (entered s)) as (Hcm & Hw).
    destruct (body (entered s)) as [[[]|] s1] eqn:Hrun; simpl in Hcm, Hw.
    + rewrite (connect_psql_returned E _ s s1 Hc Hrun). simpl.
      apply Hw. apply Hrefl.
    + rewrite (connect_psql_raised E _ s s1 Hc Hrun). simpl.
      rewrite Hcm. apply Hrefl.
  - rewrite (connect_psql_offline E _ s Hc). simpl. apply Hrefl.
Qed.

End Keeps.

Ltac keeps_auto pre solve_exec :=
  repeat
    match goal with
    | |- keeps _ (bind _ _) => apply keeps_bind; [|intros ?]
    | |- keeps _ (try_except _ _) => apply keeps_try_except
    | |- keeps _ (for_each _ _) => apply keeps_for_each; intros ?
    | |- keeps _ (ret _) => apply keeps_ret
    | |- keeps _ raise => apply keeps_raise
    | |- keeps _ (eval _) => apply keeps_eval
    | |- keeps _ (json_loads _) => apply keeps_eval
    | |- keeps _ rollback => apply keeps_rollback; pre
    | |- keeps _ (print _) => apply keeps_print
    | |- keeps _ (execute _ _) => apply keeps_execute; [pre|solve_exec]
    | |- keeps _ (category_row _ _ _) =>
        unfold category_row, category_inserts
    | |- keeps _ (attribute_row _ _ ?p) =>
        destruct p; unfold attribute_row, attribute_inserts
    | |- keeps _ (hours_row _ _ ?p) => destruct p; unfold hours_row
    | |- keeps _ (friend_row _ _ _) => unfold friend_row
    | |- keeps _ (checkin_row _ _ _) => unfold checkin_row, checkin_insert
    | |- keeps _ (read_lines _ _) => unfold read_lines
    | |- keeps _ (business_line _ _) => unfold business_line
    | |- keeps _ (business_categories_line _ _) =>
        unfold business_categories_line
    | |- keeps _ (business_attributes_line _ _) =>
        unfold business_attributes_line
    | |- keeps _ (hours_line _ _) => unfold hours_line
    | |- keeps _ (users_line _ _) => unfold users_line
    | |- keeps _ (friends_line _ _) => unfold friends_line
    | |- keeps _ (tips_line _ _) => unfold tips_line
    | |- keeps _ (checkins_line _ _) => unfold checkins_line
    end.

Section KeptByEveryStatement.

Variable E : environment.
Variable R : database -> database -> Prop.
Hypothesis HR : preorder R.
Hypothesis Happly : forall q d, R d (apply E q d).

Lemma keeps_pass_body (t : table) :
  keeps R (read_lines (source E t) (line_step E t)).
Proof.
  destruct t; simpl source; simpl line_step;
    keeps_auto ltac:(exact HR) ltac:(intros ?; apply Happly).
Qed.

Lemma pass_related (t : table) (s : session) :
  R (committed s) (committed (snd (pass E t s))).
Proof.
  rewrite pass_unfold. apply (keeps_scope E R HR). apply keeps_pass_body.
Qed.

Lemma bind_related {A B : Type} (m : action A) (k : A -> action B) :
  (forall s, R (committed s) (committed (snd (m s)))) ->
  (forall a s, R (committed s) (committed (snd (k a s)))) ->
  forall s, R (committed s) (committed (snd (bind m k s))).
Proof.
  intros Hm Hk s. unfold bind. pose proof (Hm s) as H1.
  destruct (m s) as [[a|] s1]; simpl in *; [|exact H1].
  destruct HR as (_ & Htrans). apply (Htrans _ _ _ H1). apply Hk.
Qed.

Lemma call_related (t : table) (s : session) :
  R (committed s) (committed (snd (call t (pass E t) s))).
Proof. unfold call. apply (pass_related t (emit (Call t) s)). Qed.

(** A relation that every statement keeps holds between the database
    before a run and the database after it. *)
Lemma main_related (s : session) :
  R (committed s) (committed (snd (main E s))).
Proof.
  revert s. unfold main.
  repeat (apply bind_related; [|intros _]);
    first [apply (call_related TBusiness)
          |apply (call_related TBusinessCategory)
          |apply (call_related TBusinessAttributeValue)
          |apply (call_related THours)
          |apply (call_related TYelpUser)
          |apply (call_related TFriendship)
          |apply (call_related TTip)
          |apply (call_related TCheckin)].
Qed.

End KeptByEveryStatement.

(** *** Rows are only added *)

Lemma prefix_of_refl {A : Type} (l : list A) : prefix_of l l.
Proof. exists []. rewrite app_nil_r. reflexivity. Qed.

Lemma prefix_of_trans {A : Type} (l1 l2 l3 : list A) :
  prefix_of l1 l2 -> prefix_of l2 l3 -> prefix_of l1 l3.
Proof.
  intros (a & ->) (b & ->). exists (a ++ b). rewrite app_assoc. reflexivity.
Qed.

Lemma prefix_of_add {A : Type} (l : list A) (x : A) : prefix_of l (l ++ [x]).
Proof. exists [x]. reflexivity. Qed.

Lemma extends_preorder : preorder extends.
Proof.
  split.
  - intros d. unfold extends. repeat split; apply prefix_of_refl.
  - intros a b c H1 H2. unfold extends in *.
    repeat match goal with
           | H : _ /\ _ |- _ => destruct H
           end.
    repeat split; eapply prefix_of_trans; eassumption.
Qed.

Lemma apply_extends (E : environment) (q : statement) (d : database) :
  extends d (apply E q d).
Proof.
  destruct q; cbn [apply];
    repeat match goal with
           | |- context [if ?b then _ else _] => destruct b
           end;
    unfold extends; cbn; repeat split;
      first [apply prefix_of_refl|apply prefix_of_add].
Qed.

(** X4. No run changes or removes a row that the database holds: after
    the module body, whether it ends normally or not, every table starts
    with the rows it had before, in the same order. *)
Theorem X4_run_only_adds_rows (E : environment) (s : session) :
  extends (committed s) (committed (snd (main E s))).
Proof.
  apply (main_related E extends extends_preorder (apply_extends E)).
Qed.



(** *** Keys stay distinct *)

Lemma has_user_In (id : json) (d : database) :
  has_user id d = true <-> In id (user_ids d).
Proof.
  unfold has_user, user_ids. rewrite existsb_exists, in_map_iff. split.
  - intros (r & Hr & He). exists r. split; [apply json_eqb_eq; exact He|exact Hr].
  - intros (r & He & Hr). exists r. split; [exact Hr|].
    rewrite He. apply json_eqb_refl.
Qed.

Lemma NoDup_add {A : Type} (l : list A) (x : A) :
  NoDup l -> ~ In x l -> NoDup (l ++ [x]).
Proof.
  intros Hnd Hx. apply NoDup_app; [exact Hnd|repeat constructor; intros []|].
  intros y Hy [<-|[]]. apply Hx. exact Hy.
Qed.

Lemma apply_keys_distinct (E : environment) (q : statement) (d : database) :
  keys_distinct d -> keys_distinct (apply E q d).
Proof.
  intros (Hb & Hu & Hc & Ha).
  destruct q; cbn [apply];
    try (repeat match goal with
                | |- context [if ?b then _ else _] => destruct b
                end;
         repeat split; assumption).
  - destruct (has_business (Business.business_id r) d) eqn:Hh;
      [repeat split; assumption|].
    repeat split; try assumption.
    unfold business_ids. cbn. rewrite map_app. cbn.
    apply NoDup_add; [exact Hb|].
    intros Hin. apply has_business_In in Hin. congruence.
  - destruct (has_name name (Category_t d)) eqn:Hh;
      [repeat split; assumption|].
    repeat split; try assumption. cbn.
    apply NoDup_add; [exact Hc|].
    intros Hin. apply has_name_In in Hin. congruence.
  - destruct (has_name name (Attribute_t d)) eqn:Hh;
      [repeat split; assumption|].
    repeat split; try assumption. cbn.
    apply NoDup_add; [exact Ha|].
    intros Hin. apply has_name_In in Hin. congruence.
  - destruct (has_user (YelpUser.user_id r) d) eqn:Hh;
      [repeat split; assumption|].
    repeat split; try assumption.
    unfold user_ids. cbn. rewrite map_app. cbn.
    apply NoDup_add; [exact Hu|].
    intros Hin. apply has_user_In in Hin. congruence.
Qed.

(** X6. A run keeps the keys distinct: when no two Business rows share an
    id, no two YelpUser rows share an id and no name occurs twice in
    Category or in Attribute before the module body, the same holds after
    it, however the run ends. *)
Theorem X6_run_keeps_keys_distinct (E : environment) (s : session) :
  keys_distinct (committed s) ->
  keys_distinct (committed (snd (main E s))).
Proof.
  apply (main_related E (fun d d' => keys_distinct d -> keys_distinct d')).
  - split; [auto|]. intros a b c H1 H2 H. auto.
  - intros q d. apply apply_keys_distinct.
Qed.

Lemma X6_run_keeps_keys_distinct_witness :
  let joe := business_record "b1" "Joe's" "Bars, Bars" in
  let again := business_record "b1" "Joe's Grill" "Bars, Grill" in
  let E := lenient [Some joe; Some again] in
  keys_distinct (committed (start empty_database)) /\
  Category_t (committed (snd (main E (start empty_database))))
    = ["Bars"; "Grill"] /\
  keys_distinct (committed (snd (main E (start empty_database)))).
Proof.
  intros joe again E.
  assert (H : keys_distinct (committed (start empty_database))).
  { repeat split; constructor. }
  split; [exact H|]. split; [reflexivity|].
  apply (X6_run_keeps_keys_distinct E (start empty_database) H).
Defined.

(** *** Each pass writes its own tables *)

Lemma erase_preorder (t : table) :
  preorder (fun d d' => erase t d = erase t d').
Proof. split; [reflexivity|]. intros a b c H1 H2. congruence. Qed.

Ltac erase_exec :=
  intros ?; cbn [apply];
  repeat match goal with
         | |- context [if ?b then _ else _] => destruct b
         end;
  reflexivity.

(** X7. A pass changes no table but those its statements insert into:
    Business for the Business pass, Category and BusinessCategory for the
    BusinessCategory pass, Attribute and BusinessAttributeValue for the
    BusinessAttributeValue pass, and the table of its name for each of
    the Hours, YelpUser, Friendship, Tip and Checkin passes. *)
Theorem X7_pass_writes_its_tables
  (E : environment) (t : table) (s : session) :
  erase t (committed (snd (pass E t s))) = erase t (committed s).
Proof.
  symmetry. rewrite pass_unfold.
  apply (keeps_scope E _ (erase_preorder t)).
  destruct t; simpl source; simpl line_step;
    keeps_auto ltac:(apply erase_preorder) ltac:(erase_exec).
Qed.

(** *** Rows of the Hours pass *)

Lemma statements_app (a b : list event) :
  statements (a ++ b) = statements a ++ statements b.
Proof. unfold statements. apply flat_map_app. Qed.

Lemma hours_rows_cons (b : json) (day : string) (v : json)
  (o c : string) (items : list (string * json)) :
  open_close v = Some (o, c) ->
  hours_rows b ((day, v) :: items) = (b, day, o, c) :: hours_rows b items.
Proof. intros H. unfold hours_rows. simpl. rewrite H. reflexivity. Qed.

Lemma hours_rows_accepted (E : environment) (b : json)
  (items : list (string * json)) (s : session) :
  (forall day o c d, refuses E (InsertHours b day o c) d = false) ->
  forallb unpacks items = true ->
  exists s',
    for_each (hours_row E b) items s = (Returned tt, s') /\
    Hours_t (working s') = Hours_t (working s) ++ hours_rows b items /\
    statements (trace s') =
      statements (trace s)
        ++ List.map (fun r => match r with
                              | (id, day, o, c) => InsertHours id day o c
                              end) (hours_rows b items).
Proof.
  intros Hacc. revert s.
  induction items as [|[day v] items IH]; intros s Hu; simpl in Hu.
  - exists s. simpl. rewrite !app_nil_r. auto.
  - apply andb_prop in Hu. destruct Hu as (Hu1 & Hu2).
    unfold unpacks in Hu1. simpl in Hu1.
    destruct (open_close v) as [[o c]|] eqn:Hoc; [|discriminate].
    simpl for_each. unfold bind at 1. unfold hours_row at 1.
    rewrite Hoc. unfold bind, eval, ret, try_except. simpl fst. simpl snd.
    rewrite (execute_accepted E _ s (Hacc day o c _)).
    set (s1 := emit _ _).
    destruct (IH s1 Hu2) as (s' & Hr & Hh & Hs).
    exists s'. split; [exact Hr|]. split.
    + rewrite Hh. subst s1. cbn [working emit set_working apply].
      cbn [Hours_t add_Hours].
      rewrite (hours_rows_cons b day v o c items Hoc).
      rewrite <- app_assoc. reflexivity.
    + rewrite Hs. subst s1. cbn [trace emit set_working].
      rewrite statements_app.
      rewrite (hours_rows_cons b day v o c items Hoc).
      rewrite <- app_assoc. reflexivity.
Qed.

Lemma hours_rows_length (b : json) (items : list (string * json)) :
  forallb unpacks items = true ->
  List.map (fun r => snd (fst (fst r))) (hours_rows b items)
    = List.map fst items.
Proof.
  induction items as [|[day v] items IH]; [reflexivity|].
  intros H. simpl in H. apply andb_prop in H. destruct H as (H1 & H2).
  unfold unpacks in H1. simpl in H1.
  destruct (open_close v) as [[o c]|] eqn:Hoc; [|discriminate].
  rewrite (hours_rows_cons b day v o c items Hoc).
  simpl. f_equal. apply IH. exact H2.
Qed.

(** X8. When every range of a record's [hours] unpacks and the engine
    accepts the Hours inserts, the Hours loader executes one insert per
    day, in the order of the dict, and adds one row per day holding the
    business id, the day, and the two parts of the range; a record
    without [hours] adds nothing. *)
Theorem X8_hours_one_row_per_day
  (E : environment) (data business_id : json)
  (items : list (string * json)) (s : session) :
  (forall b day o c d, refuses E (InsertHours b day o c) d = false) ->
  subscript data "business_id" = Some business_id ->
  opt_bind (dict_get data "hours" (JObj [])) json_items = Some items ->
  forallb unpacks items = true ->
  exists s',
    hours_line E (Some data) s = (Returned tt, s') /\
    Hours_t (working s') =
      Hours_t (working s) ++ hours_rows business_id items /\
    List.map (fun r => snd (fst (fst r))) (hours_rows business_id items)
      = List.map fst items /\
    statements (trace s') =
      statements (trace s)
        ++ List.map (fun r => match r with
                              | (id, day, o, c) => InsertHours id day o c
                              end) (hours_rows business_id items).
Proof.
  intros Hacc Hb Hh Hu.
  destruct (hours_rows_accepted E business_id items s (Hacc business_id) Hu)
    as (s' & Hr & Ht & Hs).
  exists s'. split; [|split; [exact Ht|split; [|exact Hs]]].
  - rewrite (hours_line_rows E data business_id items s Hb Hh). exact Hr.
  - apply hours_rows_length. exact Hu.
Qed.

Lemma X8_hours_one_row_per_day_witness :
  let data := JObj [("business_id", JStr "b1");
                    ("hours", JObj [("Mon", JStr "08:00-17:00");
                                    ("Tue", JStr "9:0-0:0")])] in
  let E := lenient [] in
  exists s',
    hours_line E (Some data) (entered (start empty_database))
      = (Returned tt, s') /\
    Hours_t (working s') =
      [(JStr "b1", "Mon", "08:00", "17:00"); (JStr "b1", "Tue", "9:0", "0:0")].
Proof.
  intros data E.
  destruct (X8_hours_one_row_per_day E data (JStr "b1")
              [("Mon", JStr "08:00-17:00"); ("Tue", JStr "9:0-0:0")]
              (entered (start empty_database))
              (fun _ _ _ _ _ => eq_refl) eq_refl eq_refl eq_refl)
    as (s' & H1 & H2 & _).
  exists s'. split; [exact H1|exact H2].
Defined.

(** *** One insert per listed friend and timestamp *)

Lemma single_insert_rows {A : Type} (E : environment)
  (row : A -> action unit) (stmt : A -> statement)
  (handler : action unit) (l : list A) (s : session) :
  (forall x, row x = try_except (execute E (stmt x)) handler) ->
  (forall s0, fst (handler s0) = Returned tt /\
              statements (trace (snd (handler s0))) = statements (trace s0)) ->
  fst (for_each row l s) = Returned tt /\
  statements (trace (snd (for_each row l s))) =
    statements (trace s) ++ List.map stmt l.
Proof.
  intros Hrow Hh. revert s. induction l as [|x l IH]; intros s; simpl.
  - rewrite app_nil_r. split; reflexivity.
  - unfold bind. rewrite Hrow. unfold try_except, execute.
    destruct (refuses E (stmt x) (working s)).
    + destruct (Hh (emit (Exec (stmt x) false) s)) as (H1 & H2).
      destruct (handler (emit (Exec (stmt x) false) s)) as [[[]|] s1];
        simpl in H1, H2; [|discriminate].
      destruct (IH s1) as (IH1 & IH2). split; [exact IH1|].
      rewrite IH2, H2. simpl. rewrite statements_app. simpl.
      rewrite <- app_assoc. reflexivity.
    + set (s1 := emit _ _). destruct (IH s1) as (IH1 & IH2).
      split; [exact IH1|]. rewrite IH2. subst s1. simpl.
      rewrite statements_app. simpl. rewrite <- app_assoc. reflexivity.
Qed.

(** X9. For a record that has its id and whose [friends] or [date] field
    is a string, the Friendship and Checkin loaders execute exactly one
    insert per piece of the field split on [", "], in order, whether the
    engine accepts the inserts or not, and the line returns normally. *)
Theorem X9_one_insert_per_piece (E : environment) :
  (forall data user_id friends s,
      subscript data "user_id" = Some user_id ->
      dict_get data "friends" (JStr EmptyString) = Some (JStr friends) ->
      fst (friends_line E (Some data) s) = Returned tt /\
      statements (trace (snd (friends_line E (Some data) s))) =
        statements (trace s)
          ++ List.map (InsertFriendship user_id) (PyStr.split ", " friends)) /\
  (forall data business_id date s,
      subscript data "business_id" = Some business_id ->
      dict_get data "date" (JStr EmptyString) = Some (JStr date) ->
      fst (checkins_line E (Some data) s) = Returned tt /\
      statements (trace (snd (checkins_line E (Some data) s))) =
        statements (trace s)
          ++ List.map (InsertCheckin business_id) (PyStr.split ", " date)).
Proof.
  split; intros data id field s Hid Hf.
  - unfold friends_line, json_loads, bind, eval, ret. rewrite Hid, Hf.
    simpl opt_bind. cbv iota beta.
    apply (single_insert_rows E (friend_row E id) (InsertFriendship id)
             (print (RowFailed TFriendship id))).
    + intros x. reflexivity.
    + intros s0. simpl. rewrite statements_app. simpl.
      rewrite app_nil_r. split; reflexivity.
  - unfold checkins_line, json_loads, bind, eval, ret. rewrite Hid, Hf.
    simpl opt_bind. cbv iota beta.
    apply (single_insert_rows E (checkin_row E id) (InsertCheckin id)
             (rollback ;; print (RowFailed TCheckin id))).
    + intros x. reflexivity.
    + intros s0. simpl. rewrite !statements_app. simpl.
      rewrite !app_nil_r. split; reflexivity.
Qed.

Lemma X9_one_insert_per_piece_witness :
  let data := JObj [("business_id", JStr "b1");
                    ("date", JStr "2021-01-01 10:00:00, 2021-01-01 10:05:00")] in
  let E := lenient [] in
  let s := entered (start empty_database) in
  subscript data "business_id" = Some (JStr "b1") /\
  statements (trace (snd (checkins_line E (Some data) s))) =
    [InsertCheckin (JStr "b1") "2021-01-01 10:00:00";
     InsertCheckin (JStr "b1") "2021-01-01 10:05:00"].
Proof.
  intros data E s. split; [reflexivity|].
  destruct (X9_one_insert_per_piece E) as (_ & H).
  destruct (H data (JStr "b1") "2021-01-01 10:00:00, 2021-01-01 10:05:00" s
              eq_refl eq_refl) as (_ & H2).
  exact H2.
Defined.

(** *** Lines the single-row loaders cannot bind *)

Ltac params_none :=
  repeat (cbn [opt_bind];
          first [reflexivity
                |match goal with
                 | |- opt_bind ?x _ = None => destruct x
                 end]).

Lemma business_params_missing (fields : list (string * json)) (key : string) :
  In key business_keys -> lookup key fields = None ->
  business_params (JObj fields) = None.
Proof.
  intros Hin Hmiss. unfold business_keys in Hin. simpl in Hin.
  unfold business_params, subscript.
  repeat (destruct Hin as [<-|Hin]; [rewrite Hmiss; params_none|]).
  contradiction.
Qed.

Lemma user_params_missing (fields : list (string * json)) (key : string) :
  In key user_keys -> lookup key fields = None ->
  user_params (JObj fields) = None.
Proof.
  intros Hin Hmiss. unfold user_keys in Hin. simpl in Hin.
  unfold user_params, subscript.
  repeat (destruct Hin as [<-|Hin]; [rewrite Hmiss; params_none|]).
  contradiction.
Qed.

Lemma tip_params_missing (fields : list (string * json)) (key : string) :
  In key tip_keys -> lookup key fields = None ->
  tip_params (JObj fields) = None.
Proof.
  intros Hin Hmiss. unfold tip_keys in Hin. simpl in Hin.
  unfold tip_params, subscript.
  repeat (destruct Hin as [<-|Hin]; [rewrite Hmiss; params_none|]).
  contradiction.
Qed.

(** X10. In the Business, YelpUser and Tip loaders a dict that lacks one
    of the keys the statement binds is skipped: nothing is executed, the
    failure is printed under the record's id, or under the word unknown
    when the id is the missing key, and the line returns normally. *)
Theorem X10_missing_key_is_logged (E : environment) :
  (forall fields key s,
      In key business_keys -> lookup key fields = None ->
      business_line E (Some (JObj fields)) s =
        (Returned tt,
         emit (Print (RowFailed TBusiness
                        (key_or_unknown "business_id" fields))) s)) /\
  (forall fields key s,
      In key user_keys -> lookup key fields = None ->
      users_line E (Some (JObj fields)) s =
        (Returned tt,
         emit (Print (RowFailed TYelpUser
                        (key_or_unknown "user_id" fields))) s)) /\
  (forall fields key s,
      In key tip_keys -> lookup key fields = None ->
      tips_line E (Some (JObj fields)) s =
        (Returned tt,
         emit (Print (RowFailed TTip (key_or_unknown "user_id" fields))) s)).
Proof.
  split; [|split]; intros fields key s Hin Hmiss.
  - unfold business_line, json_loads, bind, eval, ret, raise, try_except.
    rewrite (business_params_missing fields key Hin Hmiss).
    unfold dict_get, key_or_unknown.
    destruct (lookup "business_id" fields); reflexivity.
  - unfold users_line, json_loads, bind, eval, ret, raise, try_except.
    rewrite (user_params_missing fields key Hin Hmiss).
    unfold dict_get, key_or_unknown.
    destruct (lookup "user_id" fields); reflexivity.
  - unfold tips_line, json_loads, bind, eval, ret, raise, try_except.
    rewrite (tip_params_missing fields key Hin Hmiss).
    unfold dict_get, key_or_unknown.
    destruct (lookup "user_id" fields); reflexivity.
Qed.

Lemma X10_missing_key_is_logged_witness :
  let fields := [("name", JStr "Ann"); ("fans", JInt 3)] in
  let E := lenient [] in
  In "user_id" user_keys /\
  lookup "user_id" fields = None /\
  users_line E (Some (JObj fields)) (start empty_database) =
    (Returned tt,
     emit (Print (RowFailed TYelpUser (JStr "unknown")))
       (start empty_database)).
Proof.
  intros fields E. split; [left; reflexivity|]. split; [reflexivity|].
  destruct (X10_missing_key_is_logged E) as (_ & H & _).
  apply (H fields "user_id" (start empty_database));
    [left; reflexivity|reflexivity].
Defined.

(** *** Lines that are not a dict *)

Lemma not_dict_raises (E : environment) (t : table) (data : json)
  (s : session) :
  json_items data = None -> line_step E t (Some data) s = (Raised, s).
Proof.
  intros H. destruct data; try discriminate H; destruct t; reflexivity.
Qed.

(** X11. In every pass, a line that parses to something other than a dict
    (a number, a string, a list, null) raises out of the loop without
    effect: in the Business, YelpUser and Tip loaders the read of the id
    in the handler raises in its turn.  The session scope rolls back,
    prints and swallows; the database is what it was before the pass and
    nothing is done for the lines that follow. *)
Theorem X11_non_dict_line_aborts_pass
  (E : environment) (t : table) (s s1 : session)
  (pre post : list line) (data : json) :
  connects E (attempts s) = true ->
  source E t = Some (pre ++ Some data :: post) ->
  json_items data = None ->
  for_each (line_step E t) pre (entered s) = (Returned tt, s1) ->
  line_step E t (Some data) s1 = (Raised, s1) /\
  exists s',
    pass E t s = (Returned tt, s') /\
    committed s' = committed s /\
    working s' = committed s /\
    trace s' =
      trace s1 ++ [Rollback; Print DatabaseError; CursorClose; ConnClose].
Proof.
  intros Hc Hsrc Hnd Hpre.
  pose proof (not_dict_raises E t data s1 Hnd) as Hline.
  split; [exact Hline|].
  apply (aborted_pass E t (pre ++ Some data :: post) s s1 Hc Hsrc).
  apply (for_each_stops _ pre post (Some data) (entered s) s1 s1 Hpre Hline).
Qed.

Lemma X11_non_dict_line_aborts_pass_witness :
  let joe := Some (business_record "b1" "Joe's" "Bars") in
  let E := lenient [joe; Some (JArr [JInt 1]); joe] in
  json_items (JArr [JInt 1]) = None /\
  exists s',
    insert_business E (start empty_database) = (Returned tt, s') /\
    committed s' = empty_database /\
    statements (trace s') =
      match joe with
      | Some data =>
          match business_params data with
          | Some r => [InsertBusiness r]
          | None => []
          end
      | None => []
      end.
Proof.
  intros joe E. split; [reflexivity|].
  destruct (X11_non_dict_line_aborts_pass E TBusiness (start empty_database)
              (snd (for_each (line_step E TBusiness) [joe]
                      (entered (start empty_database))))
              [joe] [joe] (JArr [JInt 1]) eq_refl eq_refl eq_refl eq_refl)
    as (_ & s' & H1 & H2 & _ & H4).
  exists s'. split; [exact H1|]. split; [exact H2|].
  rewrite H4. reflexivity.
Defined.

(** *** The trace of a pass *)

(** X12. A pass makes exactly one connection attempt.  When the attempt
    fails, the pass prints, raises, and does nothing else.  When it
    succeeds, the pass returns normally and its trace is: the connection,
    the cursor, row events only (statements, row-level rollbacks and
    prints), then one commit, or one rollback with the print of the
    failure, and last the close of the cursor and of the connection. *)
Theorem X12_pass_trace_shape (E : environment) (t : table) (s : session) :
  attempts (snd (pass E t s)) = S (attempts s) /\
  (connects E (attempts s) = false ->
   fst (pass E t s) = Raised /\
   committed (snd (pass E t s)) = committed s /\
   trace (snd (pass E t s)) =
     trace s ++ [Connect false; Print DatabaseError]) /\
  (connects E (attempts s) = true ->
   fst (pass E t s) = Returned tt /\
   exists evs done,
     forallb row_event evs = true /\
     trace (snd (pass E t s)) =
       trace s ++ [Connect true; Cursor] ++ evs ++ ending done
         ++ [CursorClose; ConnClose]).
Proof.
  rewrite pass_unfold.
  destruct (connects E (attempts s)) eqn:Hc.
  - destruct (quiet_read_lines E t (entered s)) as (_ & Ha & evs & Ht & Hr).
    destruct (read_lines (source E t) (line_step E t) (entered s))
      as [[[]|] s1] eqn:Hb; simpl in Ha, Ht.
    + rewrite (connect_psql_returned E _ s s1 Hc Hb). simpl.
      split; [exact Ha|]. split; [discriminate|]. intros _.
      split; [reflexivity|]. exists evs, true. split; [exact Hr|].
      rewrite Ht. simpl. rewrite <- !app_assoc. reflexivity.
    + rewrite (connect_psql_raised E _ s s1 Hc Hb). simpl.
      split; [exact Ha|]. split; [discriminate|]. intros _.
      split; [reflexivity|]. exists evs, false. split; [exact Hr|].
      rewrite Ht. simpl. rewrite <- !app_assoc. reflexivity.
  - rewrite (connect_psql_offline E _ s Hc). simpl.
    split; [reflexivity|]. split; [|discriminate]. intros _.
    split; [reflexivity|]. split; [reflexivity|].
    rewrite <- app_assoc. reflexivity.
Qed.

Lemma X12_pass_trace_shape_witness :
  let data := business_record "b1" "Joe's" "Bars" in
  let E := sample 3 true [Some data] [] [] [] in
  let s := start empty_database in
  connects E (attempts s) = true /\
  exists evs done,
    forallb row_event evs = true /\
    trace (snd (pass E TBusinessCategory s)) =
      trace s ++ [Connect true; Cursor] ++ evs ++ ending done
        ++ [CursorClose; ConnClose].
Proof.
  intros data E s. split; [reflexivity|].
  destruct (X12_pass_trace_shape E TBusinessCategory s) as (_ & _ & H).
  destruct (H eq_refl) as (_ & evs & done & H1 & H2).
  exists evs, done. split; assumption.
Defined.

(** *** Where a run stops *)

Section Stops.

Variable E : environment.

Lemma call_offline (t : table) (s : session) :
  connects E (attempts s) = false ->
  fst (call t (pass E t) s) = Raised /\
  filter is_call (trace (snd (call t (pass E t) s)))
    = filter is_call (trace s) ++ [Call t].
Proof.
  intros Hc. unfold call. rewrite pass_unfold.
  rewrite (connect_psql_offline E _ (emit (Call t) s) Hc). simpl.
  split; [reflexivity|]. rewrite !filter_app. simpl.
  rewrite !app_nil_r. reflexivity.
Qed.

Lemma main_as_loop (s : session) :
  main E s = for_each (fun t => call t (pass E t)) passes s.
Proof.
  unfold main, passes. simpl for_each. unfold bind, ret. simpl pass.
  repeat match goal with
         | |- context [call ?t ?f ?s0] =>
             destruct (call t f s0) as [[[]|] ?]
         end; reflexivity.
Qed.

Lemma calls_stop (before after : list table) (t : table) (s : session) :
  (forall i, i < List.length before ->
             connects E (attempts s + i) = true) ->
  connects E (attempts s + List.length before) = false ->
  fst (for_each (fun t => call t (pass E t)) (before ++ t :: after) s)
    = Raised /\
  filter is_call
    (trace (snd (for_each (fun t => call t (pass E t))
                   (before ++ t :: after) s)))
    = filter is_call (trace s) ++ List.map Call (before ++ [t]).
Proof.
  revert s. induction before as [|b before IH]; intros s Hon Hoff.
  - simpl in *. rewrite Nat.add_0_r in Hoff.
    destruct (call_offline t s Hoff) as (H1 & H2).
    unfold bind. destruct (call t (pass E t) s) as [[[]|] s1];
      simpl in *; [discriminate|].
    split; [reflexivity|exact H2].
  - simpl app. simpl for_each. unfold bind.
    destruct (call_online E b s) as (s1 & R1 & A1 & T1).
    { specialize (Hon 0). rewrite Nat.add_0_r in Hon. apply Hon.
      simpl. lia. }
    rewrite R1.
    destruct (IH s1) as (H1 & H2).
    + intros i Hi. rewrite A1.
      replace (S (attempts s) + i) with (attempts s + S i) by lia.
      apply Hon. simpl. lia.
    + rewrite A1. simpl in Hoff.
      replace (S (attempts s) + List.length before)
        with (attempts s + S (List.length before)) by lia.
      exact Hoff.
    + split; [exact H1|]. rewrite H2, T1. simpl.
      rewrite <- app_assoc. reflexivity.
Qed.

End Stops.

(** X13. The run stops at the first pass whose connection attempt fails:
    when the attempts before the one numbered [k] succeed and that one
    fails, the module body raises, having called the first [k + 1] passes
    of its order and no other. *)
Theorem X13_run_stops_at_failed_connection
  (E : environment) (d : database) (k : nat) :
  k < 8 ->
  (forall n, n < k -> connects E n = true) ->
  connects E k = false ->
  fst (main E (start d)) = Raised /\
  filter is_call (trace (snd (main E (start d))))
    = List.map Call (firstn (S k) passes).
Proof.
  intros Hk Hon Hoff. rewrite main_as_loop.
  assert (Hsplit : passes =
                   firstn k passes ++ nth k passes TBusiness
                     :: skipn (S k) passes).
  { do 8 (destruct k as [|k]; [reflexivity|]). lia. }
  assert (Hlen : List.length (firstn k passes) = k).
  { rewrite length_firstn. simpl. lia. }
  rewrite Hsplit at 1 2.
  destruct (calls_stop E (firstn k passes) (skipn (S k) passes)
              (nth k passes TBusiness) (start d)) as (H1 & H2).
  - intros i Hi. simpl. apply Hon. rewrite Hlen in Hi. exact Hi.
  - simpl. rewrite Hlen. exact Hoff.
  - split; [exact H1|]. rewrite H2. simpl. f_equal.
    do 8 (destruct k as [|k]; [reflexivity|]). lia.
Qed.

Lemma X13_run_stops_at_failed_connection_witness :
  let E := {| refuses := fun _ _ => false;
              conflicts := fun _ _ => false;
              connects := fun n => Nat.ltb n 2;
              get_attributes := normalizer;
              yelp_business := Some [];
              yelp_user := Some [];
              yelp_tip := Some [];
              yelp_checkin := Some [] |} in
  connects E 2 = false /\
  fst (main E (start empty_database)) = Raised /\
  filter is_call (trace (snd (main E (start empty_database))))
    = [Call TBusiness; Call TBusinessCategory; Call TBusinessAttributeValue].
Proof.
  intros E. split; [reflexivity|].
  apply (X13_run_stops_at_failed_connection E empty_database 2).
  - lia.
  - intros n Hn. destruct n as [|[|n]]; [reflexivity|reflexivity|lia].
  - reflexivity.
Defined.

(** X14. The module body ends normally exactly when each of its eight
    connection attempts succeeds. *)
Theorem X14_run_returns_iff_all_connect (E : environment) (d : database) :
  fst (main E (start d)) = Returned tt <->
  (forall n, n < 8 -> connects E n = true).
Proof.
  split.
  - intros Hret n Hn.
    destruct (connects E n) eqn:Hc; [reflexivity|]. exfalso.
    assert (Hfirst : exists k, k < 8 /\
                       (forall i, i < k -> connects E i = true) /\
                       connects E k = false).
    { clear Hret.
      destruct (connects E 0) eqn:C0;
        [|exists 0; repeat split; [lia|intros; lia|exact C0]].
      destruct (connects E 1) eqn:C1;
        [|exists 1; repeat split; [lia| |exact C1];
          intros [|i] Hi; [exact C0|lia]].
      destruct (connects E 2) eqn:C2;
        [|exists 2; repeat split; [lia| |exact C2];
          intros [|[|i]] Hi; [exact C0|exact C1|lia]].
      destruct (connects E 3) eqn:C3;
        [|exists 3; repeat split; [lia| |exact C3];
          intros [|[|[|i]]] Hi; [exact C0|exact C1|exact C2|lia]].
      destruct (connects E 4) eqn:C4;
        [|exists 4; repeat split; [lia| |exact C4];
          intros [|[|[|[|i]]]] Hi;
          [exact C0|exact C1|exact C2|exact C3|lia]].
      destruct (connects E 5) eqn:C5;
        [|exists 5; repeat split; [lia| |exact C5];
          intros [|[|[|[|[|i]]]]] Hi;
          [exact C0|exact C1|exact C2|exact C3|exact C4|lia]].
      destruct (connects E 6) eqn:C6;
        [|exists 6; repeat split; [lia| |exact C6];
          intros [|[|[|[|[|[|i]]]]]] Hi;
          [exact C0|exact C1|exact C2|exact C3|exact C4|exact C5|lia]].
      destruct (connects E 7) eqn:C7;
        [|exists 7; repeat split; [lia| |exact C7];
          intros [|[|[|[|[|[|[|i]]]]]]] Hi;
          [exact C0|exact C1|exact C2|exact C3|exact C4|exact C5
          |exact C6|lia]].
      exfalso.
      do 8 (destruct n as [|n]; [congruence|]). lia. }
    destruct Hfirst as (k & Hk & Hon & Hoff).
    rewrite main_as_loop in Hret.
    assert (Hsplit : passes =
                     firstn k passes ++ nth k passes TBusiness
                       :: skipn (S k) passes).
    { do 8 (destruct k as [|k]; [reflexivity|]). lia. }
    assert (Hlen : List.length (firstn k passes) = k).
    { rewrite length_firstn. simpl. lia. }
    rewrite Hsplit in Hret.
    destruct (calls_stop E (firstn k passes) (skipn (S k) passes)
                (nth k passes TBusiness) (start d)) as (H1 & _).
    + intros i Hi. simpl. apply Hon. rewrite Hlen in Hi. exact Hi.
    + simpl. rewrite Hlen. exact Hoff.
    + rewrite H1 in Hret. discriminate.
  - intros Hall.
    destruct (main_runs_eight_passes E d Hall) as (s' & H & _).
    rewrite H. reflexivity.
Qed.

Lemma X14_run_returns_iff_all_connect_witness :
  (forall n, n < 8 -> connects (lenient []) n = true) /\
  fst (main (lenient []) (start empty_database)) = Returned tt.
Proof.
  split; [intros n Hn; reflexivity|].
  apply (X14_run_returns_iff_all_connect (lenient []) empty_database).
  intros n Hn. reflexivity.
Defined.

(** *** What the statements of a run bind *)

Section Issues.

Variable E : environment.
Variable Q : statement -> Prop.

Lemma issues_nothing {A : Type} (a : action A) :
  (forall s, trace (snd (a s)) = trace s) -> issues Q a.
Proof.
  intros H s. exists []. rewrite app_nil_r. split; [apply H|constructor].
Qed.

Lemma issues_event {A : Type} (a : action A) (e : session -> event) :
  (forall s, trace (snd (a s)) = trace s ++ [e s]) ->
  (forall s, statements [e s] = []) ->
  issues Q a.
Proof.
  intros H He s. exists [e s]. split; [apply H|]. rewrite He. constructor.
Qed.

Lemma issues_ret {A : Type} (a : A) : issues Q (ret a).
Proof. apply issues_nothing. reflexivity. Qed.

Lemma issues_raise {A : Type} : issues Q (@raise A).
Proof. apply issues_nothing. reflexivity. Qed.

Lemma issues_eval {A : Type} (o : option A) : issues Q (eval o).
Proof. destruct o; [apply issues_ret|apply issues_raise]. Qed.

Lemma issues_print (m : message) : issues Q (print m).
Proof. intros s. exists [Print m]. split; [reflexivity|constructor]. Qed.

Lemma issues_rollback : issues Q rollback.
Proof. intros s. exists [Rollback]. split; [reflexivity|constructor]. Qed.

Lemma issues_commit : issues Q commit.
Proof. intros s. exists [Commit]. split; [reflexivity|constructor]. Qed.

Lemma issues_execute (q : statement) : Q q -> issues Q (execute E q).
Proof.
  intros Hq s. unfold execute.
  destruct (refuses E q (working s)); simpl; eexists; (split; [reflexivity|]);
    simpl; repeat constructor; exact Hq.
Qed.

Lemma issues_bind {A B : Type} (m : action A) (k : A -> action B) :
  issues Q m -> (forall a, issues Q (k a)) -> issues Q (bind m k).
Proof.
  intros Hm Hk s. unfold bind. destruct (Hm s) as (evs & Ht & Hq).
  destruct (m s) as [[a|] s1]; simpl in *.
  - destruct (Hk a s1) as (evs' & Ht' & Hq').
    exists (evs ++ evs'). split.
    + rewrite Ht', Ht, app_assoc. reflexivity.
    + rewrite statements_app. apply Forall_app. split; assumption.
  - exists evs. split; assumption.
Qed.

(** The continuation of an expression only matters on its value. *)
Lemma issues_bind_eval {A B : Type} (o : option A) (k : A -> action B) :
  (forall a, o = Some a -> issues Q (k a)) -> issues Q (bind (eval o) k).
Proof.
  intros Hk. destruct o as [a|].
  - intros s. unfold bind, eval, ret. apply (Hk a eq_refl).
  - intros s. unfold bind, eval, raise. simpl. exists [].
    rewrite app_nil_r. split; [reflexivity|constructor].
Qed.

Lemma issues_try_except (body handler : action unit) :
  issues Q body -> issues Q handler -> issues Q (try_except body handler).
Proof.
  intros Hb Hh s. unfold try_except. destruct (Hb s) as (evs & Ht & Hq).
  destruct (body s) as [[a|] s1]; simpl in *.
  - exists evs. split; assumption.
  - destruct (Hh s1) as (evs' & Ht' & Hq').
    exists (evs ++ evs'). split.
    + rewrite Ht', Ht, app_assoc. reflexivity.
    + rewrite statements_app. apply Forall_app. split; assumption.
Qed.

Lemma issues_for_each {A : Type} (f : A -> action unit) (l : list A) :
  (forall x, issues Q (f x)) -> issues Q (for_each f l).
Proof.
  intros Hf. induction l as [|x l IH]; simpl.
  - apply issues_ret.
  - apply issues_bind; [apply Hf|intros _; exact IH].
Qed.

Lemma issues_scope (body : action unit) :
  issues Q body -> issues Q (connect_psql E body).
Proof.
  intros Hb s. destruct (connects E (attempts s)) eqn:Hc.
  - destruct (Hb (entered s)) as (evs & Ht & Hq).
    destruct (body (entered s)) as [[[]|] s1] eqn:Hrun; simpl in Ht.
    + rewrite (connect_psql_returned E _ s s1 Hc Hrun). simpl.
      exists ([Connect true; Cursor] ++ evs
                ++ [Commit; CursorClose; ConnClose]).
      split; [rewrite Ht; simpl; rewrite <- !app_assoc; reflexivity|].
      rewrite !statements_app. simpl. rewrite app_nil_r. exact Hq.
    + rewrite (connect_psql_raised E _ s s1 Hc Hrun). simpl.
      exists ([Connect true; Cursor] ++ evs
                ++ [Rollback; Print DatabaseError; CursorClose; ConnClose]).
      split; [rewrite Ht; simpl; rewrite <- !app_assoc; reflexivity|].
      rewrite !statements_app. simpl. rewrite app_nil_r. exact Hq.
  - rewrite (connect_psql_offline E _ s Hc). simpl.
    exists [Connect false; Print DatabaseError].
    split; [rewrite <- app_assoc; reflexivity|constructor].
Qed.

Lemma issues_call (t : table) (f : action unit) :
  issues Q f -> issues Q (call t f).
Proof.
  intros Hf s. unfold call. destruct (Hf (emit (Call t) s)) as (evs & Ht & Hq).
  exists (Call t :: evs). split.
  - rewrite Ht. simpl. rewrite <- app_assoc. reflexivity.
  - exact Hq.
Qed.

(** When the statements of the eight loops satisfy [Q], so do those of
    the run. *)
Lemma issues_main :
  (forall t l, issues Q (line_step E t l)) -> issues Q (main E).
Proof.
  intros Hline.
  assert (Hpass : forall t, issues Q (call t (pass E t))).
  { intros t. apply issues_call. rewrite pass_unfold. apply issues_scope.
    unfold read_lines. apply issues_bind; [apply issues_eval|].
    intros lines. apply issues_for_each. apply Hline. }
  unfold main.
  repeat (apply issues_bind; [|intros _]);
    first [apply (Hpass TBusiness)
          |apply (Hpass TBusinessCategory)
          |apply (Hpass TBusinessAttributeValue)
          |apply (Hpass THours)
          |apply (Hpass TYelpUser)
          |apply (Hpass TFriendship)
          |apply (Hpass TTip)
          |apply (Hpass TCheckin)].
Qed.

End Issues.

Ltac issues_auto solve_exec :=
  repeat
    match goal with
    | |- issues _ (bind (eval _) _) =>
        apply issues_bind_eval; intros ? ?
    | |- issues _ (bind (json_loads _) _) =>
        apply issues_bind_eval; intros ? ?
    | |- issues _ (bind _ _) => apply issues_bind; [|intros ?]
    | |- issues _ (try_except _ _) => apply issues_try_except
    | |- issues _ (for_each _ _) => apply issues_for_each; intros ?
    | |- issues _ (ret _) => apply issues_ret
    | |- issues _ raise => apply issues_raise
    | |- issues _ (eval _) => apply issues_eval
    | |- issues _ rollback => apply issues_rollback
    | |- issues _ (print _) => apply issues_print
    | |- issues _ (execute _ _) => apply issues_execute; solve_exec
    | |- issues _ (category_row _ _ _) =>
        unfold category_row, category_inserts
    | |- issues _ (attribute_row _ _ ?p) =>
        destruct p; unfold attribute_row, attribute_inserts
    | |- issues _ (hours_row _ _ ?p) => destruct p; unfold hours_row
    | |- issues _ (friend_row _ _ _) => unfold friend_row
    | |- issues _ (checkin_row _ _ _) => unfold checkin_row, checkin_insert
    end.

Lemma plain_clean (s : string) : plain (cleanStr4SQL s).
Proof. apply clean_counts. Qed.

Lemma clean_json_plain (v : json) (s : string) :
  clean_json v = Some s -> plain s.
Proof.
  destruct v; try discriminate. simpl. intros H. inversion H.
  apply plain_clean.
Qed.

Lemma clean_field_plain (o : option json) (s : string) :
  opt_bind o clean_json = Some s -> plain s.
Proof.
  destruct o as [v|]; [|discriminate]. simpl. apply clean_json_plain.
Qed.

Ltac params_some H :=
  repeat match type of H with
         | opt_bind ?o _ = Some _ =>
             let e := fresh "Hfield" in
             destruct o eqn:e; cbn [opt_bind] in H; [|discriminate H]
         end.

Lemma business_params_sanitized (data : json) (r : Business.row) :
  business_params data = Some r ->
  sanitized (InsertBusiness r) /\ business_constants (InsertBusiness r).
Proof.
  unfold business_params. intros H. params_some H.
  inversion H. subst r. simpl. split; [split|split].
  - eapply clean_field_plain; eassumption.
  - eapply clean_field_plain; eassumption.
  - reflexivity.
  - destruct (equals_one _); [left|right]; reflexivity.
Qed.

Lemma user_params_sanitized (data : json) (r : YelpUser.row) :
  user_params data = Some r -> sanitized (InsertYelpUser r).
Proof.
  unfold user_params. intros H. params_some H.
  inversion H. subst r. simpl. eapply clean_field_plain; eassumption.
Qed.

Lemma tip_params_sanitized (data : json) (r : Tip.row) :
  tip_params data = Some r -> sanitized (InsertTip r).
Proof.
  unfold tip_params. intros H. params_some H.
  inversion H. subst r. simpl. eapply clean_field_plain; eassumption.
Qed.

Lemma sanitized_lines (E : environment) (t : table) (l : line) :
  issues sanitized (line_step E t l).
Proof.
  destruct t; simpl line_step;
    unfold business_line, business_categories_line, business_attributes_line,
      hours_line, users_line, friends_line, tips_line, checkins_line;
    issues_auto ltac:(idtac);
    try (simpl; first [apply plain_clean
                      |split; apply plain_clean
                      |exact I]).
  - apply (business_params_sanitized a a0). assumption.
  - apply (user_params_sanitized a a0). assumption.
  - apply (tip_params_sanitized a a0). assumption.
Qed.

(** X15. In every statement a run executes, the parameters that go
    through the sanitizer have no quote and no newline: the name and the
    address of a business, the names of categories, attributes and users,
    the attribute values and the tip texts. *)
Theorem X15_run_binds_sanitized_text (E : environment) (s : session) :
  Forall sanitized (statements (trace s)) ->
  Forall sanitized (statements (trace (snd (main E s)))).
Proof.
  intros H.
  destruct (issues_main E sanitized (sanitized_lines E) s) as (evs & Ht & Hq).
  rewrite Ht, statements_app. apply Forall_app. split; assumption.
Qed.

Lemma X15_run_binds_sanitized_text_witness :
  let data := business_record "b1" "Joe's" "Kids' Menu, Bars" in
  let E := lenient [Some data] in
  Forall sanitized (statements (trace (start empty_database))) /\
  List.length (statements (trace (snd (main E (start empty_database))))) = 5 /\
  Forall sanitized (statements (trace (snd (main E (start empty_database))))).
Proof.
  intros data E. split; [constructor|]. split; [reflexivity|].
  apply (X15_run_binds_sanitized_text E (start empty_database)).
  constructor.
Defined.

Lemma constant_lines (E : environment) (t : table) (l : line) :
  issues business_constants (line_step E t l).
Proof.
  destruct t; simpl line_step;
    unfold business_line, business_categories_line, business_attributes_line,
      hours_line, users_line, friends_line, tips_line, checkins_line;
    issues_auto ltac:(idtac);
    try exact I.
  apply (business_params_sanitized a a0). assumption.
Qed.

(** X16. Every Business insert of a run binds the tip count 0 and, as
    open flag, the word TRUE or the word FALSE. *)
Theorem X16_business_inserts_bind_constants
  (E : environment) (s : session) :
  Forall business_constants (statements (trace s)) ->
  Forall business_constants (statements (trace (snd (main E s)))).
Proof.
  intros H.
  destruct (issues_main E business_constants (constant_lines E) s)
    as (evs & Ht & Hq).
  rewrite Ht, statements_app. apply Forall_app. split; assumption.
Qed.

Lemma X16_business_inserts_bind_constants_witness :
  let data := business_record "b1" "Joe's" "Bars" in
  let E := lenient [Some data] in
  Forall business_constants (statements (trace (start empty_database))) /\
  Forall business_constants
    (statements (trace (snd (main E (start empty_database))))).
Proof.
  intros data E. split; [constructor|].
  apply (X16_business_inserts_bind_constants E (start empty_database)).
  constructor.
Defined.

(** *** Running the BusinessCategory pass again *)

Section Rerun.

Variable E : environment.

Hypothesis category_accepted :
  forall n d, refuses E (InsertCategory n) d = false.
Hypothesis link_accepted :
  forall b n d, refuses E (InsertBusinessCategory b n) d = false.

Lemma category_rows_present (b : json) (cs : list string) (s : session) :
  (forall c, In c cs -> In (cleanStr4SQL c) (Category_t (working s))) ->
  Category_t (working (snd (for_each (category_row E b) cs s)))
    = Category_t (working s).
Proof.
  revert s. induction cs as [|c cs IH]; intros s Hin; [reflexivity|].
  simpl for_each. unfold bind.
  rewrite (category_row_accepted E category_accepted link_accepted b c s).
  set (s1 := emit _ _).
  assert (H1 : Category_t (working s1) = Category_t (working s)).
  { subst s1. cbn [working emit set_working add_BusinessCategory Category_t].
    cbn [apply].
    assert (Hh : has_name (cleanStr4SQL c) (Category_t (working s)) = true).
    { apply has_name_In. apply Hin. left. reflexivity. }
    rewrite Hh. reflexivity. }
  rewrite IH; [exact H1|].
  intros c' Hc'. rewrite H1. apply Hin. right. exact Hc'.
Qed.

Lemma category_line_rows (l : line) (b : json) (cs : list string)
  (s : session) :
  line_categories l = Some (b, cs) ->
  business_categories_line E l s = for_each (category_row E b) cs s.
Proof.
  unfold line_categories. destruct l as [data|]; [|discriminate].
  unfold business_categories_line, json_loads, bind, eval, ret.
  destruct (subscript data "business_id") as [b'|]; [|discriminate].
  destruct (opt_bind (dict_get data "categories" (JStr EmptyString))
              (json_split ", ")) as [cs'|]; [|discriminate].
  intros H. inversion H. reflexivity.
Qed.

Lemma category_lines_accepted (lines : list line) (s : session) :
  forallb categorized lines = true ->
  NoDup (Category_t (working s)) ->
  exists s',
    for_each (business_categories_line E) lines s = (Returned tt, s') /\
    BusinessCategory_t (working s') =
      BusinessCategory_t (working s) ++ flat_map line_links lines /\
    NoDup (Category_t (working s')) /\
    (forall m, In m (Category_t (working s')) <->
               In m (Category_t (working s)) \/
               In m (List.map snd (flat_map line_links lines))).
Proof.
  revert s. induction lines as [|l lines IH]; intros s Hl Hnd.
  - exists s. simpl. rewrite app_nil_r. repeat split; auto.
    intros [H|[]]; exact H.
  - simpl in Hl. apply andb_prop in Hl. destruct Hl as (Hl1 & Hl2).
    unfold categorized in Hl1.
    destruct (line_categories l) as [[b cs]|] eqn:Hlc; [|discriminate].
    simpl for_each. unfold bind.
    rewrite (category_line_rows l b cs s Hlc).
    destruct (category_rows_accepted E category_accepted link_accepted
                b cs s Hnd) as (s1 & Hr & _ & Hb & Hn & Hi).
    rewrite Hr.
    destruct (IH s1 Hl2 Hn) as (s' & Hr' & Hb' & Hn' & Hi').
    exists s'. split; [exact Hr'|].
    assert (Hlinks : line_links l
                     = List.map (pair b) (List.map cleanStr4SQL cs)).
    { unfold line_links. rewrite Hlc. reflexivity. }
    split; [|split; [exact Hn'|]].
    + rewrite Hb', Hb. simpl flat_map. rewrite Hlinks, app_assoc.
      reflexivity.
    + intros m. rewrite Hi', Hi. simpl flat_map. rewrite Hlinks.
      rewrite map_app, in_app_iff.
      rewrite (map_map (pair b) snd). simpl. rewrite map_id. tauto.
Qed.

Lemma category_lines_present (lines : list line) (s : session) :
  forallb categorized lines = true ->
  (forall m, In m (List.map snd (flat_map line_links lines)) ->
             In m (Category_t (working s))) ->
  Category_t (working (snd (for_each (business_categories_line E) lines s)))
    = Category_t (working s).
Proof.
  revert s. induction lines as [|l lines IH]; intros s Hl Hin;
    [reflexivity|].
  simpl in Hl. apply andb_prop in Hl. destruct Hl as (Hl1 & Hl2).
  unfold categorized in Hl1.
  destruct (line_categories l) as [[b cs]|] eqn:Hlc; [|discriminate].
  assert (Hlinks : line_links l
                   = List.map (pair b) (List.map cleanStr4SQL cs)).
  { unfold line_links. rewrite Hlc. reflexivity. }
  simpl flat_map in Hin. rewrite Hlinks, map_app in Hin.
  rewrite (map_map (pair b) snd) in Hin. simpl in Hin. rewrite map_id in Hin.
  simpl for_each. unfold bind.
  rewrite (category_line_rows l b cs s Hlc).
  assert (H1 : Category_t (working (snd (for_each (category_row E b) cs s)))
               = Category_t (working s)).
  { apply category_rows_present. intros c Hc. apply Hin.
    apply in_or_app. left. apply in_map. exact Hc. }
  destruct (for_each (category_row E b) cs s) as [[[]|] s1]; simpl in *.
  - rewrite IH; [exact H1|exact Hl2|].
    intros m Hm. rewrite H1. apply Hin. apply in_or_app. right. exact Hm.
  - exact H1.
Qed.

End Rerun.

(** X17. The link insert has no conflict clause, the category insert has
    one: when both runs connect, every line of the business file gets to
    its loop and the engine accepts the inserts, a second run of the
    BusinessCategory pass adds every link row of the file once more and
    leaves the Category table as the first run left it. *)
Theorem X17_second_run_repeats_links
  (E : environment) (lines : list line) (s : session) :
  (forall n d, refuses E (InsertCategory n) d = false) ->
  (forall b n d, refuses E (InsertBusinessCategory b n) d = false) ->
  yelp_business E = Some lines ->
  forallb categorized lines = true ->
  connects E (attempts s) = true ->
  connects E (S (attempts s)) = true ->
  NoDup (Category_t (committed s)) ->
  let s1 := snd (insert_business_categories E s) in
  let s2 := snd (insert_business_categories E s1) in
  BusinessCategory_t (committed s1) =
    BusinessCategory_t (committed s) ++ flat_map line_links lines /\
  BusinessCategory_t (committed s2) =
    BusinessCategory_t (committed s1) ++ flat_map line_links lines /\
  Category_t (committed s2) = Category_t (committed s1).
Proof.
  intros Hcat Hlink Hfile Hl Hc1 Hc2 Hnd s1 s2.
  (* first run *)
  destruct (category_lines_accepted E Hcat Hlink lines (entered s) Hl Hnd)
    as (t1 & Hr1 & Hb1 & Hn1 & Hi1).
  assert (Hbody1 : read_lines (yelp_business E) (business_categories_line E)
                     (entered s) = (Returned tt, t1)).
  { rewrite Hfile. unfold read_lines, bind, eval, ret. exact Hr1. }
  assert (Hs1 : s1 = emit ConnClose (emit CursorClose
                       (emit Commit (set_committed (working t1) t1)))).
  { subst s1. unfold insert_business_categories.
    rewrite (connect_psql_returned E _ s t1 Hc1 Hbody1). reflexivity. }
  assert (Ha1 : attempts s1 = S (attempts s)).
  { destruct (quiet_read_lines E TBusinessCategory (entered s))
      as (_ & Ha & _).
    simpl source in Ha. simpl line_step in Ha. rewrite Hbody1 in Ha.
    rewrite Hs1. simpl in *. exact Ha. }
  assert (Hcm1 : committed s1 = working t1) by (rewrite Hs1; reflexivity).
  (* second run *)
  assert (Hnd1 : NoDup (Category_t (working (entered s1)))).
  { simpl. rewrite Hcm1. exact Hn1. }
  destruct (category_lines_accepted E Hcat Hlink lines (entered s1) Hl Hnd1)
    as (t2 & Hr2 & Hb2 & _ & _).
  pose proof (category_lines_present E Hcat Hlink lines (entered s1) Hl)
    as Hsame.
  rewrite Hr2 in Hsame. simpl snd in Hsame.
  assert (Hbody2 : read_lines (yelp_business E) (business_categories_line E)
                     (entered s1) = (Returned tt, t2)).
  { rewrite Hfile. unfold read_lines, bind, eval, ret. exact Hr2. }
  assert (Hs2 : s2 = emit ConnClose (emit CursorClose
                       (emit Commit (set_committed (working t2) t2)))).
  { subst s2. unfold insert_business_categories.
    rewrite (connect_psql_returned E _ s1 t2);
      [reflexivity|rewrite Ha1; exact Hc2|exact Hbody2]. }
  split; [|split].
  - rewrite Hcm1, Hb1. reflexivity.
  - rewrite Hs2. simpl. rewrite Hb2. simpl. reflexivity.
  - rewrite Hs2. simpl. rewrite Hsame; [reflexivity|].
    intros m Hm. simpl. rewrite Hcm1. apply Hi1. right. exact Hm.
Qed.

Lemma X17_second_run_repeats_links_witness :
  let data := business_record "b1" "Joe's" "Bars, Nightlife" in
  let E := lenient [Some data] in
  let s := start empty_database in
  let s2 := snd (insert_business_categories E
                   (snd (insert_business_categories E s))) in
  forallb categorized [Some data] = true /\
  BusinessCategory_t (committed s2) =
    [(JStr "b1", "Bars"); (JStr "b1", "Nightlife");
     (JStr "b1", "Bars"); (JStr "b1", "Nightlife")] /\
  Category_t (committed s2) = ["Bars"; "Nightlife"].
Proof.
  intros data E s s2. split; [reflexivity|].
  destruct (X17_second_run_repeats_links E [Some data] s
              (fun _ _ => eq_refl) (fun _ _ _ => eq_refl)
              eq_refl eq_refl eq_refl eq_refl (NoDup_nil _))
    as (H1 & H2 & H3).
  split; [|reflexivity].
  unfold s2. rewrite H2, H1. reflexivity.
Defined.

(** *** Missing and empty files *)

(** X18. A pass that connects and cannot open its file executes nothing:
    the session scope rolls back, prints, closes, and the database is
    unchanged.  A pass that connects and finds its file empty executes
    nothing, commits, closes, and the database is unchanged.  Both passes
    return normally. *)
Theorem X18_missing_or_empty_file
  (E : environment) (t : table) (s : session) :
  connects E (attempts s) = true ->
  (source E t = None ->
   fst (pass E t s) = Returned tt /\
   committed (snd (pass E t s)) = committed s /\
   trace (snd (pass E t s)) =
     trace s ++ [Connect true; Cursor; Rollback; Print DatabaseError;
                 CursorClose; ConnClose]) /\
  (source E t = Some [] ->
   fst (pass E t s) = Returned tt /\
   committed (snd (pass E t s)) = committed s /\
   trace (snd (pass E t s)) =
     trace s ++ [Connect true; Cursor; Commit; CursorClose; ConnClose]).
Proof.
  intros Hc. rewrite pass_unfold. split; intros Hsrc; rewrite Hsrc.
  - rewrite (connect_psql_raised E _ s (entered s) Hc); [|reflexivity].
    simpl. repeat split. rewrite <- !app_assoc. reflexivity.
  - rewrite (connect_psql_returned E _ s (entered s) Hc); [|reflexivity].
    simpl. repeat split. rewrite <- !app_assoc. reflexivity.
Qed.

Lemma X18_missing_or_empty_file_witness :
  let E := {| refuses := fun _ _ => false;
              conflicts := fun _ _ => false;
              connects := fun _ => true;
              get_attributes := normalizer;
              yelp_business := Some [];
              yelp_user := None;
              yelp_tip := Some [];
              yelp_checkin := Some [] |} in
  connects E (attempts (start empty_database)) = true /\
  source E TYelpUser = None /\
  fst (pass E TYelpUser (start empty_database)) = Returned tt /\
  committed (snd (pass E TYelpUser (start empty_database))) = empty_database.
Proof.
  intros E. split; [reflexivity|]. split; [reflexivity|].
  destruct (X18_missing_or_empty_file E TYelpUser (start empty_database)
              eq_refl) as (H & _).
  destruct (H eq_refl) as (H1 & H2 & _).
  split; [exact H1|exact H2].
Defined.

(** *** One statement per line *)

Lemma single_row_line (E : environment) (t : table)
  (fields : list (string * json)) (s : session) :
  outer_key t = None ->
  fst (line_step E t (Some (JObj fields)) s) = Returned tt /\
  statements (trace (snd (line_step E t (Some (JObj fields)) s))) =
    statements (trace s) ++ bound_statements t (Some (JObj fields)).
Proof.
  intros Ht. destruct t; try discriminate Ht; simpl line_step;
    unfold bound_statements, line_statement.
  - unfold business_line, json_loads, bind, eval, ret, raise, try_except,
      dict_get.
    destruct (business_params (JObj fields)) as [r|]; simpl option_map.
    + unfold execute. destruct (refuses E (InsertBusiness r) (working s));
        destruct (lookup "business_id" fields); simpl;
        rewrite ?statements_app; simpl; rewrite ?app_nil_r;
        split; reflexivity.
    + destruct (lookup "business_id" fields); simpl;
        rewrite ?statements_app; simpl; rewrite ?app_nil_r;
        split; reflexivity.
  - unfold users_line, json_loads, bind, eval, ret, raise, try_except,
      dict_get.
    destruct (user_params (JObj fields)) as [r|]; simpl option_map.
    + unfold execute. destruct (refuses E (InsertYelpUser r) (working s));
        destruct (lookup "user_id" fields); simpl;
        rewrite ?statements_app; simpl; rewrite ?app_nil_r;
        split; reflexivity.
    + destruct (lookup "user_id" fields); simpl;
        rewrite ?statements_app; simpl; rewrite ?app_nil_r;
        split; reflexivity.
  - unfold tips_line, json_loads, bind, eval, ret, raise, try_except,
      dict_get.
    destruct (tip_params (JObj fields)) as [r|]; simpl option_map.
    + unfold execute. destruct (refuses E (InsertTip r) (working s));
        destruct (lookup "user_id" fields); simpl;
        rewrite ?statements_app; simpl; rewrite ?app_nil_r;
        split; reflexivity.
    + destruct (lookup "user_id" fields); simpl;
        rewrite ?statements_app; simpl; rewrite ?app_nil_r;
        split; reflexivity.
Qed.

(** X19. Over a file whose lines are all dicts, the Business, YelpUser
    and Tip loops end normally and execute, in file order, exactly one
    insert for each line that has every key the statement binds (with a
    string where the sanitizer is applied), and none for the other lines,
    whether the engine accepts the inserts or not. *)
Theorem X19_one_insert_per_line
  (E : environment) (t : table) (lines : list line) (s : session) :
  outer_key t = None ->
  forallb is_dict lines = true ->
  fst (for_each (line_step E t) lines s) = Returned tt /\
  statements (trace (snd (for_each (line_step E t) lines s))) =
    statements (trace s) ++ flat_map (bound_statements t) lines.
Proof.
  intros Ht. revert s. induction lines as [|l lines IH]; intros s Hd.
  - simpl. rewrite app_nil_r. split; reflexivity.
  - simpl in Hd. apply andb_prop in Hd. destruct Hd as (Hd1 & Hd2).
    destruct l as [[| | | | | |fields]|]; try discriminate Hd1.
    destruct (single_row_line E t fields s Ht) as (H1 & H2).
    simpl for_each. unfold bind.
    destruct (line_step E t (Some (JObj fields)) s) as [[[]|] s1];
      simpl in H1, H2; [|discriminate].
    destruct (IH s1 Hd2) as (IH1 & IH2).
    split; [exact IH1|]. rewrite IH2, H2. simpl flat_map.
    rewrite <- app_assoc. reflexivity.
Qed.

Lemma X19_one_insert_per_line_witness :
  let ann := JObj [("user_id", JStr "u1"); ("name", JStr "Ann");
                   ("yelping_since", JStr "2015-01-01"); ("tipcount", JInt 2);
                   ("fans", JInt 0); ("average_stars", JFloat "4.0");
                   ("funny", JInt 1); ("useful", JInt 2); ("cool", JInt 3)] in
  let bob := JObj [("user_id", JStr "u2"); ("name", JNull)] in
  let E := lenient [] in
  let s := entered (start empty_database) in
  outer_key TYelpUser = None /\
  List.length
    (statements (trace (snd (for_each (line_step E TYelpUser)
                               [Some ann; Some bob; Some ann] s)))) = 2.
Proof.
  intros ann bob E s. split; [reflexivity|].
  destruct (X19_one_insert_per_line E TYelpUser [Some ann; Some bob; Some ann]
              s eq_refl eq_refl) as (_ & H).
  rewrite H. reflexivity.
Defined.

(** *** Attributes and their values *)

Section Attributes.

Variable E : environment.

Hypothesis attribute_accepted :
  forall n d, refuses E (InsertAttribute n) d = false.
Hypothesis value_accepted :
  forall b a v d, refuses E (InsertBusinessAttributeValue b a v) d = false.

Lemma apply_attribute (n : string) (d : database) :
  NoDup (Attribute_t d) ->
  NoDup (Attribute_t (apply E (InsertAttribute n) d)) /\
  (forall m, In m (Attribute_t (apply E (InsertAttribute n) d)) <->
             In m (Attribute_t d) \/ m = n) /\
  BusinessAttributeValue_t (apply E (InsertAttribute n) d)
    = BusinessAttributeValue_t d.
Proof.
  intros Hnd. cbn [apply]. destruct (has_name n (Attribute_t d)) eqn:Hh.
  - apply has_name_In in Hh. split; [exact Hnd|]. split; [|reflexivity].
    intros m. split; [auto|]. intros [H| ->]; assumption.
  - cbn. split; [|split; [|reflexivity]].
    + apply NoDup_add; [exact Hnd|].
      intros Hin. apply has_name_In in Hin. congruence.
    + intros m. rewrite in_app_iff. simpl. intuition.
Qed.

Lemma attribute_rows_accepted (b : json) (pairs : list (string * json))
  (s : session) :
  NoDup (Attribute_t (working s)) ->
  exists s',
    for_each (attribute_row E b) pairs s = (Returned tt, s') /\
    statements (trace s') =
      statements (trace s) ++ flat_map (attribute_statements b) pairs /\
    BusinessAttributeValue_t (working s') =
      BusinessAttributeValue_t (working s)
        ++ List.map (attribute_value_row b) pairs /\
    NoDup (Attribute_t (working s')) /\
    (forall m, In m (Attribute_t (working s')) <->
               In m (Attribute_t (working s)) \/
               In m (List.map (fun p => cleanStr4SQL (fst p)) pairs)).
Proof.
  revert s. induction pairs as [|[a v] pairs IH]; intros s Hnd.
  - exists s. simpl. rewrite !app_nil_r. repeat split; auto.
    intros [H|[]]; exact H.
  - simpl for_each. unfold bind at 1.
    unfold attribute_row at 1. unfold attribute_inserts, try_except, bind.
    rewrite (execute_accepted E _ s (attribute_accepted _ _)).
    rewrite execute_accepted; [|apply value_accepted].
    set (n := cleanStr4SQL a). set (x := cleanStr4SQL (py_str v)).
    destruct (apply_attribute n (working s) Hnd) as (Hnd1 & Hin1 & Hv1).
    set (s1 := emit (Exec (InsertBusinessAttributeValue b n x) true) _).
    destruct (IH s1) as (s' & Hr & Ht & Hb & Hn & Hi).
    { subst s1.
      cbn [working emit set_working apply add_BusinessAttributeValue
             Attribute_t].
      exact Hnd1. }
    exists s'. split; [exact Hr|]. split; [|split; [|split]].
    + rewrite Ht. subst s1. cbn [trace emit set_working].
      rewrite !statements_app. simpl. rewrite <- !app_assoc. reflexivity.
    + rewrite Hb. subst s1.
      cbn [working emit set_working].
      change (apply E (InsertBusinessAttributeValue b n x)
                (apply E (InsertAttribute n) (working s)))
        with (add_BusinessAttributeValue (b, n, x)
                (apply E (InsertAttribute n) (working s))).
      cbn [add_BusinessAttributeValue BusinessAttributeValue_t].
      rewrite Hv1. simpl. rewrite <- app_assoc. reflexivity.
    + exact Hn.
    + intros m. rewrite Hi. subst s1.
      cbn [working emit set_working].
      change (apply E (InsertBusinessAttributeValue b n x)
                (apply E (InsertAttribute n) (working s)))
        with (add_BusinessAttributeValue (b, n, x)
                (apply E (InsertAttribute n) (working s))).
      cbn [add_BusinessAttributeValue Attribute_t].
      rewrite Hin1. simpl. fold n. intuition.
Qed.

End Attributes.

(** X20. When the engine accepts the Attribute and BusinessAttributeValue
    inserts, a business line whose attributes the normalizer turns into
    pairs executes, for each pair in order, the insert of the sanitized
    name into Attribute and then the insert of the value row; it adds one
    value row per pair and leaves each name exactly once in Attribute.  A
    record without [attributes] hands the normalizer the empty dict. *)
Theorem X20_attribute_before_value
  (E : environment) (data business_id attributes : json)
  (pairs : list (string * json)) (s : session) :
  (forall n d, refuses E (InsertAttribute n) d = false) ->
  (forall b a v d,
      refuses E (InsertBusinessAttributeValue b a v) d = false) ->
  subscript data "business_id" = Some business_id ->
  dict_get data "attributes" (JObj []) = Some attributes ->
  get_attributes E attributes = Some pairs ->
  NoDup (Attribute_t (working s)) ->
  exists s',
    business_attributes_line E (Some data) s = (Returned tt, s') /\
    statements (trace s') =
      statements (trace s)
        ++ flat_map (attribute_statements business_id) pairs /\
    BusinessAttributeValue_t (working s') =
      BusinessAttributeValue_t (working s)
        ++ List.map (attribute_value_row business_id) pairs /\
    NoDup (Attribute_t (working s')) /\
    (forall pair, In pair pairs ->
       count_occ string_dec (Attribute_t (working s'))
         (cleanStr4SQL (fst pair)) = 1).
Proof.
  intros Hattr Hval Hid Hget Hnorm Hnd.
  destruct (attribute_rows_accepted E Hattr Hval business_id pairs s Hnd)
    as (s' & Hr & Ht & Hb & Hn & Hi).
  exists s'. split; [|split; [exact Ht|split; [exact Hb|split; [exact Hn|]]]].
  - unfold business_attributes_line, json_loads, bind, eval, ret.
    rewrite Hid, Hget, Hnorm. exact Hr.
  - intros pair Hin. apply NoDup_count_occ'; [exact Hn|].
    apply Hi. right.
    apply (in_map (fun p => cleanStr4SQL (fst p)) pairs pair Hin).
Qed.

Lemma X20_attribute_before_value_witness :
  let attributes := JObj [("WiFi", JStr "u'free'");
                          ("Parking", JObj [("garage", JBool false);
                                            ("lot", JBool true)])] in
  let data := JObj [("business_id", JStr "b1");
                    ("attributes", attributes)] in
  let E := lenient [] in
  exists s',
    business_attributes_line E (Some data) (entered (start empty_database))
      = (Returned tt, s') /\
    BusinessAttributeValue_t (working s') =
      [(JStr "b1", "WiFi", "u`free`");
       (JStr "b1", "Parking.garage", "False");
       (JStr "b1", "Parking.lot", "True")].
Proof.
  intros attributes data E.
  destruct (X20_attribute_before_value E data (JStr "b1") attributes
              [("WiFi", JStr "u'free'"); ("Parking.garage", JBool false);
               ("Parking.lot", JBool true)]
              (entered (start empty_database))
              (fun _ _ => eq_refl) (fun _ _ _ _ => eq_refl)
              eq_refl eq_refl eq_refl (NoDup_nil _))
    as (s' & H1 & _ & H3 & _).
  exists s'. split; [exact H1|exact H3].
Defined.
